(** * OPC UA PubSub UADP codec (opcua_uadp.py, benchmark_leve.py)

    A shallow embedding of the binary codec of the MicroPython OPC UA PubSub
    library: the scalar encoders and decoders, the DataValue envelope, the
    DataSetMessage and NetworkMessage framings, and the interop encoder of
    the benchmark.

    Host-language data is modelled as follows.
    - Python [int] is [Z]; buffer offsets are Python ints, hence [Z] too.
    - [bytes] and [bytearray] are [list byte]; a bytearray is threaded
      through the encoders by explicit state passing ([append], [extend]).
    - [str] is the list of its code points; [encode('utf-8')] and
      [decode('utf-8')] are the UTF-8 transformations on such lists.
    - [float] is a binary64 [spec_float]; the struct formats ['<f'] and
      ['<d'] round to binary32 and binary64 and lay the IEEE-754 bits out
      little-endian, and unpacking widens back to binary64.
    - A raised exception is the [Raise] outcome of the [result] type. *)

From Stdlib Require Import ZArith List Lia Bool String Ascii SpecFloat.
From Stdlib Require Import Strings.Byte.
Import ListNotations.
Local Open Scope Z_scope.

(** ** Outcomes: a value or a raised exception *)

Inductive exn : Type :=
| TypeError
| ValueError
| AttributeError
| IndexError
| OverflowError
| UnicodeError.

Inductive result (A : Type) : Type :=
| Ok (a : A)
| Raise (e : exn).

Arguments Ok {A} a.
Arguments Raise {A} e.

Definition bind {A B : Type} (r : result A) (k : A -> result B) : result B :=
  match r with
  | Ok a => k a
  | Raise e => Raise e
  end.

Notation "x <- r ;; k" := (bind r (fun x => k))
  (at level 61, r at next level, right associativity).
Notation "' pat <- r ;; k" := (bind r (fun x => match x with pat => k end))
  (at level 61, pat pattern, r at next level, right associativity).

(** [for x in xs: acc = step(acc, x)] with a step that may raise. *)
Fixpoint for_each {A S : Type} (step : S -> A -> result S) (xs : list A) (acc : S)
  : result S :=
  match xs with
  | [] => Ok acc
  | x :: rest => acc' <- step acc x ;; for_each step rest acc'
  end.

(** A list comprehension [[f(x) for x in xs]] whose body may raise. *)
Fixpoint comprehension {A B : Type} (f : A -> result B) (xs : list A)
  : result (list B) :=
  match xs with
  | [] => Ok []
  | x :: rest => y <- f x ;; ys <- comprehension f rest ;; Ok (y :: ys)
  end.

(** ** Bytes *)

Definition bytes : Type := list byte.

Definition Z_of_byte (b : byte) : Z := Z.of_N (Byte.to_N b).

(** Storing an integer in one byte keeps its low eight bits, as
    MicroPython's bytearray and ustruct do. *)
Definition byte_of_Z (z : Z) : byte :=
  match Byte.of_N (Z.to_N (z mod 256)) with
  | Some b => b
  | None => x00
  end.

Definition len {A : Type} (l : list A) : Z := Z.of_nat (List.length l).

(** [buffer.append(x)] and [buffer.extend(bs)] on a bytearray. *)
Definition append (buffer : bytes) (x : Z) : bytes := buffer ++ [byte_of_Z x].
Definition extend (buffer : bytes) (bs : bytes) : bytes := buffer ++ bs.

(** Index normalisation of a slice bound: negative bounds count from the
    end, and the bound is clamped to the sequence. *)
Definition slice_bound (n i : Z) : Z :=
  let i := if i <? 0 then i + n else i in
  if i <? 0 then 0 else if n <? i then n else i.

(** [data[lo:hi]]. *)
Definition slice {A : Type} (data : list A) (lo hi : Z) : list A :=
  let n := len data in
  let lo := slice_bound n lo in
  let hi := slice_bound n hi in
  firstn (Z.to_nat (hi - lo)) (skipn (Z.to_nat lo) data).

(** [data[lo:]]. *)
Definition slice_from {A : Type} (data : list A) (lo : Z) : list A :=
  skipn (Z.to_nat (slice_bound (len data) lo)) data.

(** [data[:n]]. *)
Definition slice_to {A : Type} (data : list A) (hi : Z) : list A :=
  firstn (Z.to_nat (slice_bound (len data) hi)) data.

(** [data[i]] on bytes: an int, or IndexError. *)
Definition index (data : bytes) (i : Z) : result Z :=
  let n := len data in
  let i := if i <? 0 then i + n else i in
  if (i <? 0) || (n <=? i) then Raise IndexError
  else match nth_error data (Z.to_nat i) with
       | Some b => Ok (Z_of_byte b)
       | None => Raise IndexError
       end.

(** ** Little-endian integers *)

Fixpoint le_bytes (size : nat) (z : Z) : bytes :=
  match size with
  | O => []
  | S k => byte_of_Z z :: le_bytes k (z / 256)
  end.

Fixpoint le_value (bs : bytes) : Z :=
  match bs with
  | [] => 0
  | b :: rest => Z_of_byte b + 256 * le_value rest
  end.

Definition to_signed (size : nat) (u : Z) : Z :=
  let half := 2 ^ (8 * Z.of_nat size - 1) in
  if u <? half then u else u - 2 * half.

(** ** IEEE-754 interchange formats

    A format is given by the width [mw] of its trailing significand field
    and the width [ew] of its exponent field: binary32 is [(23, 8)],
    binary64 is [(52, 11)]. *)

Definition fprec (mw : Z) : Z := mw + 1.
Definition femax (ew : Z) : Z := 2 ^ (ew - 1).
Definition femin (mw ew : Z) : Z := 3 - femax ew - fprec mw.

Definition sign_bit (s : bool) : Z := if s then 1 else 0.

(** Conversion of a float to the format, rounding to nearest even. *)
Definition float_round (mw ew : Z) (f : spec_float) : spec_float :=
  match f with
  | S754_finite s m e => binary_round (fprec mw) (femax ew) s m e
  | _ => f
  end.

(** The bit pattern of a float of the format, as an unsigned integer. *)
Definition float_bits (mw ew : Z) (f : spec_float) : Z :=
  match f with
  | S754_zero s => sign_bit s * 2 ^ (mw + ew)
  | S754_infinity s => sign_bit s * 2 ^ (mw + ew) + (2 ^ ew - 1) * 2 ^ mw
  | S754_nan => (2 ^ ew - 1) * 2 ^ mw + 2 ^ (mw - 1)
  | S754_finite s m e =>
      if Zpos m <? 2 ^ mw
      then sign_bit s * 2 ^ (mw + ew) + Zpos m
      else sign_bit s * 2 ^ (mw + ew)
           + (e - femin mw ew + 1) * 2 ^ mw + (Zpos m - 2 ^ mw)
  end.

(** The float denoted by a bit pattern of the format. *)
Definition float_of_bits (mw ew : Z) (x : Z) : spec_float :=
  let s := Z.odd (x / 2 ^ (mw + ew)) in
  let biased := (x / 2 ^ mw) mod 2 ^ ew in
  let mant := x mod 2 ^ mw in
  if biased =? 0 then
    match mant with
    | Zpos m => S754_finite s m (femin mw ew)
    | _ => S754_zero s
    end
  else if biased =? 2 ^ ew - 1 then
    if mant =? 0 then S754_infinity s else S754_nan
  else
    match mant + 2 ^ mw with
    | Zpos m => S754_finite s m (biased - 1 + femin mw ew)
    | _ => S754_nan
    end.

(** The interpreter's own floats are binary64. [host_float] brings a float
    of another format into that form; for a binary32 value this is exact. *)
Definition host_float (f : spec_float) : spec_float := float_round 52 11 f.

(** [float(z)] for an int: the nearest binary64 value. *)
Definition float_of_int (z : Z) : spec_float :=
  binary_normalize (fprec 52) (femax 11) z 0 false.

(** [int(f)] for a float: truncation towards zero. *)
Definition int_of_float (f : spec_float) : result Z :=
  match f with
  | S754_zero _ => Ok 0
  | S754_infinity _ => Raise OverflowError
  | S754_nan => Raise ValueError
  | S754_finite s m e =>
      let mag := if 0 <=? e then Zpos m * 2 ^ e else Zpos m / 2 ^ (- e) in
      Ok (if s then - mag else mag)
  end.

(** ** Host values *)

(** A text string is the list of its code points. *)
Definition pystr : Type := list Z.

(** The code points of an ASCII literal. *)
Fixpoint text (s : string) : pystr :=
  match s with
  | EmptyString => []
  | String c rest => Z.of_N (N_of_ascii c) :: text rest
  end.

(** The values the codec distinguishes by [isinstance]: None, bool, int,
    float, str, bytes. [PyObject] is an object of any other class, known
    only by its truth value. *)
Inductive pyval : Type :=
| PyNone
| PyBool (b : bool)
| PyInt (z : Z)
| PyFloat (f : spec_float)
| PyStr (s : pystr)
| PyBytes (bs : bytes)
| PyObject (truth : bool).

(** What the interpreter supplies from outside the codec: the clock read
    by [time.time()] (seconds, or the exception it raised), the printed
    form of the values whose [str()] is implementation-defined, and the
    integer that [int()] reads from a str or bytes object ([int('12')] is
    12), or the exception it raises for one that holds no numeral. *)
Record runtime : Type := {
  time_time : result Z;
  py_repr : pyval -> pystr;
  parse_int : pyval -> result Z
}.

(** [1 if value else 0]: the truth value of an object. *)
Definition truthy (v : pyval) : bool :=
  match v with
  | PyNone => false
  | PyBool b => b
  | PyInt z => negb (z =? 0)
  | PyFloat f =>
      match f with
      | S754_zero _ => false
      | _ => true
      end
  | PyStr s => match s with [] => false | _ => true end
  | PyBytes bs => match bs with [] => false | _ => true end
  | PyObject t => t
  end.

(** Decimal digits of a non-negative number, least significant first in
    the accumulator. *)
Fixpoint digits_acc (fuel : nat) (n : Z) (acc : pystr) : pystr :=
  match fuel with
  | O => acc
  | S k =>
      let acc := (48 + n mod 10) :: acc in
      if n / 10 =? 0 then acc else digits_acc k (n / 10) acc
  end.

Definition str_of_int (z : Z) : pystr :=
  let mag := Z.abs z in
  let ds := digits_acc (S (Z.to_nat (Z.log2 mag))) mag [] in
  if z <? 0 then 45 :: ds else ds.

(** [str(value)]. *)
Definition py_str (rt : runtime) (v : pyval) : pystr :=
  match v with
  | PyNone => text "None"
  | PyBool true => text "True"
  | PyBool false => text "False"
  | PyInt z => str_of_int z
  | PyStr s => s
  | _ => py_repr rt v
  end.

(** [int(value)]: the number itself for the numeric values, and for text
    and bytes the numeral that the interpreter reads from them. *)
Definition py_int (rt : runtime) (v : pyval) : result Z :=
  match v with
  | PyInt z => Ok z
  | PyBool b => Ok (sign_bit b)
  | PyFloat f => int_of_float f
  | PyStr _ | PyBytes _ => parse_int rt v
  | PyNone | PyObject _ => Raise TypeError
  end.

(** ** UTF-8 *)

Definition is_cont (z : Z) : bool := (128 <=? z) && (z <? 192).

(** The UTF-8 bytes of one code point. Surrogates cannot be encoded. *)
Definition utf8_encode_cp (cp : Z) : result bytes :=
  if cp <? 0 then Raise ValueError
  else if cp <? 128 then Ok [byte_of_Z cp]
  else if cp <? 2048 then
    Ok [byte_of_Z (192 + cp / 64); byte_of_Z (128 + cp mod 64)]
  else if cp <? 65536 then
    if (55296 <=? cp) && (cp <=? 57343) then Raise UnicodeError
    else Ok [byte_of_Z (224 + cp / 4096);
             byte_of_Z (128 + (cp / 64) mod 64);
             byte_of_Z (128 + cp mod 64)]
  else if cp <? 1114112 then
    Ok [byte_of_Z (240 + cp / 262144);
        byte_of_Z (128 + (cp / 4096) mod 64);
        byte_of_Z (128 + (cp / 64) mod 64);
        byte_of_Z (128 + cp mod 64)]
  else Raise ValueError.

(** [s.encode('utf-8')]. *)
Fixpoint utf8_encode (s : pystr) : result bytes :=
  match s with
  | [] => Ok []
  | cp :: rest =>
      bs <- utf8_encode_cp cp ;;
      tl <- utf8_encode rest ;;
      Ok (bs ++ tl)
  end.

(** [bs.decode('utf-8')]: strict decoding; overlong forms, surrogates,
    stray continuation bytes and truncated sequences raise. *)
Fixpoint utf8_decode (bs : bytes) : result pystr :=
  match bs with
  | [] => Ok []
  | b0 :: t0 =>
      let z0 := Z_of_byte b0 in
      if z0 <? 128 then
        s <- utf8_decode t0 ;; Ok (z0 :: s)
      else if z0 <? 194 then Raise UnicodeError
      else if z0 <? 224 then
        match t0 with
        | b1 :: t1 =>
            let z1 := Z_of_byte b1 in
            if is_cont z1 then
              s <- utf8_decode t1 ;;
              Ok (((z0 - 192) * 64 + (z1 - 128)) :: s)
            else Raise UnicodeError
        | _ => Raise UnicodeError
        end
      else if z0 <? 240 then
        match t0 with
        | b1 :: b2 :: t2 =>
            let z1 := Z_of_byte b1 in
            let z2 := Z_of_byte b2 in
            let cp := (z0 - 224) * 4096 + (z1 - 128) * 64 + (z2 - 128) in
            if is_cont z1 && is_cont z2 && (2048 <=? cp)
               && negb ((55296 <=? cp) && (cp <=? 57343)) then
              s <- utf8_decode t2 ;; Ok (cp :: s)
            else Raise UnicodeError
        | _ => Raise UnicodeError
        end
      else if z0 <? 245 then
        match t0 with
        | b1 :: b2 :: b3 :: t3 =>
            let z1 := Z_of_byte b1 in
            let z2 := Z_of_byte b2 in
            let z3 := Z_of_byte b3 in
            let cp := (z0 - 240) * 262144 + (z1 - 128) * 4096
                      + (z2 - 128) * 64 + (z3 - 128) in
            if is_cont z1 && is_cont z2 && is_cont z3
               && (65536 <=? cp) && (cp <? 1114112) then
              s <- utf8_decode t3 ;; Ok (cp :: s)
            else Raise UnicodeError
        | _ => Raise UnicodeError
        end
      else Raise UnicodeError
  end.

(** ** The [ustruct] module

    The struct library of the interpreter, as far as the codec uses it:
    little-endian formats only, one value per call. MicroPython packs the
    low-order bytes of an integer that does not fit the format, and raises
    ValueError ("buffer too small") when [unpack_from] would leave the
    buffer. *)

Module ustruct.

(** The little-endian integer formats ['<b'] ... ['<Q']. *)
Inductive int_format : Type :=
| Fmt_b | Fmt_B | Fmt_h | Fmt_H | Fmt_i | Fmt_I | Fmt_q | Fmt_Q.

(** The little-endian float formats ['<f'] and ['<d']. *)
Inductive float_format : Type := Fmt_f | Fmt_d.

Definition calcsize (fmt : int_format) : nat :=
  match fmt with
  | Fmt_b | Fmt_B => 1
  | Fmt_h | Fmt_H => 2
  | Fmt_i | Fmt_I => 4
  | Fmt_q | Fmt_Q => 8
  end%nat.

Definition signed (fmt : int_format) : bool :=
  match fmt with
  | Fmt_b | Fmt_h | Fmt_i | Fmt_q => true
  | _ => false
  end.

Definition float_size (fmt : float_format) : nat :=
  match fmt with Fmt_f => 4 | Fmt_d => 8 end%nat.

Definition mant_width (fmt : float_format) : Z :=
  match fmt with Fmt_f => 23 | Fmt_d => 52 end.

Definition exp_width (fmt : float_format) : Z :=
  match fmt with Fmt_f => 8 | Fmt_d => 11 end.

(** The integer a value stands for when packed: ints and bools. *)
Definition get_int (v : pyval) : result Z :=
  match v with
  | PyInt z => Ok z
  | PyBool b => Ok (sign_bit b)
  | _ => Raise TypeError
  end.

(** The float a value stands for when packed: floats, ints and bools. *)
Definition get_float (v : pyval) : result spec_float :=
  match v with
  | PyFloat f => Ok f
  | PyInt z => Ok (float_of_int z)
  | PyBool b => Ok (float_of_int (sign_bit b))
  | _ => Raise TypeError
  end.

(** [ustruct.pack(fmt, z)] for an int [z]: the low-order bytes of [z];
    a value outside the format's range is not reported. *)
Definition pack_int (fmt : int_format) (z : Z) : bytes :=
  le_bytes (calcsize fmt) z.

(** [ustruct.pack(fmt, value)] with an integer format. *)
Definition pack (fmt : int_format) (v : pyval) : result bytes :=
  z <- get_int v ;; Ok (pack_int fmt z).

(** [ustruct.pack(fmt, value)] with a float format. *)
Definition pack_float (fmt : float_format) (v : pyval) : result bytes :=
  f <- get_float v ;;
  Ok (le_bytes (float_size fmt)
        (float_bits (mant_width fmt) (exp_width fmt)
           (float_round (mant_width fmt) (exp_width fmt) f))).

(** The bytes [unpack_from] reads: [size] bytes at [offset], a negative
    offset counting from the end; ValueError when they are not all
    there. *)
Definition window (size : nat) (data : bytes) (offset : Z) : result bytes :=
  let n := len data in
  let offset := if offset <? 0 then offset + n else offset in
  if (offset <? 0) || (n <? offset + Z.of_nat size) then Raise ValueError
  else Ok (firstn size (skipn (Z.to_nat offset) data)).

(** [ustruct.unpack_from(fmt, data, offset)[0]] with an integer format. *)
Definition unpack_from (fmt : int_format) (data : bytes) (offset : Z)
  : result Z :=
  raw <- window (calcsize fmt) data offset ;;
  Ok (if signed fmt then to_signed (calcsize fmt) (le_value raw)
      else le_value raw).

(** [ustruct.unpack_from(fmt, data, offset)[0]] with a float format. *)
Definition unpack_float_from (fmt : float_format) (data : bytes) (offset : Z)
  : result spec_float :=
  raw <- window (float_size fmt) data offset ;;
  Ok (host_float
        (float_of_bits (mant_width fmt) (exp_width fmt) (le_value raw))).

End ustruct.

Import ustruct.

(** A dict with integer keys, and [d.get(key)]. *)
Fixpoint dict_get {V : Type} (d : list (Z * V)) (key : Z) : option V :=
  match d with
  | [] => None
  | (k, v) :: rest => if k =? key then Some v else dict_get rest key
  end.

(** ** OPC UA built-in type identifiers *)

Module OPCUATypes.

Definition BOOLEAN : Z := 1.
Definition SBYTE : Z := 2.
Definition BYTE : Z := 3.
Definition INT16 : Z := 4.
Definition UINT16 : Z := 5.
Definition INT32 : Z := 6.
Definition UINT32 : Z := 7.
Definition INT64 : Z := 8.
Definition UINT64 : Z := 9.
Definition FLOAT : Z := 10.
Definition DOUBLE : Z := 11.
Definition STRING : Z := 12.
Definition DATETIME : Z := 13.
Definition GUID : Z := 14.
Definition BYTESTRING : Z := 15.

(** Infers the OPC UA type of a host value. *)
Definition from_python (value : pyval) : Z :=
  match value with
  | PyBool _ => BOOLEAN
  | PyInt value =>
      if (-128 <=? value) && (value <=? 127) then SBYTE
      else if (-32768 <=? value) && (value <=? 32767) then INT16
      else if (-2147483648 <=? value) && (value <=? 2147483647) then INT32
      else INT64
  | PyFloat _ => FLOAT
  | PyStr _ => STRING
  | PyBytes _ => BYTESTRING
  | _ => STRING
  end.

End OPCUATypes.

Module StatusCode.

Definition GOOD : Z := 0x00000000.
Definition UNCERTAIN : Z := 0x40000000.
Definition BAD : Z := 0x80000000.
Definition BAD_SENSOR_FAILURE : Z := 0x80B10000.
Definition BAD_COMMUNICATION_ERROR : Z := 0x80C00000.
Definition BAD_OUT_OF_RANGE : Z := 0x803C0000.

Definition is_good (code : Z) : bool :=
  Z.land code 0xC0000000 =? 0x00000000.

End StatusCode.

Module UADPFlags.

Definition VERSION_MASK : Z := 0x0F.
Definition PUBLISHER_ID_ENABLED : Z := 0x10.
Definition GROUP_HEADER_ENABLED : Z := 0x20.
Definition PAYLOAD_HEADER_ENABLED : Z := 0x40.
Definition EXTENDED_FLAGS1_ENABLED : Z := 0x80.

Definition PUBLISHER_ID_BYTE : Z := 0x00.
Definition PUBLISHER_ID_UINT16 : Z := 0x01.
Definition PUBLISHER_ID_UINT32 : Z := 0x02.
Definition PUBLISHER_ID_UINT64 : Z := 0x03.
Definition PUBLISHER_ID_STRING : Z := 0x04.

End UADPFlags.

Module UADPDataSetFlags.

Definition VALID : Z := 0x01.
Definition FIELD_ENCODING_VARIANT : Z := 0x00.
Definition FIELD_ENCODING_RAWDATA : Z := 0x01.
Definition FIELD_ENCODING_DATAVALUE : Z := 0x02.
Definition SEQUENCE_NUMBER_ENABLED : Z := 0x08.
Definition STATUS_ENABLED : Z := 0x10.
Definition CONFIG_VERSION_MAJOR_ENABLED : Z := 0x20.
Definition CONFIG_VERSION_MINOR_ENABLED : Z := 0x40.
Definition FLAGS2_ENABLED : Z := 0x80.

End UADPDataSetFlags.

(** ** Scalar encoder *)

Module UADPEncoder.

Definition encode_boolean (value : pyval) : result bytes :=
  Ok (pack_int Fmt_B (if truthy value then 1 else 0)).

Definition encode_sbyte (value : pyval) : result bytes := pack Fmt_b value.
Definition encode_byte (value : pyval) : result bytes := pack Fmt_B value.
Definition encode_int16 (value : pyval) : result bytes := pack Fmt_h value.
Definition encode_uint16 (value : pyval) : result bytes := pack Fmt_H value.
Definition encode_int32 (value : pyval) : result bytes := pack Fmt_i value.
Definition encode_uint32 (value : pyval) : result bytes := pack Fmt_I value.
Definition encode_int64 (value : pyval) : result bytes := pack Fmt_q value.
Definition encode_uint64 (value : pyval) : result bytes := pack Fmt_Q value.

Definition encode_float (value : pyval) : result bytes :=
  pack_float Fmt_f value.

Definition encode_double (value : pyval) : result bytes :=
  pack_float Fmt_d value.

(** Length-prefixed UTF-8; None is the null string, length -1. *)
Definition encode_string (value : pyval) : result bytes :=
  match value with
  | PyNone => Ok (pack_int Fmt_i (-1))
  | PyStr s =>
      encoded <- utf8_encode s ;;
      Ok (pack_int Fmt_i (len encoded) ++ encoded)
  | _ => Raise AttributeError
  end.

(** DateTime as a FILETIME tick count; without a timestamp the clock of
    the runtime is read, and a failing clock gives 0. *)
Definition encode_datetime (rt : runtime) (timestamp : pyval) : result bytes :=
  let filetime :=
    match timestamp with
    | PyNone =>
        match time_time rt with
        | Ok now =>
            let secs := now + 946684800 in
            PyInt ((secs + 11644473600) * 10000000)
        | Raise _ => PyInt 0
        end
    | _ => timestamp
    end in
  ticks <- py_int rt filetime ;;
  Ok (pack_int Fmt_Q ticks).

(** Length-prefixed bytes; None is the null byte string, length -1. *)
Definition encode_bytestring (value : pyval) : result bytes :=
  match value with
  | PyNone => Ok (pack_int Fmt_i (-1))
  | PyBytes bs => Ok (pack_int Fmt_i (len bs) ++ bs)
  | _ => Raise TypeError
  end.

Definition encode_status_code (code : Z) : bytes := pack_int Fmt_I code.

Definition encoders (rt : runtime) : list (Z * (pyval -> result bytes)) :=
  [ (OPCUATypes.BOOLEAN, encode_boolean);
    (OPCUATypes.SBYTE, encode_sbyte);
    (OPCUATypes.BYTE, encode_byte);
    (OPCUATypes.INT16, encode_int16);
    (OPCUATypes.UINT16, encode_uint16);
    (OPCUATypes.INT32, encode_int32);
    (OPCUATypes.UINT32, encode_uint32);
    (OPCUATypes.INT64, encode_int64);
    (OPCUATypes.UINT64, encode_uint64);
    (OPCUATypes.FLOAT, encode_float);
    (OPCUATypes.DOUBLE, encode_double);
    (OPCUATypes.STRING, encode_string);
    (OPCUATypes.DATETIME, encode_datetime rt);
    (OPCUATypes.BYTESTRING, encode_bytestring) ].

(** Encodes a value at the given type, or at the inferred type when no
    type is given; an unknown type falls back to the string form. *)
Definition encode_value (rt : runtime) (value : pyval) (type_id : option Z)
  : result bytes :=
  let type_id :=
    match type_id with
    | None => OPCUATypes.from_python value
    | Some t => t
    end in
  match dict_get (encoders rt) type_id with
  | Some encoder => encoder value
  | None => encode_string (PyStr (py_str rt value))
  end.

End UADPEncoder.

(** ** Scalar decoder

    Every decoder returns the value read and the offset after it. *)

Module UADPDecoder.

Definition decode_boolean (data : bytes) (offset : Z) : result (bool * Z) :=
  value <- unpack_from Fmt_B data offset ;;
  Ok (negb (value =? 0), offset + 1).

Definition decode_sbyte (data : bytes) (offset : Z) : result (Z * Z) :=
  value <- unpack_from Fmt_b data offset ;;
  Ok (value, offset + 1).

Definition decode_byte (data : bytes) (offset : Z) : result (Z * Z) :=
  value <- unpack_from Fmt_B data offset ;;
  Ok (value, offset + 1).

Definition decode_int16 (data : bytes) (offset : Z) : result (Z * Z) :=
  value <- unpack_from Fmt_h data offset ;;
  Ok (value, offset + 2).

Definition decode_uint16 (data : bytes) (offset : Z) : result (Z * Z) :=
  value <- unpack_from Fmt_H data offset ;;
  Ok (value, offset + 2).

Definition decode_int32 (data : bytes) (offset : Z) : result (Z * Z) :=
  value <- unpack_from Fmt_i data offset ;;
  Ok (value, offset + 4).

Definition decode_uint32 (data : bytes) (offset : Z) : result (Z * Z) :=
  value <- unpack_from Fmt_I data offset ;;
  Ok (value, offset + 4).

Definition decode_int64 (data : bytes) (offset : Z) : result (Z * Z) :=
  value <- unpack_from Fmt_q data offset ;;
  Ok (value, offset + 8).

Definition decode_uint64 (data : bytes) (offset : Z) : result (Z * Z) :=
  value <- unpack_from Fmt_Q data offset ;;
  Ok (value, offset + 8).

Definition decode_float (data : bytes) (offset : Z)
  : result (spec_float * Z) :=
  value <- unpack_float_from Fmt_f data offset ;;
  Ok (value, offset + 4).

Definition decode_double (data : bytes) (offset : Z)
  : result (spec_float * Z) :=
  value <- unpack_float_from Fmt_d data offset ;;
  Ok (value, offset + 8).

(** The result is [None] for the null string. *)
Definition decode_string (data : bytes) (offset : Z)
  : result (option pystr * Z) :=
  length <- unpack_from Fmt_i data offset ;;
  let offset := offset + 4 in
  if length <? 0 then Ok (None, offset)
  else
    value <- utf8_decode (slice data offset (offset + length)) ;;
    Ok (Some value, offset + length).

Definition decode_datetime (data : bytes) (offset : Z) : result (Z * Z) :=
  filetime <- unpack_from Fmt_Q data offset ;;
  Ok (filetime, offset + 8).

(** The result is [None] for the null byte string. *)
Definition decode_bytestring (data : bytes) (offset : Z)
  : result (option bytes * Z) :=
  length <- unpack_from Fmt_i data offset ;;
  let offset := offset + 4 in
  if length <? 0 then Ok (None, offset)
  else
    let value := slice data offset (offset + length) in
    Ok (Some value, offset + length).

(** The decoders seen as returning host values. *)
Definition returning {A : Type} (inj : A -> pyval)
  (decoder : bytes -> Z -> result (A * Z)) (data : bytes) (offset : Z)
  : result (pyval * Z) :=
  '(value, offset) <- decoder data offset ;; Ok (inj value, offset).

Definition optional {A : Type} (inj : A -> pyval) (o : option A) : pyval :=
  match o with
  | Some a => inj a
  | None => PyNone
  end.

Definition decoders : list (Z * (bytes -> Z -> result (pyval * Z))) :=
  [ (OPCUATypes.BOOLEAN, returning PyBool decode_boolean);
    (OPCUATypes.SBYTE, returning PyInt decode_sbyte);
    (OPCUATypes.BYTE, returning PyInt decode_byte);
    (OPCUATypes.INT16, returning PyInt decode_int16);
    (OPCUATypes.UINT16, returning PyInt decode_uint16);
    (OPCUATypes.INT32, returning PyInt decode_int32);
    (OPCUATypes.UINT32, returning PyInt decode_uint32);
    (OPCUATypes.INT64, returning PyInt decode_int64);
    (OPCUATypes.UINT64, returning PyInt decode_uint64);
    (OPCUATypes.FLOAT, returning PyFloat decode_float);
    (OPCUATypes.DOUBLE, returning PyFloat decode_double);
    (OPCUATypes.STRING, returning (optional PyStr) decode_string);
    (OPCUATypes.DATETIME, returning PyInt decode_datetime);
    (OPCUATypes.BYTESTRING, returning (optional PyBytes) decode_bytestring) ].

(** Decodes a value of the given type; an unknown type raises. *)
Definition decode_value (data : bytes) (type_id : Z) (offset : Z)
  : result (pyval * Z) :=
  match dict_get decoders type_id with
  | Some decoder => decoder data offset
  | None => Raise ValueError
  end.

End UADPDecoder.

(** ** DataValue: a value with status and timestamp *)

Module UADPDataValue.

Record t : Type := {
  value : pyval;
  type_id : Z;
  status_code : Z;
  source_timestamp : pyval
}.

(** The constructor: a missing (or zero) type is inferred from the value. *)
Definition init (value : pyval) (type_id : option Z) (status_code : Z)
  (source_timestamp : pyval) : t :=
  {| value := value;
     type_id := match type_id with
                | Some ty => if ty =? 0 then OPCUATypes.from_python value else ty
                | None => OPCUATypes.from_python value
                end;
     status_code := status_code;
     source_timestamp := source_timestamp |}.

Definition encode (rt : runtime) (self : t)
  (include_status include_timestamp : bool) : result bytes :=
  let buffer : bytes := [] in
  let mask := 0x01 in
  let mask :=
    if include_status && negb (status_code self =? StatusCode.GOOD)
    then Z.lor mask 0x02 else mask in
  let mask := if include_timestamp then Z.lor mask 0x04 else mask in
  let buffer := append buffer mask in
  encoded <- UADPEncoder.encode_value rt (value self) (Some (type_id self)) ;;
  let buffer := extend buffer encoded in
  let buffer :=
    if negb (Z.land mask 0x02 =? 0)
    then extend buffer (UADPEncoder.encode_status_code (status_code self))
    else buffer in
  buffer <-
    (if negb (Z.land mask 0x04 =? 0)
     then stamp <- UADPEncoder.encode_datetime rt (source_timestamp self) ;;
          Ok (extend buffer stamp)
     else Ok buffer) ;;
  Ok buffer.

Definition encode_raw (rt : runtime) (self : t) : result bytes :=
  UADPEncoder.encode_value rt (value self) (Some (type_id self)).

Definition decode (data : bytes) (type_id : Z) (offset : Z)
  : result (t * Z) :=
  mask <- index data offset ;;
  let offset := offset + 1 in
  let value := PyNone in
  let status_code := StatusCode.GOOD in
  let timestamp := PyNone in
  '(value, offset) <-
    (if negb (Z.land mask 0x01 =? 0)
     then UADPDecoder.decode_value data type_id offset
     else Ok (value, offset)) ;;
  '(status_code, offset) <-
    (if negb (Z.land mask 0x02 =? 0)
     then UADPDecoder.decode_uint32 data offset
     else Ok (status_code, offset)) ;;
  '(timestamp, offset) <-
    (if negb (Z.land mask 0x04 =? 0)
     then '(ticks, offset) <- UADPDecoder.decode_datetime data offset ;;
          Ok (PyInt ticks, offset)
     else Ok (timestamp, offset)) ;;
  Ok (init value (Some type_id) status_code timestamp, offset).

End UADPDataValue.

(** ** DataSetMessage: the fields of one writer *)

Module UADPDataSetMessage.

Record t : Type := {
  dataset_writer_id : Z;
  sequence_number : Z;
  fields : list (pystr * pyval * Z);
  field_encoding : Z;
  status : Z
}.

Definition init (dataset_writer_id sequence_number : Z) : t :=
  {| dataset_writer_id := dataset_writer_id;
     sequence_number := sequence_number;
     fields := [];
     field_encoding := UADPDataSetFlags.FIELD_ENCODING_RAWDATA;
     status := StatusCode.GOOD |}.

Definition with_fields (self : t) (fs : list (pystr * pyval * Z)) : t :=
  {| dataset_writer_id := dataset_writer_id self;
     sequence_number := sequence_number self;
     fields := fs;
     field_encoding := field_encoding self;
     status := status self |}.

Definition add_field (self : t) (name : pystr) (value : pyval)
  (type_id : option Z) : t :=
  let type_id :=
    match type_id with
    | None => OPCUATypes.from_python value
    | Some ty => ty
    end in
  with_fields self (fields self ++ [(name, value, type_id)]).

Definition add_data_value (self : t) (name : pystr)
  (data_value : UADPDataValue.t) : t :=
  with_fields self
    (fields self ++ [(name, UADPDataValue.value data_value,
                      UADPDataValue.type_id data_value)]).

(** RawData encoding: header, then the field values with no type tags. *)
Definition encode (rt : runtime) (self : t) : result bytes :=
  let buffer : bytes := [] in
  let flags1 := UADPDataSetFlags.VALID in
  let flags1 := Z.lor flags1 (Z.shiftl (field_encoding self) 1) in
  let flags1 := Z.lor flags1 UADPDataSetFlags.SEQUENCE_NUMBER_ENABLED in
  let buffer := append buffer flags1 in
  let flags2 := 0x00 in
  let buffer := append buffer flags2 in
  let buffer :=
    extend buffer (pack_int Fmt_H (Z.land (sequence_number self) 0xFFFF)) in
  buffer <-
    for_each (fun buffer '(name, value, type_id) =>
                encoded <- UADPEncoder.encode_value rt value (Some type_id) ;;
                Ok (extend buffer encoded))
             (fields self) buffer ;;
  Ok buffer.

(** Variant encoding: header, field count, then tag and value per field. *)
Definition encode_with_types (rt : runtime) (self : t) : result bytes :=
  let buffer : bytes := [] in
  let flags1 := UADPDataSetFlags.VALID in
  let flags1 :=
    Z.lor flags1 (Z.shiftl UADPDataSetFlags.FIELD_ENCODING_VARIANT 1) in
  let flags1 := Z.lor flags1 UADPDataSetFlags.SEQUENCE_NUMBER_ENABLED in
  let buffer := append buffer flags1 in
  let buffer := append buffer 0x00 in
  let buffer :=
    extend buffer (pack_int Fmt_H (Z.land (sequence_number self) 0xFFFF)) in
  let buffer := extend buffer (pack_int Fmt_H (len (fields self))) in
  buffer <-
    for_each (fun buffer '(name, value, type_id) =>
                let buffer := append buffer type_id in
                encoded <- UADPEncoder.encode_value rt value (Some type_id) ;;
                Ok (extend buffer encoded))
             (fields self) buffer ;;
  Ok buffer.

(** [fname == name] on text. *)
Fixpoint str_eqb (a b : pystr) : bool :=
  match a, b with
  | [], [] => true
  | x :: a', y :: b' => (x =? y) && str_eqb a' b'
  | _, _ => false
  end.

Definition get_field_names (self : t) : list pystr :=
  map (fun '(name, _, _) => name) (fields self).

(** The value of the first field of that name; None when there is none. *)
Definition get_field (self : t) (name : pystr) : pyval :=
  let fix scan (fs : list (pystr * pyval * Z)) : pyval :=
    match fs with
    | [] => PyNone
    | (fname, value, type_id) :: rest =>
        if str_eqb fname name then value else scan rest
    end in
  scan (fields self).

End UADPDataSetMessage.

(** ** NetworkMessage: the outer envelope *)

Module UADPNetworkMessage.

Definition VERSION : Z := 1.

(** The last three fields are the attributes that [decode] attaches to
    the message it returns; they are absent on a constructed message. *)
Record t : Type := {
  publisher_id : pyval;
  writer_group_id : Z;
  dataset_messages : list UADPDataSetMessage.t;
  sequence_number : Z;
  timestamp : pyval;
  include_group_header : bool;
  include_payload_header : bool;
  publisher_id_type : Z;
  _raw_payload : option bytes;
  _writer_ids : option (list Z);
  _ds_count : option Z
}.

Definition init (publisher_id : pyval) (writer_group_id : Z) : t :=
  {| publisher_id := publisher_id;
     writer_group_id := writer_group_id;
     dataset_messages := [];
     sequence_number := 0;
     timestamp := PyNone;
     include_group_header := true;
     include_payload_header := true;
     publisher_id_type := UADPFlags.PUBLISHER_ID_STRING;
     _raw_payload := None;
     _writer_ids := None;
     _ds_count := None |}.

Definition set_publisher_id (self : t) (v : pyval) : t :=
  {| publisher_id := v;
     writer_group_id := writer_group_id self;
     dataset_messages := dataset_messages self;
     sequence_number := sequence_number self;
     timestamp := timestamp self;
     include_group_header := include_group_header self;
     include_payload_header := include_payload_header self;
     publisher_id_type := publisher_id_type self;
     _raw_payload := _raw_payload self;
     _writer_ids := _writer_ids self;
     _ds_count := _ds_count self |}.

Definition set_writer_group_id (self : t) (v : Z) : t :=
  {| publisher_id := publisher_id self;
     writer_group_id := v;
     dataset_messages := dataset_messages self;
     sequence_number := sequence_number self;
     timestamp := timestamp self;
     include_group_header := include_group_header self;
     include_payload_header := include_payload_header self;
     publisher_id_type := publisher_id_type self;
     _raw_payload := _raw_payload self;
     _writer_ids := _writer_ids self;
     _ds_count := _ds_count self |}.

Definition set_sequence_number (self : t) (v : Z) : t :=
  {| publisher_id := publisher_id self;
     writer_group_id := writer_group_id self;
     dataset_messages := dataset_messages self;
     sequence_number := v;
     timestamp := timestamp self;
     include_group_header := include_group_header self;
     include_payload_header := include_payload_header self;
     publisher_id_type := publisher_id_type self;
     _raw_payload := _raw_payload self;
     _writer_ids := _writer_ids self;
     _ds_count := _ds_count self |}.

(** The assignment [msg.include_group_header = v] on the public
    attribute. *)
Definition set_include_group_header (self : t) (v : bool) : t :=
  {| publisher_id := publisher_id self;
     writer_group_id := writer_group_id self;
     dataset_messages := dataset_messages self;
     sequence_number := sequence_number self;
     timestamp := timestamp self;
     include_group_header := v;
     include_payload_header := include_payload_header self;
     publisher_id_type := publisher_id_type self;
     _raw_payload := _raw_payload self;
     _writer_ids := _writer_ids self;
     _ds_count := _ds_count self |}.

(** The assignment [msg.include_payload_header = v]. *)
Definition set_include_payload_header (self : t) (v : bool) : t :=
  {| publisher_id := publisher_id self;
     writer_group_id := writer_group_id self;
     dataset_messages := dataset_messages self;
     sequence_number := sequence_number self;
     timestamp := timestamp self;
     include_group_header := include_group_header self;
     include_payload_header := v;
     publisher_id_type := publisher_id_type self;
     _raw_payload := _raw_payload self;
     _writer_ids := _writer_ids self;
     _ds_count := _ds_count self |}.

Definition set_decoded (self : t) (raw : bytes) (ids : list Z) (count : Z)
  : t :=
  {| publisher_id := publisher_id self;
     writer_group_id := writer_group_id self;
     dataset_messages := dataset_messages self;
     sequence_number := sequence_number self;
     timestamp := timestamp self;
     include_group_header := include_group_header self;
     include_payload_header := include_payload_header self;
     publisher_id_type := publisher_id_type self;
     _raw_payload := Some raw;
     _writer_ids := Some ids;
     _ds_count := Some count |}.

Definition add_dataset_message (self : t) (dataset_msg : UADPDataSetMessage.t)
  : t :=
  {| publisher_id := publisher_id self;
     writer_group_id := writer_group_id self;
     dataset_messages := dataset_messages self ++ [dataset_msg];
     sequence_number := sequence_number self;
     timestamp := timestamp self;
     include_group_header := include_group_header self;
     include_payload_header := include_payload_header self;
     publisher_id_type := publisher_id_type self;
     _raw_payload := _raw_payload self;
     _writer_ids := _writer_ids self;
     _ds_count := _ds_count self |}.

(** Part 1 of [encode]: the flags byte and the publisher id. *)
Definition encode_header (self : t) (buffer : bytes) : result bytes :=
  let flags := Z.land VERSION UADPFlags.VERSION_MASK in
  let flags := Z.lor flags UADPFlags.PUBLISHER_ID_ENABLED in
  let flags :=
    if include_group_header self
    then Z.lor flags UADPFlags.GROUP_HEADER_ENABLED else flags in
  let flags :=
    if include_payload_header self
    then Z.lor flags UADPFlags.PAYLOAD_HEADER_ENABLED else flags in
  let buffer := append buffer flags in
  match publisher_id self with
  | PyStr _ =>
      let buffer := append buffer UADPFlags.PUBLISHER_ID_STRING in
      encoded <- UADPEncoder.encode_string (publisher_id self) ;;
      Ok (extend buffer encoded)
  | PyInt _ | PyBool _ =>
      id <- get_int (publisher_id self) ;;
      if id <=? 255 then
        let buffer := append buffer UADPFlags.PUBLISHER_ID_BYTE in
        Ok (append buffer id)
      else if id <=? 65535 then
        let buffer := append buffer UADPFlags.PUBLISHER_ID_UINT16 in
        Ok (extend buffer (pack_int Fmt_H id))
      else
        let buffer := append buffer UADPFlags.PUBLISHER_ID_UINT32 in
        Ok (extend buffer (pack_int Fmt_I id))
  | _ => Ok buffer
  end.

(** Part 2 of [encode]: the group header. *)
Definition encode_group_header (self : t) (buffer : bytes) : bytes :=
  if include_group_header self then
    let group_flags := 0x03 in
    let buffer := append buffer group_flags in
    let buffer := extend buffer (pack_int Fmt_H (writer_group_id self)) in
    let buffer := extend buffer (pack_int Fmt_I 0) in
    extend buffer (pack_int Fmt_H (Z.land (sequence_number self) 0xFFFF))
  else buffer.

(** Part 3 of [encode]: the payload header. *)
Definition encode_payload_header (self : t) (buffer : bytes) : bytes :=
  if include_payload_header self then
    let buffer := append buffer (len (dataset_messages self)) in
    fold_left
      (fun buffer ds_msg =>
         extend buffer
           (pack_int Fmt_H (UADPDataSetMessage.dataset_writer_id ds_msg)))
      (dataset_messages self) buffer
  else buffer.

(** Part 4 of [encode]: the DataSet messages. *)
Definition encode_payload (rt : runtime) (self : t) (buffer : bytes)
  : result bytes :=
  if 1 <? len (dataset_messages self) then
    encoded_messages <-
      comprehension (UADPDataSetMessage.encode rt) (dataset_messages self) ;;
    let buffer :=
      fold_left (fun buffer enc_msg =>
                   extend buffer (pack_int Fmt_H (len enc_msg)))
                encoded_messages buffer in
    let buffer :=
      fold_left (fun buffer enc_msg => extend buffer enc_msg)
                encoded_messages buffer in
    Ok buffer
  else
    for_each (fun buffer ds_msg =>
                encoded <- UADPDataSetMessage.encode rt ds_msg ;;
                Ok (extend buffer encoded))
             (dataset_messages self) buffer.

(** The complete NetworkMessage. *)
Definition encode (rt : runtime) (self : t) : result bytes :=
  let buffer : bytes := [] in
  buffer <- encode_header self buffer ;;
  let buffer := encode_group_header self buffer in
  let buffer := encode_payload_header self buffer in
  buffer <- encode_payload rt self buffer ;;
  Ok buffer.

(** Minimal framing: no group header, no payload header, no sizes. *)
Definition encode_minimal (rt : runtime) (self : t) : result bytes :=
  let buffer : bytes := [] in
  let flags := Z.lor VERSION UADPFlags.PUBLISHER_ID_ENABLED in
  let buffer := append buffer flags in
  let as_string (buffer : bytes) : result bytes :=
    let buffer := append buffer UADPFlags.PUBLISHER_ID_STRING in
    encoded <- utf8_encode (py_str rt (publisher_id self)) ;;
    let pub_bytes := slice_to encoded 16 in
    let buffer := extend buffer (pack_int Fmt_i (len pub_bytes)) in
    Ok (extend buffer pub_bytes) in
  buffer <-
    match publisher_id self with
    | PyInt _ | PyBool _ =>
        id <- get_int (publisher_id self) ;;
        if id <=? 255 then
          let buffer := append buffer UADPFlags.PUBLISHER_ID_BYTE in
          Ok (append buffer id)
        else as_string buffer
    | _ => as_string buffer
    end ;;
  let buffer := append buffer (len (dataset_messages self)) in
  buffer <-
    for_each (fun buffer ds_msg =>
                encoded <- UADPDataSetMessage.encode rt ds_msg ;;
                Ok (extend buffer encoded))
             (dataset_messages self) buffer ;;
  Ok buffer.

(** Decodes the headers of a NetworkMessage; the DataSet messages stay
    undecoded in [_raw_payload]. The result is [None] for a message that
    is too short or whose version is not supported (the diagnostic that
    is printed in that case is not modelled). *)
Definition decode (data : bytes) : result (option t) :=
  if len data <? 2 then Ok None
  else
    let offset := 0 in
    let msg := init (PyStr []) 0 in
    flags <- index data offset ;;
    let offset := offset + 1 in
    let version := Z.land flags UADPFlags.VERSION_MASK in
    if negb (version =? 1) then Ok None
    else
      let has_publisher_id := Z.land flags UADPFlags.PUBLISHER_ID_ENABLED in
      let has_group_header := Z.land flags UADPFlags.GROUP_HEADER_ENABLED in
      let has_payload_header :=
        Z.land flags UADPFlags.PAYLOAD_HEADER_ENABLED in
      '(msg, offset) <-
        (if negb (has_publisher_id =? 0) then
           pub_type <- index data offset ;;
           let offset := offset + 1 in
           if pub_type =? UADPFlags.PUBLISHER_ID_BYTE then
             id <- index data offset ;;
             Ok (set_publisher_id msg (PyInt id), offset + 1)
           else if pub_type =? UADPFlags.PUBLISHER_ID_UINT16 then
             id <- unpack_from Fmt_H data offset ;;
             Ok (set_publisher_id msg (PyInt id), offset + 2)
           else if pub_type =? UADPFlags.PUBLISHER_ID_UINT32 then
             id <- unpack_from Fmt_I data offset ;;
             Ok (set_publisher_id msg (PyInt id), offset + 4)
           else if pub_type =? UADPFlags.PUBLISHER_ID_STRING then
             '(id, offset) <- UADPDecoder.decode_string data offset ;;
             Ok (set_publisher_id msg (UADPDecoder.optional PyStr id), offset)
           else Ok (msg, offset)
         else Ok (msg, offset)) ;;
      '(msg, offset) <-
        (if negb (has_group_header =? 0) then
           group_flags <- index data offset ;;
           let offset := offset + 1 in
           '(msg, offset) <-
             (if negb (Z.land group_flags 0x01 =? 0) then
                id <- unpack_from Fmt_H data offset ;;
                Ok (set_writer_group_id msg id, offset + 2)
              else Ok (msg, offset)) ;;
           let offset :=
             if negb (Z.land group_flags 0x02 =? 0) then offset + 4
             else offset in
           if negb (Z.land group_flags 0x04 =? 0) then
             number <- unpack_from Fmt_H data offset ;;
             Ok (set_sequence_number msg number, offset + 2)
           else Ok (msg, offset)
         else Ok (msg, offset)) ;;
      let ds_count := 1 in
      let writer_ids : list Z := [] in
      '(ds_count, writer_ids, offset) <-
        (if negb (has_payload_header =? 0) then
           ds_count <- index data offset ;;
           let offset := offset + 1 in
           '(writer_ids, offset) <-
             for_each (fun '(writer_ids, offset) _ =>
                         wid <- unpack_from Fmt_H data offset ;;
                         Ok (writer_ids ++ [wid], offset + 2))
                      (seq 0 (Z.to_nat ds_count)) (writer_ids, offset) ;;
           Ok (ds_count, writer_ids, offset)
         else Ok (ds_count, writer_ids, offset)) ;;
      Ok (Some (set_decoded msg (slice_from data offset) writer_ids ds_count)).

End UADPNetworkMessage.

(** ** The transport

    The MQTT client is handed to the publisher from outside. It is known
    here by its state [M] and by what each call does to that state and
    whether it raises. *)

Record mqtt_client (M : Type) : Type := {
  mqtt_connect : M -> M * result unit;
  mqtt_disconnect : M -> M * result unit;
  mqtt_publish : M -> pystr -> bytes -> M * result unit
}.

Arguments mqtt_connect {M} _ _.
Arguments mqtt_disconnect {M} _ _.
Arguments mqtt_publish {M} _ _ _ _.

(** ** Publisher *)

Module UADPPublisher.

Record t : Type := {
  publisher_id : pyval;
  base_topic : pystr;
  message_count : Z;
  connected : bool;
  writer_group_id : Z;
  bytes_sent : Z
}.

Definition init (publisher_id : pyval) (base_topic : pystr) : t :=
  {| publisher_id := publisher_id;
     base_topic := base_topic;
     message_count := 0;
     connected := false;
     writer_group_id := 1;
     bytes_sent := 0 |}.

Definition set_connected (self : t) (v : bool) : t :=
  {| publisher_id := publisher_id self;
     base_topic := base_topic self;
     message_count := message_count self;
     connected := v;
     writer_group_id := writer_group_id self;
     bytes_sent := bytes_sent self |}.

Definition set_message_count (self : t) (v : Z) : t :=
  {| publisher_id := publisher_id self;
     base_topic := base_topic self;
     message_count := v;
     connected := connected self;
     writer_group_id := writer_group_id self;
     bytes_sent := bytes_sent self |}.

Definition set_bytes_sent (self : t) (v : Z) : t :=
  {| publisher_id := publisher_id self;
     base_topic := base_topic self;
     message_count := message_count self;
     connected := connected self;
     writer_group_id := writer_group_id self;
     bytes_sent := v |}.

(** One value of the dict handed to [publish]: a tuple (value, type), a
    UADPDataValue, or a bare value whose type is inferred. *)
Inductive item : Type :=
| Typed (value : pyval) (type_id : option Z)
| AsDataValue (data_value : UADPDataValue.t)
| Plain (value : pyval).

Definition connect {M : Type} (mqtt_ops : mqtt_client M) (self : t) (mqtt : M)
  : t * M * bool :=
  match mqtt_connect mqtt_ops mqtt with
  | (mqtt, Ok _) => (set_connected self true, mqtt, true)
  | (mqtt, Raise _) => (set_connected self false, mqtt, false)
  end.

Definition disconnect {M : Type} (mqtt_ops : mqtt_client M) (self : t) (mqtt : M)
  : t * M :=
  match mqtt_disconnect mqtt_ops mqtt with
  | (mqtt, Ok _) => (set_connected self false, mqtt)
  | (mqtt, Raise _) => (self, mqtt)
  end.

(** The topic of a publication: the base topic, followed by [/suffix] for
    a suffix that is given and not empty. *)
Definition topic_of (self : t) (topic_suffix : option pystr) : pystr :=
  match topic_suffix with
  | Some (c :: suffix) => base_topic self ++ text "/" ++ (c :: suffix)
  | _ => base_topic self
  end.

(** The NetworkMessage that [publish] builds from the dict, whose items
    come in the order in which the dict yields them. *)
Definition build (self : t) (dataset_writer_id : Z)
  (data_dict : list (pystr * item)) : UADPNetworkMessage.t :=
  let net_msg :=
    UADPNetworkMessage.init (publisher_id self) (writer_group_id self) in
  let net_msg :=
    UADPNetworkMessage.set_sequence_number net_msg (message_count self) in
  let ds_msg := UADPDataSetMessage.init dataset_writer_id (message_count self) in
  let ds_msg :=
    fold_left
      (fun ds_msg '(field_name, value) =>
         match value with
         | Typed v type_id => UADPDataSetMessage.add_field ds_msg field_name v type_id
         | AsDataValue dv => UADPDataSetMessage.add_data_value ds_msg field_name dv
         | Plain v => UADPDataSetMessage.add_field ds_msg field_name v None
         end)
      data_dict ds_msg in
  UADPNetworkMessage.add_dataset_message net_msg ds_msg.

(** Publishes the dict in full framing. The result is the publisher and
    the transport afterwards and the boolean that [publish] returns. Any
    exception of the encoder or of the transport is caught. *)
Definition publish {M : Type} (mqtt_ops : mqtt_client M) (rt : runtime)
  (self : t) (mqtt : M) (dataset_writer_id : Z)
  (data_dict : list (pystr * item)) (topic_suffix : option pystr)
  : t * M * bool :=
  if negb (connected self) then (self, mqtt, false)
  else
    let self := set_message_count self (message_count self + 1) in
    let net_msg := build self dataset_writer_id data_dict in
    match UADPNetworkMessage.encode rt net_msg with
    | Raise _ => (self, mqtt, false)
    | Ok payload =>
        let topic := topic_of self topic_suffix in
        match mqtt_publish mqtt_ops mqtt topic payload with
        | (mqtt, Ok _) =>
            (set_bytes_sent self (bytes_sent self + len payload), mqtt, true)
        | (mqtt, Raise _) => (self, mqtt, false)
        end
    end.

(** One value of the dict handed to [publish_minimal], which tells
    tuples from everything else. The bare values are the host values of
    the codec; a UADPDataValue, which [publish_minimal] would add as the
    object it is, is not among them. *)
Inductive minimal_item : Type :=
| Pair (value : pyval) (type_id : option Z)
| Bare (value : pyval).

(** The NetworkMessage that [publish_minimal] builds. *)
Definition build_minimal (self : t) (dataset_writer_id : Z)
  (data_dict : list (pystr * minimal_item)) : UADPNetworkMessage.t :=
  let net_msg :=
    UADPNetworkMessage.init (publisher_id self) (writer_group_id self) in
  let net_msg :=
    UADPNetworkMessage.set_sequence_number net_msg (message_count self) in
  let ds_msg := UADPDataSetMessage.init dataset_writer_id (message_count self) in
  let ds_msg :=
    fold_left
      (fun ds_msg '(field_name, value) =>
         match value with
         | Pair v type_id => UADPDataSetMessage.add_field ds_msg field_name v type_id
         | Bare v => UADPDataSetMessage.add_field ds_msg field_name v None
         end)
      data_dict ds_msg in
  UADPNetworkMessage.add_dataset_message net_msg ds_msg.

(** Publishes the dict in minimal framing. *)
Definition publish_minimal {M : Type} (mqtt_ops : mqtt_client M) (rt : runtime)
  (self : t) (mqtt : M) (dataset_writer_id : Z)
  (data_dict : list (pystr * minimal_item)) (topic_suffix : option pystr)
  : t * M * bool :=
  if negb (connected self) then (self, mqtt, false)
  else
    let self := set_message_count self (message_count self + 1) in
    let net_msg := build_minimal self dataset_writer_id data_dict in
    match UADPNetworkMessage.encode_minimal rt net_msg with
    | Raise _ => (self, mqtt, false)
    | Ok payload =>
        let topic := topic_of self topic_suffix in
        match mqtt_publish mqtt_ops mqtt topic payload with
        | (mqtt, Ok _) =>
            (set_bytes_sent self (bytes_sent self + len payload), mqtt, true)
        | (mqtt, Raise _) => (self, mqtt, false)
        end
    end.

End UADPPublisher.

(** ** Subscriber: the handling of a received message *)

Module UADPSubscriber.

Record stats_t : Type := {
  received : Z;
  decoded : Z;
  errors : Z;
  bytes_received : Z
}.

(** What the error callback is told: the fixed text for a message that
    did not decode, or the text of a caught exception. *)
Inductive error_report : Type :=
| DecodeFailed
| Caught (e : exn).

(** The callbacks are the user's code: each acts on the user's state [W]
    and may raise. *)
Record t (W : Type) : Type := {
  _on_message_callback :
    option (W -> UADPNetworkMessage.t -> pyval -> W * result unit);
  _on_raw_callback : option (W -> pyval -> bytes -> W * result unit);
  _on_error_callback : option (W -> error_report -> bytes -> W * result unit);
  stats : stats_t
}.

Arguments _on_message_callback {W} _.
Arguments _on_raw_callback {W} _.
Arguments _on_error_callback {W} _.
Arguments stats {W} _.

Definition init (W : Type) : t W :=
  {| _on_message_callback := None;
     _on_raw_callback := None;
     _on_error_callback := None;
     stats := {| received := 0; decoded := 0; errors := 0;
                 bytes_received := 0 |} |}.

Definition set_stats {W : Type} (self : t W) (s : stats_t) : t W :=
  {| _on_message_callback := _on_message_callback self;
     _on_raw_callback := _on_raw_callback self;
     _on_error_callback := _on_error_callback self;
     stats := s |}.

Definition count_received (s : stats_t) (n : Z) : stats_t :=
  {| received := received s + 1; decoded := decoded s; errors := errors s;
     bytes_received := bytes_received s + n |}.

Definition count_decoded (s : stats_t) : stats_t :=
  {| received := received s; decoded := decoded s + 1; errors := errors s;
     bytes_received := bytes_received s |}.

Definition count_error (s : stats_t) : stats_t :=
  {| received := received s; decoded := decoded s; errors := errors s + 1;
     bytes_received := bytes_received s |}.

(** The [except Exception as e] clause of [_mqtt_callback]. *)
Definition on_exception {W : Type} (self : t W) (w : W) (e : exn)
  (payload : bytes) : W * t W * result unit :=
  let self := set_stats self (count_error (stats self)) in
  match _on_error_callback self with
  | Some callback =>
      let '(w, r) := callback w (Caught e) payload in (w, self, r)
  | None => (w, self, Ok tt)
  end.

(** The callback that the transport invokes for every message. The
    result is the user's state and the subscriber afterwards, and whether
    an exception left the callback. *)
Definition _mqtt_callback {W : Type} (self : t W) (w : W) (topic : pyval)
  (payload : bytes) : W * t W * result unit :=
  let self := set_stats self (count_received (stats self) (len payload)) in
  match
    match topic with
    | PyBytes raw =>
        match utf8_decode raw with
        | Ok s => Ok (PyStr s)
        | Raise e => Raise e
        end
    | _ => Ok topic
    end
  with
  | Raise e => (w, self, Raise e)
  | Ok topic =>
      match
        match _on_raw_callback self with
        | Some callback => callback w topic payload
        | None => (w, Ok tt)
        end
      with
      | (w, Raise e) => (w, self, Raise e)
      | (w, Ok _) =>
          match UADPNetworkMessage.decode payload with
          | Raise e => on_exception self w e payload
          | Ok (Some net_msg) =>
              let self := set_stats self (count_decoded (stats self)) in
              match _on_message_callback self with
              | Some callback =>
                  match callback w net_msg topic with
                  | (w, Ok _) => (w, self, Ok tt)
                  | (w, Raise e) => on_exception self w e payload
                  end
              | None => (w, self, Ok tt)
              end
          | Ok None =>
              let self := set_stats self (count_error (stats self)) in
              match _on_error_callback self with
              | Some callback =>
                  match callback w DecodeFailed payload with
                  | (w, Ok _) => (w, self, Ok tt)
                  | (w, Raise e) => on_exception self w e payload
                  end
              | None => (w, self, Ok tt)
              end
          end
      end
  end.

End UADPSubscriber.

(** ** The interop encoder of the benchmark *)

Module benchmark_leve.

(** DataSetClassId registered during the validation against OpcCmd. *)
Definition DATASET_CLASS_ID : bytes :=
  [ x94; x97; xe7; xea; xf7; x1a; x96; x4f;
    x84; x01; x40; x96; xcd; x1d; x89; x08 ].

(** A NetworkMessage in the interop-validated layout: one DataSet
    message, Variant field encoding. *)
Definition encode_uadp_interop (rt : runtime) (publisher_id : pyval)
  (dataset_writer_id : Z) (fields : list (pystr * pyval * Z))
  : result bytes :=
  let buf : bytes := [] in
  let buf := append buf 0xD1 in
  let buf := append buf 0x0C in
  pub_bytes <-
    match publisher_id with
    | PyStr s => utf8_encode s
    | _ => Raise AttributeError
    end ;;
  let buf := extend buf (pack_int Fmt_i (len pub_bytes)) in
  let buf := extend buf pub_bytes in
  let buf := extend buf DATASET_CLASS_ID in
  let buf := append buf 0x01 in
  let buf := extend buf (pack_int Fmt_H dataset_writer_id) in
  let buf := append buf 0x01 in
  let buf := extend buf (pack_int Fmt_H (len fields)) in
  buf <-
    for_each (fun buf '(name, value, type_id) =>
                let buf := append buf type_id in
                encoded <- UADPEncoder.encode_value rt value (Some type_id) ;;
                Ok (extend buf encoded))
             fields buf ;;
  Ok buf.

End benchmark_leve.

(** * Vocabulary of the properties *)

Import OPCUATypes.

(** Unicode scalar values: the code points that are not surrogates. *)
Definition is_scalar (cp : Z) : bool :=
  ((0 <=? cp) && (cp <? 55296)) || ((57343 <? cp) && (cp <? 1114112)).

(** The range of a signed integer type of the given bit width. *)
Definition fits (bits z : Z) : Prop :=
  - 2 ^ (bits - 1) <= z < 2 ^ (bits - 1).

(** The signed integer types in widening order, with their widths. *)
Definition signed_types : list (Z * Z) :=
  [ (SBYTE, 8); (INT16, 16); (INT32, 32); (INT64, 64) ].

(** The first type of the widening order whose range holds [z]; Int64 is
    where the widening ends. *)
Definition narrowest_signed (z : Z) : Z :=
  match find (fun '(_, bits) => (- 2 ^ (bits - 1) <=? z) && (z <? 2 ^ (bits - 1)))
             signed_types with
  | Some (t, _) => t
  | None => INT64
  end.

(** 25.5 as a binary64 float, 51 * 2^47 * 2^-48: 0x4039800000000000. *)
Definition float_25_5 : spec_float := S754_finite false 7177611906121728 (-48).

(** The encoding mask of the specification: bit 0 always, bit 1 for a
    requested status that is not Good, bit 2 for a requested timestamp. *)
Definition datavalue_mask (status_code : Z) (include_status include_timestamp : bool)
  : Z :=
  1 + (if include_status && negb (status_code =? StatusCode.GOOD) then 2 else 0)
    + (if include_timestamp then 4 else 0).

(** The 16-bit little-endian length that precedes a DataSet message. *)
Definition length_prefix (enc : bytes) : bytes := pack_int Fmt_H (len enc).

(** The payload body of the specification, from the encoded DataSet
    messages: a single message stands alone; otherwise all the length
    prefixes come first, then all the messages, both in message order. *)
Definition payload_body (encs : list bytes) : bytes :=
  match encs with
  | [ enc ] => enc
  | _ => List.concat (map length_prefix encs) ++ List.concat encs
  end.

(** The values a type can carry. A Float is a single-precision number in
    the interpreter's binary64 form; a String is text that has a UTF-8
    form; a length must fit the signed 32-bit prefix. *)
Inductive representable : Z -> pyval -> Prop :=
| rep_boolean (b : bool) : representable BOOLEAN (PyBool b)
| rep_sbyte (z : Z) : - 128 <= z <= 127 -> representable SBYTE (PyInt z)
| rep_byte (z : Z) : 0 <= z <= 255 -> representable BYTE (PyInt z)
| rep_int16 (z : Z) : - 32768 <= z <= 32767 -> representable INT16 (PyInt z)
| rep_uint16 (z : Z) : 0 <= z <= 65535 -> representable UINT16 (PyInt z)
| rep_int32 (z : Z) :
    - 2147483648 <= z <= 2147483647 -> representable INT32 (PyInt z)
| rep_uint32 (z : Z) : 0 <= z <= 4294967295 -> representable UINT32 (PyInt z)
| rep_int64 (z : Z) :
    - 9223372036854775808 <= z <= 9223372036854775807 ->
    representable INT64 (PyInt z)
| rep_uint64 (z : Z) :
    0 <= z <= 18446744073709551615 -> representable UINT64 (PyInt z)
| rep_float (w : spec_float) :
    valid_binary 24 128 w = true -> representable FLOAT (PyFloat (host_float w))
| rep_double (f : spec_float) :
    valid_binary 53 1024 f = true -> representable DOUBLE (PyFloat f)
| rep_string_null : representable STRING PyNone
| rep_string (s : pystr) (payload : bytes) :
    utf8_encode s = Ok payload -> len payload < 2147483648 ->
    representable STRING (PyStr s)
| rep_datetime (z : Z) :
    0 <= z <= 18446744073709551615 -> representable DATETIME (PyInt z)
| rep_bytestring_null : representable BYTESTRING PyNone
| rep_bytestring (payload : bytes) :
    len payload < 2147483648 -> representable BYTESTRING (PyBytes payload).

(** The encoded width of the fixed-width types. *)
Definition fixed_width (t : Z) : option Z :=
  dict_get
    [ (BOOLEAN, 1); (SBYTE, 1); (BYTE, 1); (INT16, 2); (UINT16, 2);
      (INT32, 4); (UINT32, 4); (INT64, 8); (UINT64, 8); (FLOAT, 4);
      (DOUBLE, 8); (DATETIME, 8) ] t.

(** The offset a decode must return: the fixed width, or for String and
    ByteString 4 plus the payload length, 4 for the null value. *)
Definition width_law (t : Z) (v : pyval) (n : Z) : Prop :=
  match fixed_width t with
  | Some w => n = w
  | None =>
      match v with
      | PyNone => n = 4
      | PyStr s => exists payload, utf8_encode s = Ok payload /\ n = 4 + len payload
      | PyBytes payload => n = 4 + len payload
      | _ => False
      end
  end.

(** A reader of plain decimal numerals, with an optional minus sign, for
    the runtimes of the concrete runs. *)
Fixpoint read_digits (s : pystr) (acc : Z) : result Z :=
  match s with
  | [] => Ok acc
  | c :: rest =>
      if (48 <=? c) && (c <=? 57) then read_digits rest (10 * acc + (c - 48))
      else Raise ValueError
  end.

Definition read_numeral (v : pyval) : result Z :=
  let read (s : pystr) : result Z :=
    match s with
    | [] => Raise ValueError
    | 45 :: [] => Raise ValueError
    | 45 :: digits => n <- read_digits digits 0 ;; Ok (- n)
    | digits => read_digits digits 0
    end in
  match v with
  | PyStr s => read s
  | PyBytes bs => read (map Z_of_byte bs)
  | _ => Raise TypeError
  end.

(** A runtime for the concrete runs: the clock reads 0, [py_repr] prints
    nothing and [int()] reads decimal numerals. *)
Definition example_runtime : runtime :=
  {| time_time := Ok 0; py_repr := fun _ => []; parse_int := read_numeral |}.

(** The publisher ids that minimal framing sends in string form: all but
    the integers (booleans included) that are at most 255. *)
Definition sent_as_string (publisher_id : pyval) : Prop :=
  match publisher_id with
  | PyInt z => 255 < z
  | PyBool _ => False
  | _ => True
  end.

(** A publisher id is text or an unsigned integer: the selector types are
    Byte, UInt16, UInt32, UInt64 and String. *)
Definition is_publisher_id (publisher_id : pyval) : Prop :=
  match publisher_id with
  | PyStr _ => True
  | PyInt z => 0 <= z
  | _ => False
  end.

(** A message of publisher "ESP32", writer group 1, message number 5, with
    one DataSet message of writer 1000 carrying the field T = 42. *)
Definition example_message : UADPNetworkMessage.t :=
  UADPNetworkMessage.set_sequence_number
    (UADPNetworkMessage.add_dataset_message
       (UADPNetworkMessage.init (PyStr (text "ESP32")) 1)
       (UADPDataSetMessage.add_field (UADPDataSetMessage.init 1000 5)
          (text "T") (PyInt 42) None))
    5.

(** The same message with a second DataSet message, of writer 1001,
    carrying the field P = 200. *)
Definition example_message_2 : UADPNetworkMessage.t :=
  UADPNetworkMessage.add_dataset_message example_message
    (UADPDataSetMessage.add_field (UADPDataSetMessage.init 1001 5)
       (text "P") (PyInt 200) None).

(** The DataValue that a decoder should give back for [self]: the status
    code survives only when it was asked for, the timestamp likewise. *)
Definition datavalue_sent (self : UADPDataValue.t)
  (include_status include_timestamp : bool) : UADPDataValue.t :=
  {| UADPDataValue.value := UADPDataValue.value self;
     UADPDataValue.type_id := UADPDataValue.type_id self;
     UADPDataValue.status_code :=
       if include_status then UADPDataValue.status_code self
       else StatusCode.GOOD;
     UADPDataValue.source_timestamp :=
       if include_timestamp then UADPDataValue.source_timestamp self
       else PyNone |}.

(** The bytes of a list of fields in Variant encoding: for each field its
    type tag and its encoded value. *)
Definition variant_section (rt : runtime) (fs : list (pystr * pyval * Z))
  : result bytes :=
  chunks <- comprehension
              (fun '(_, value, type_id) =>
                 encoded <- UADPEncoder.encode_value rt value (Some type_id) ;;
                 Ok (byte_of_Z type_id :: encoded))
              fs ;;
  Ok (List.concat chunks).

(** What of a field reaches the wire: its value and its type, not its
    name. *)
Definition wire_fields (fs : list (pystr * pyval * Z)) : list (pyval * Z) :=
  map (fun '(_, value, type_id) => (value, type_id)) fs.

(** The three header steps of [UADPNetworkMessage.decode], each as the
    decoder performs it at a given offset. *)
Definition read_publisher_id (data : bytes) (offset : Z)
  (msg : UADPNetworkMessage.t) : result (UADPNetworkMessage.t * Z) :=
  pub_type <- index data offset ;;
  let offset := offset + 1 in
  if pub_type =? UADPFlags.PUBLISHER_ID_BYTE then
    id <- index data offset ;;
    Ok (UADPNetworkMessage.set_publisher_id msg (PyInt id), offset + 1)
  else if pub_type =? UADPFlags.PUBLISHER_ID_UINT16 then
    id <- unpack_from Fmt_H data offset ;;
    Ok (UADPNetworkMessage.set_publisher_id msg (PyInt id), offset + 2)
  else if pub_type =? UADPFlags.PUBLISHER_ID_UINT32 then
    id <- unpack_from Fmt_I data offset ;;
    Ok (UADPNetworkMessage.set_publisher_id msg (PyInt id), offset + 4)
  else if pub_type =? UADPFlags.PUBLISHER_ID_STRING then
    '(id, offset) <- UADPDecoder.decode_string data offset ;;
    Ok (UADPNetworkMessage.set_publisher_id msg (UADPDecoder.optional PyStr id),
        offset)
  else Ok (msg, offset).

Definition read_group_header (data : bytes) (offset : Z)
  (msg : UADPNetworkMessage.t) : result (UADPNetworkMessage.t * Z) :=
  group_flags <- index data offset ;;
  let offset := offset + 1 in
  '(msg, offset) <-
    (if negb (Z.land group_flags 0x01 =? 0) then
       id <- unpack_from Fmt_H data offset ;;
       Ok (UADPNetworkMessage.set_writer_group_id msg id, offset + 2)
     else Ok (msg, offset)) ;;
  let offset :=
    if negb (Z.land group_flags 0x02 =? 0) then offset + 4 else offset in
  if negb (Z.land group_flags 0x04 =? 0) then
    number <- unpack_from Fmt_H data offset ;;
    Ok (UADPNetworkMessage.set_sequence_number msg number, offset + 2)
  else Ok (msg, offset).

Definition read_payload_header (data : bytes) (offset : Z)
  : result (Z * list Z * Z) :=
  ds_count <- index data offset ;;
  let offset := offset + 1 in
  '(writer_ids, offset) <-
    for_each (fun '(writer_ids, offset) _ =>
                wid <- unpack_from Fmt_H data offset ;;
                Ok (writer_ids ++ [wid], offset + 2))
             (seq 0 (Z.to_nat ds_count)) ([], offset) ;;
  Ok (ds_count, writer_ids, offset).

(** The publisher ids that full framing puts on the wire unchanged: text
    with a UTF-8 form shorter than 2^31 bytes, and the integers of 32
    bits. *)
Definition publisher_on_wire (publisher_id : pyval) : Prop :=
  match publisher_id with
  | PyStr s => exists pub, utf8_encode s = Ok pub /\ len pub < 2147483648
  | PyInt z => 0 <= z < 4294967296
  | _ => False
  end.

(** The message that [decode] returns for the encoding of [self] when no
    group header is sent: a fresh message with the publisher id, and the
    count, writer ids and payload bytes attached. *)
Definition decoded_headers (self : UADPNetworkMessage.t) (encs : list bytes)
  : UADPNetworkMessage.t :=
  UADPNetworkMessage.set_decoded
    (UADPNetworkMessage.set_publisher_id
       (UADPNetworkMessage.init (PyStr []) 0)
       (UADPNetworkMessage.publisher_id self))
    (payload_body encs)
    (if UADPNetworkMessage.include_payload_header self
     then map UADPDataSetMessage.dataset_writer_id
            (UADPNetworkMessage.dataset_messages self)
     else [])
    (if UADPNetworkMessage.include_payload_header self
     then len (UADPNetworkMessage.dataset_messages self)
     else 1).

(** The two-message example with the group header switched off. *)
Definition example_message_plain : UADPNetworkMessage.t :=
  UADPNetworkMessage.set_include_group_header example_message_2 false.

(** The bytes of the payload header that [encode] writes. *)
Definition payload_header_bytes (self : UADPNetworkMessage.t) : bytes :=
  if UADPNetworkMessage.include_payload_header self
  then byte_of_Z (len (UADPNetworkMessage.dataset_messages self))
       :: List.concat
            (map (pack_int Fmt_H)
               (map UADPDataSetMessage.dataset_writer_id
                  (UADPNetworkMessage.dataset_messages self)))
  else [].

(** What [decode] holds once it has read the publisher id and the group
    header of the encoding of [self]: the message number is not among
    it. *)
Definition decoded_group (self : UADPNetworkMessage.t) : UADPNetworkMessage.t :=
  UADPNetworkMessage.set_writer_group_id
    (UADPNetworkMessage.set_publisher_id
       (UADPNetworkMessage.init (PyStr []) 0)
       (UADPNetworkMessage.publisher_id self))
    (UADPNetworkMessage.writer_group_id self).

(** The message that [example_usage] encodes and decodes again. *)
Definition usage_message : UADPNetworkMessage.t :=
  UADPNetworkMessage.add_dataset_message
    (UADPNetworkMessage.init (PyStr (text "ESP32-UADP-001")) 100)
    (UADPDataSetMessage.add_field
       (UADPDataSetMessage.add_field
          (UADPDataSetMessage.add_field (UADPDataSetMessage.init 1000 1)
             (text "Temperature") (PyFloat float_25_5) (Some FLOAT))
          (text "Humidity") (PyInt 60) (Some INT32))
       (text "Status") (PyBool true) (Some BOOLEAN)).

(** ** Runs of the publisher *)

(** One call on a publisher: [publish] or [publish_minimal] with its
    arguments. *)
Inductive publish_call : Type :=
| Full (dataset_writer_id : Z) (data_dict : list (pystr * UADPPublisher.item))
       (topic_suffix : option pystr)
| Minimal (dataset_writer_id : Z)
          (data_dict : list (pystr * UADPPublisher.minimal_item))
          (topic_suffix : option pystr).

Definition run_call {M : Type} (mqtt_ops : mqtt_client M) (rt : runtime)
  (self : UADPPublisher.t) (mqtt : M) (c : publish_call)
  : UADPPublisher.t * M * bool :=
  match c with
  | Full dataset_writer_id data_dict topic_suffix =>
      UADPPublisher.publish mqtt_ops rt self mqtt dataset_writer_id data_dict
        topic_suffix
  | Minimal dataset_writer_id data_dict topic_suffix =>
      UADPPublisher.publish_minimal mqtt_ops rt self mqtt dataset_writer_id
        data_dict topic_suffix
  end.

(** The calls made one after the other, with the booleans they return. *)
Fixpoint publish_all {M : Type} (mqtt_ops : mqtt_client M) (rt : runtime)
  (self : UADPPublisher.t) (mqtt : M) (calls : list publish_call)
  : UADPPublisher.t * M * list bool :=
  match calls with
  | [] => (self, mqtt, [])
  | c :: rest =>
      let '(self, mqtt, ok) := run_call mqtt_ops rt self mqtt c in
      let '(self, mqtt, oks) := publish_all mqtt_ops rt self mqtt rest in
      (self, mqtt, ok :: oks)
  end.

(** The total size of the payloads of a list of publications. *)
Definition total_size (log : list (pystr * bytes)) : Z :=
  fold_right (fun entry n => len (snd entry) + n) 0 log.

(** A transport whose accepted publications can be observed: a
    [publish] that returns adds the one publication to them, one that
    raises adds nothing. *)
Definition keeps_log {M : Type} (mqtt_ops : mqtt_client M)
  (sent : M -> list (pystr * bytes)) : Prop :=
  forall (m : M) (topic : pystr) (payload : bytes),
    match mqtt_publish mqtt_ops m topic payload with
    | (m', Ok _) => sent m' = sent m ++ [(topic, payload)]
    | (m', Raise _) => sent m' = sent m
    end.

(** A transport that records what it accepts and refuses payloads of
    more than [limit] bytes. *)
Definition recorder (limit : Z) : mqtt_client (list (pystr * bytes)) :=
  {| mqtt_connect := fun m => (m, Ok tt);
     mqtt_disconnect := fun m => (m, Ok tt);
     mqtt_publish := fun m topic payload =>
       if len payload <=? limit then (m ++ [(topic, payload)], Ok tt)
       else (m, Raise ValueError) |}.

(** The fields that [publish] adds for the entries of its dict. *)
Definition dict_fields (data_dict : list (pystr * UADPPublisher.item))
  : list (pystr * pyval * Z) :=
  map (fun '(field_name, value) =>
         match value with
         | UADPPublisher.Typed v (Some type_id) => (field_name, v, type_id)
         | UADPPublisher.Typed v None => (field_name, v, from_python v)
         | UADPPublisher.AsDataValue dv =>
             (field_name, UADPDataValue.value dv, UADPDataValue.type_id dv)
         | UADPPublisher.Plain v => (field_name, v, from_python v)
         end)
      data_dict.

(** The fields that [publish_minimal] adds. *)
Definition dict_fields_minimal
  (data_dict : list (pystr * UADPPublisher.minimal_item))
  : list (pystr * pyval * Z) :=
  map (fun '(field_name, value) =>
         match value with
         | UADPPublisher.Pair v (Some type_id) => (field_name, v, type_id)
         | UADPPublisher.Pair v None => (field_name, v, from_python v)
         | UADPPublisher.Bare v => (field_name, v, from_python v)
         end)
      data_dict.

(** A connected publisher and a dict of two readings. *)
Definition example_publisher : UADPPublisher.t :=
  UADPPublisher.set_connected
    (UADPPublisher.init (PyStr (text "ESP32")) (text "opcua/uadp")) true.

Definition example_dict : list (pystr * UADPPublisher.item) :=
  [ (text "T", UADPPublisher.Plain (PyInt 42));
    (text "P", UADPPublisher.Typed (PyInt 200) (Some INT32)) ].

Definition example_dict_minimal : list (pystr * UADPPublisher.minimal_item) :=
  [ (text "T", UADPPublisher.Bare (PyInt 42));
    (text "P", UADPPublisher.Pair (PyInt 200) (Some INT32)) ].

(** ** Runs of the subscriber *)

(** A topic that the callback can take: text, or bytes that are UTF-8. *)
Definition readable_topic (topic : pyval) : Prop :=
  match topic with
  | PyBytes raw => exists s, utf8_decode raw = Ok s
  | _ => True
  end.

(** The callbacks of the user, where set, return without raising. *)
Definition quiet {W : Type} (self : UADPSubscriber.t W) : Prop :=
  (forall callback, UADPSubscriber._on_raw_callback self = Some callback ->
     forall w topic payload, snd (callback w topic payload) = Ok tt) /\
  (forall callback, UADPSubscriber._on_message_callback self = Some callback ->
     forall w net_msg topic, snd (callback w net_msg topic) = Ok tt) /\
  (forall callback, UADPSubscriber._on_error_callback self = Some callback ->
     forall w report payload, snd (callback w report payload) = Ok tt).

(** The payloads for which [decode] returns a message. *)
Definition accepted (payload : bytes) : bool :=
  match UADPNetworkMessage.decode payload with
  | Ok (Some _) => true
  | _ => false
  end.

(** The callback invoked for one message after the other; an exception
    that leaves it is dropped, as [check_messages] and [wait_message]
    do. *)
Fixpoint deliver_all {W : Type} (self : UADPSubscriber.t W) (w : W)
  (messages : list (pyval * bytes)) : W * UADPSubscriber.t W :=
  match messages with
  | [] => (w, self)
  | (topic, payload) :: rest =>
      let '(w, self, _) := UADPSubscriber._mqtt_callback self w topic payload in
      deliver_all self w rest
  end.

(** A subscriber that collects the publisher ids it is shown and the
    errors it is told, and one whose message callback always raises and
    whose error callback raises when told of a failed decode. *)
Definition collecting
  : UADPSubscriber.t (list pyval * list UADPSubscriber.error_report) :=
  {| UADPSubscriber._on_message_callback :=
       Some (fun w net_msg topic =>
               ((fst w ++ [UADPNetworkMessage.publisher_id net_msg], snd w),
                Ok tt));
     UADPSubscriber._on_raw_callback := None;
     UADPSubscriber._on_error_callback :=
       Some (fun w report payload => ((fst w, snd w ++ [report]), Ok tt));
     UADPSubscriber.stats := UADPSubscriber.stats (UADPSubscriber.init unit) |}.

Definition raising
  : UADPSubscriber.t (list pyval * list UADPSubscriber.error_report) :=
  {| UADPSubscriber._on_message_callback :=
       Some (fun w net_msg topic => (w, Raise TypeError));
     UADPSubscriber._on_raw_callback := None;
     UADPSubscriber._on_error_callback :=
       Some (fun w report payload =>
               match report with
               | UADPSubscriber.DecodeFailed => (w, Raise ValueError)
               | UADPSubscriber.Caught _ =>
                   ((fst w, snd w ++ [report]), Ok tt)
               end);
     UADPSubscriber.stats := UADPSubscriber.stats (UADPSubscriber.init unit) |}.

(** A payload that decodes (version 1, no optional header) and one that
    does not (version 2). *)
Definition good_payload : bytes := [ x01; x00; x2a ].
Definition bad_payload : bytes := [ x02; x00; x2a ].

(** The publisher ids that minimal framing puts on the wire unchanged: a
    byte, or text of at most 16 bytes of UTF-8. *)
Definition minimal_on_wire (publisher_id : pyval) : Prop :=
  match publisher_id with
  | PyStr s => exists pub, utf8_encode s = Ok pub /\ len pub <= 16
  | PyInt z => 0 <= z <= 255
  | _ => False
  end.

(** The integer types of the codec. *)
Definition integer_types : list Z :=
  [ SBYTE; BYTE; INT16; UINT16; INT32; UINT32; INT64; UINT64 ].

(** The FILETIME tick count that the encoder computes from a clock
    reading in seconds since 2000-01-01. *)
Definition filetime_of_clock (now : Z) : Z :=
  (now + 946684800 + 11644473600) * 10000000.

(** A runtime whose clock reads [now]. *)
Definition clock_at (now : Z) : runtime :=
  {| time_time := Ok now; py_repr := fun _ => [];
     parse_int := read_numeral |}.

(** * Properties *)

(** ** Bytes and little-endian integers *)

Lemma Z_of_byte_range (b : byte) : 0 <= Z_of_byte b < 256.
Proof.
  unfold Z_of_byte. pose proof (Byte.to_N_bounded b). lia.
Qed.

Lemma Z_of_byte_of_Z (z : Z) : Z_of_byte (byte_of_Z z) = z mod 256.
Proof.
  unfold Z_of_byte, byte_of_Z.
  pose proof (Z.mod_pos_bound z 256 eq_refl) as Hb.
  destruct (Byte.of_N (Z.to_N (z mod 256))) as [b|] eqn:E.
  - apply Byte.to_of_N in E. rewrite E. lia.
  - apply Byte.of_N_None_iff in E. lia.
Qed.

Lemma Z_of_byte_of_Z_small (z : Z) :
  0 <= z < 256 -> Z_of_byte (byte_of_Z z) = z.
Proof.
  intros Hz. rewrite Z_of_byte_of_Z. apply Z.mod_small. exact Hz.
Qed.

Lemma byte_of_Z_of_byte (b : byte) : byte_of_Z (Z_of_byte b) = b.
Proof.
  unfold byte_of_Z. rewrite Z.mod_small by apply Z_of_byte_range.
  unfold Z_of_byte. rewrite N2Z.id, Byte.of_to_N. reflexivity.
Qed.

Lemma len_app {A : Type} (l1 l2 : list A) : len (l1 ++ l2) = len l1 + len l2.
Proof. unfold len. rewrite length_app. lia. Qed.

Lemma len_nonneg {A : Type} (l : list A) : 0 <= len l.
Proof. unfold len. lia. Qed.

Lemma length_le_bytes (size : nat) (z : Z) : List.length (le_bytes size z) = size.
Proof.
  revert z. induction size as [|k IH]; intros z; simpl; [reflexivity|].
  now rewrite IH.
Qed.

Lemma le_value_le_bytes (size : nat) (z : Z) :
  le_value (le_bytes size z) = z mod 2 ^ (8 * Z.of_nat size).
Proof.
  revert z. induction size as [|k IH]; intros z.
  - simpl. now rewrite Z.mod_1_r.
  - cbn [le_bytes le_value]. rewrite IH, Z_of_byte_of_Z.
    replace (8 * Z.of_nat (S k)) with (8 + 8 * Z.of_nat k) by lia.
    rewrite Z.pow_add_r by lia. change (2 ^ 8) with 256.
    rewrite Z.rem_mul_r by lia. reflexivity.
Qed.

Lemma le_value_range (bs : bytes) :
  0 <= le_value bs < 2 ^ (8 * len bs).
Proof.
  induction bs as [|b rest IH].
  - simpl. lia.
  - cbn [le_value]. unfold len in *. cbn [List.length].
    replace (8 * Z.of_nat (S (List.length rest)))
      with (8 + 8 * Z.of_nat (List.length rest)) by lia.
    rewrite Z.pow_add_r by lia. change (2 ^ 8) with 256.
    pose proof (Z_of_byte_range b). nia.
Qed.

Lemma to_signed_wrap (size : nat) (z : Z) :
  (0 < size)%nat ->
  - 2 ^ (8 * Z.of_nat size - 1) <= z < 2 ^ (8 * Z.of_nat size - 1) ->
  to_signed size (z mod 2 ^ (8 * Z.of_nat size)) = z.
Proof.
  intros Hs Hz. unfold to_signed.
  set (h := 2 ^ (8 * Z.of_nat size - 1)) in *.
  assert (Hp : 2 ^ (8 * Z.of_nat size) = 2 * h).
  { unfold h. rewrite <- Z.pow_succ_r by lia. f_equal. lia. }
  rewrite Hp.
  assert (0 < h) by (unfold h; apply Z.pow_pos_nonneg; lia).
  destruct (Z_lt_le_dec z 0) as [Hneg|Hpos].
  - replace (z mod (2 * h)) with (z + 2 * h).
    + destruct (Z.ltb_spec (z + 2 * h) h); lia.
    + apply Z.mod_unique with (q := -1); lia.
  - rewrite Z.mod_small by lia.
    destruct (Z.ltb_spec z h); lia.
Qed.

(** ** Reading a window of a buffer *)

Lemma window_inside (size : nat) (pre bs rest : bytes) :
  List.length bs = size ->
  window size (pre ++ bs ++ rest) (len pre) = Ok bs.
Proof.
  intros Hl. unfold window. cbv zeta.
  pose proof (len_nonneg pre) as Hpre.
  pose proof (len_nonneg rest) as Hrest.
  assert (Hbs : len bs = Z.of_nat size) by (unfold len; now rewrite Hl).
  assert (E0 : (len pre <? 0) = false) by (apply Z.ltb_ge; lia).
  rewrite !E0, !len_app.
  assert (E1 : (len pre + (len bs + len rest) <? len pre + Z.of_nat size) = false)
    by (apply Z.ltb_ge; lia).
  rewrite E1. cbn [orb].
  replace (Z.to_nat (len pre)) with (List.length pre) by (unfold len; lia).
  rewrite skipn_app, skipn_all, Nat.sub_diag. cbn [skipn app].
  rewrite firstn_app, <- Hl, firstn_all, Nat.sub_diag. cbn [firstn].
  now rewrite app_nil_r.
Qed.

Lemma window_at_start (size : nat) (bs rest : bytes) :
  List.length bs = size -> window size (bs ++ rest) 0 = Ok bs.
Proof.
  intros Hl. exact (window_inside size [] bs rest Hl).
Qed.

Lemma window_short (size : nat) (data : bytes) (offset : Z) :
  0 <= offset -> len data < offset + Z.of_nat size ->
  window size data offset = Raise ValueError.
Proof.
  intros Ho Hs. unfold window. cbv zeta.
  assert (E0 : (offset <? 0) = false) by (apply Z.ltb_ge; lia).
  rewrite !E0.
  assert (E1 : (len data <? offset + Z.of_nat size) = true)
    by (apply Z.ltb_lt; lia).
  rewrite E1. reflexivity.
Qed.

(** ** Floats: rounding is exact on values of the format *)

Lemma digits2_pos_bounds (m : positive) :
  2 ^ (Zpos (digits2_pos m) - 1) <= Zpos m < 2 ^ Zpos (digits2_pos m).
Proof.
  induction m as [p IH|p IH|]; cbn [digits2_pos].
  - rewrite Pos2Z.inj_succ, (Pos2Z.inj_xI p).
    replace (Z.succ (Zpos (digits2_pos p)) - 1)
      with (Z.succ (Zpos (digits2_pos p) - 1)) by lia.
    rewrite !Z.pow_succ_r by lia.
    revert IH. generalize (2 ^ (Zpos (digits2_pos p) - 1)).
    generalize (2 ^ Zpos (digits2_pos p)). intros; lia.
  - rewrite Pos2Z.inj_succ, (Pos2Z.inj_xO p).
    replace (Z.succ (Zpos (digits2_pos p)) - 1)
      with (Z.succ (Zpos (digits2_pos p) - 1)) by lia.
    rewrite !Z.pow_succ_r by lia.
    revert IH. generalize (2 ^ (Zpos (digits2_pos p) - 1)).
    generalize (2 ^ Zpos (digits2_pos p)). intros; lia.
  - simpl. lia.
Qed.

Lemma digits2_pos_shift (m k : positive) :
  Zpos (digits2_pos (Pos.iter xO m k)) = Zpos (digits2_pos m) + Zpos k.
Proof.
  induction k as [|k IH] using Pos.peano_ind.
  - cbn [Pos.iter digits2_pos]. lia.
  - rewrite Pos.iter_succ. cbn [digits2_pos]. lia.
Qed.

Lemma iter_pos_is_iter {A : Type} (f : A -> A) (p : positive) (x : A) :
  iter_pos f p x = Pos.iter f x p.
Proof.
  revert x. induction p as [p IH|p IH|]; intros x; cbn [iter_pos Pos.iter].
  - rewrite !IH, !Pos.iter_swap. reflexivity.
  - rewrite !IH. reflexivity.
  - reflexivity.
Qed.

Lemma shr_undoes_shift (m k : positive) :
  iter_pos shr_1 k
    {| shr_m := Zpos (Pos.iter xO m k); shr_r := false; shr_s := false |}
  = {| shr_m := Zpos m; shr_r := false; shr_s := false |}.
Proof.
  rewrite iter_pos_is_iter.
  induction k as [|k IH] using Pos.peano_ind.
  - reflexivity.
  - rewrite Pos.iter_succ_r, Pos.iter_succ. cbn [shr_1 orb]. exact IH.
Qed.

Lemma binary_round_aux_exact (prec emax : Z) (s : bool) (m : positive) (e : Z) :
  bounded prec emax m e = true ->
  binary_round_aux prec emax s (Zpos m) e loc_Exact = S754_finite s m e.
Proof.
  unfold bounded, canonical_mantissa. intros Hb.
  apply andb_prop in Hb. destruct Hb as [Hc He].
  apply Z.eqb_eq in Hc.
  unfold binary_round_aux, shr_fexp. cbn [Zdigits2 shr_record_of_loc].
  rewrite Hc, Z.sub_diag. cbn [shr shr_m loc_of_shr_record round_nearest_even].
  cbn [Zdigits2 shr_record_of_loc].
  rewrite Hc, Z.sub_diag. cbn [shr shr_m].
  rewrite He. reflexivity.
Qed.

Lemma binary_round_exact (prec emax : Z) (s : bool) (m : positive) (e : Z) :
  bounded prec emax m e = true ->
  binary_round prec emax s m e = S754_finite s m e.
Proof.
  intros Hb. unfold binary_round, shl_align.
  assert (Hc : fexp prec emax (Zpos (digits2_pos m) + e) = e).
  { unfold bounded, canonical_mantissa in Hb.
    apply andb_prop in Hb. now apply Z.eqb_eq. }
  rewrite Hc, Z.sub_diag.
  now apply binary_round_aux_exact.
Qed.

Lemma float_round_exact (mw ew : Z) (f : spec_float) :
  valid_binary (fprec mw) (femax ew) f = true -> float_round mw ew f = f.
Proof.
  destruct f as [s|s| |s m e]; try reflexivity.
  cbn [valid_binary float_round]. apply binary_round_exact.
Qed.

(** A binary32 value widened to binary64 is the same value with its
    significand shifted to 53 digits. *)
Lemma host_float_single (s : bool) (m : positive) (e : Z) :
  bounded 24 128 m e = true ->
  exists k : positive,
    Zpos k = 53 - Zpos (digits2_pos m) /\
    host_float (S754_finite s m e)
    = S754_finite s (Pos.iter xO m k) (e - Zpos k).
Proof.
  intros Hb. unfold bounded, canonical_mantissa in Hb.
  apply andb_prop in Hb. destruct Hb as [Hc He].
  apply Z.eqb_eq in Hc. apply Z.leb_le in He.
  unfold fexp, emin in Hc.
  pose proof (digits2_pos_bounds m) as _.
  set (d := Zpos (digits2_pos m)) in *.
  assert (Hd : 0 < d) by (unfold d; lia).
  exists (Z.to_pos (53 - d)).
  assert (Hk : Zpos (Z.to_pos (53 - d)) = 53 - d) by (apply Z2Pos.id; lia).
  split; [exact Hk|].
  unfold host_float, float_round, binary_round, shl_align.
  change (fprec 52) with 53. change (femax 11) with 1024.
  assert (Hf : fexp 53 1024 (Zpos (digits2_pos m) + e) = e - Zpos (Z.to_pos (53 - d))).
  { unfold fexp, emin. fold d. lia. }
  rewrite Hf.
  replace (e - Zpos (Z.to_pos (53 - d)) - e) with (Zneg (Z.to_pos (53 - d)))
    by (rewrite <- Pos2Z.opp_pos; lia).
  apply binary_round_aux_exact.
  unfold bounded, canonical_mantissa.
  rewrite digits2_pos_shift. fold d.
  apply andb_true_intro. split.
  - apply Z.eqb_eq. unfold fexp, emin. lia.
  - apply Z.leb_le. lia.
Qed.

(** Narrowing the widened value gives the binary32 value back. *)
Lemma float_round_single_of_host (s : bool) (m : positive) (e : Z) :
  bounded 24 128 m e = true ->
  float_round 23 8 (host_float (S754_finite s m e)) = S754_finite s m e.
Proof.
  intros Hb.
  destruct (host_float_single s m e Hb) as (k & Hk & ->).
  unfold bounded, canonical_mantissa in Hb.
  apply andb_prop in Hb. destruct Hb as [Hc He].
  apply Z.eqb_eq in Hc.
  unfold float_round, binary_round, shl_align.
  change (fprec 23) with 24. change (femax 8) with 128.
  rewrite digits2_pos_shift.
  replace (Zpos (digits2_pos m) + Zpos k + (e - Zpos k))
    with (Zpos (digits2_pos m) + e) by lia.
  rewrite Hc.
  replace (e - (e - Zpos k)) with (Zpos k) by lia.
  unfold binary_round_aux, shr_fexp. cbn [Zdigits2 shr_record_of_loc].
  rewrite digits2_pos_shift.
  replace (Zpos (digits2_pos m) + Zpos k + (e - Zpos k))
    with (Zpos (digits2_pos m) + e) by lia.
  rewrite Hc.
  replace (e - (e - Zpos k)) with (Zpos k) by lia.
  cbn [shr]. rewrite shr_undoes_shift.
  cbn [shr_m loc_of_shr_record round_nearest_even Zdigits2 shr_record_of_loc].
  replace (e - Zpos k + Zpos k) with e by lia.
  rewrite Hc, Z.sub_diag. cbn [shr shr_m].
  rewrite He. reflexivity.
Qed.

(** ** Floats: the bit pattern determines the value *)

Lemma bits_fields (P Q sgn biased mant : Z) :
  0 < P -> 0 < Q -> 0 <= mant < P -> 0 <= biased < Q ->
  let x := sgn * (P * Q) + biased * P + mant in
  x / (P * Q) = sgn /\ (x / P) mod Q = biased /\ x mod P = mant.
Proof.
  intros HP HQ Hm Hb x.
  assert (Hdiv : x / P = sgn * Q + biased).
  { symmetry. apply Z.div_unique with (r := mant); [lia | unfold x; ring]. }
  repeat split.
  - symmetry. apply Z.div_unique with (r := biased * P + mant).
    + left. nia.
    + unfold x. ring.
  - rewrite Hdiv. symmetry. apply Z.mod_unique with (q := sgn); [lia | ring].
  - symmetry. apply Z.mod_unique with (q := sgn * Q + biased);
      [lia | unfold x; ring].
Qed.

Lemma odd_sign_bit (s : bool) : Z.odd (sign_bit s) = s.
Proof. destruct s; reflexivity. Qed.

Lemma pow2_pos (n : Z) : 0 <= n -> 0 < 2 ^ n.
Proof. intros Hn. apply Z.pow_pos_nonneg; lia. Qed.

Lemma pow2_exp_big (ew : Z) : 2 <= ew -> 4 <= 2 ^ ew.
Proof.
  intros Hew. replace ew with (2 + (ew - 2)) by lia.
  rewrite Z.pow_add_r by lia.
  pose proof (pow2_pos (ew - 2)). lia.
Qed.

Lemma pow2_half (mw : Z) : 1 <= mw -> 2 ^ mw = 2 * 2 ^ (mw - 1).
Proof.
  intros Hmw. rewrite <- Z.pow_succ_r by lia. f_equal. lia.
Qed.

Lemma femax_double (ew : Z) : 2 <= ew -> 2 ^ ew = 2 * femax ew.
Proof.
  intros Hew. unfold femax. rewrite <- Z.pow_succ_r by lia. f_equal. lia.
Qed.

(** The fields of a finite number of the format: a subnormal has biased
    exponent 0, a normal one a biased exponent strictly between 0 and the
    all-ones pattern. *)
Lemma finite_fields (mw ew : Z) (m : positive) (e : Z) :
  1 <= mw -> 2 <= ew ->
  bounded (fprec mw) (femax ew) m e = true ->
  (Zpos m < 2 ^ mw /\ e = femin mw ew) \/
  (2 ^ mw <= Zpos m < 2 * 2 ^ mw /\ 1 <= e - femin mw ew + 1 <= 2 ^ ew - 2).
Proof.
  intros Hmw Hew Hb. unfold bounded, canonical_mantissa in Hb.
  apply andb_prop in Hb. destruct Hb as [Hc He].
  apply Z.eqb_eq in Hc. apply Z.leb_le in He.
  unfold fexp, emin in Hc. unfold femin. rewrite (femax_double ew Hew).
  pose proof (digits2_pos_bounds m) as [Hlo Hhi].
  set (d := Zpos (digits2_pos m)) in *.
  assert (Hd : 0 < d) by (unfold d; lia).
  unfold fprec in *.
  destruct (Z_lt_le_dec (Zpos m) (2 ^ mw)) as [Hsub|Hnorm].
  - left. split; [exact Hsub|].
    assert (d <= mw).
    { destruct (Z_le_gt_dec d mw) as [|Hgt]; [assumption|exfalso].
      assert (2 ^ mw <= 2 ^ (d - 1)) by (apply Z.pow_le_mono_r; lia). lia. }
    lia.
  - right.
    assert (mw + 1 <= d).
    { destruct (Z_le_gt_dec (mw + 1) d) as [|Hgt]; [assumption|exfalso].
      assert (2 ^ d <= 2 ^ mw) by (apply Z.pow_le_mono_r; lia). lia. }
    assert (d = mw + 1) by lia.
    assert (2 ^ d = 2 * 2 ^ mw).
    { replace d with (Z.succ mw) by lia. apply Z.pow_succ_r. lia. }
    lia.
Qed.

Lemma float_of_bits_of_float (mw ew : Z) (f : spec_float) :
  1 <= mw -> 2 <= ew ->
  valid_binary (fprec mw) (femax ew) f = true ->
  float_of_bits mw ew (float_bits mw ew f) = f.
Proof.
  intros Hmw Hew.
  pose proof (pow2_pos mw) as HP. pose proof (pow2_exp_big ew Hew) as HQ.
  pose proof (pow2_half mw Hmw) as Hh. pose proof (pow2_pos (mw - 1)) as Hh'.
  destruct f as [s|s| |s m e]; cbn [valid_binary float_bits]; intros Hv;
    unfold float_of_bits; rewrite (Z.pow_add_r 2 mw ew) by lia;
    set (P := 2 ^ mw) in *; set (Q := 2 ^ ew) in *.
  - destruct (bits_fields P Q (sign_bit s) 0 0) as (E1 & E2 & E3); try lia.
    replace (sign_bit s * (P * Q))
      with (sign_bit s * (P * Q) + 0 * P + 0) by ring.
    rewrite E1, E2, E3, odd_sign_bit. reflexivity.
  - destruct (bits_fields P Q (sign_bit s) (Q - 1) 0) as (E1 & E2 & E3);
      try lia.
    replace (sign_bit s * (P * Q) + (Q - 1) * P)
      with (sign_bit s * (P * Q) + (Q - 1) * P + 0) by ring.
    rewrite E1, E2, E3, odd_sign_bit.
    destruct (Z.eqb_spec (Q - 1) 0); [lia|].
    rewrite Z.eqb_refl. reflexivity.
  - destruct (bits_fields P Q 0 (Q - 1) (2 ^ (mw - 1))) as (E1 & E2 & E3);
      try lia.
    replace ((Q - 1) * P + 2 ^ (mw - 1))
      with (0 * (P * Q) + (Q - 1) * P + 2 ^ (mw - 1)) by ring.
    rewrite E2, E3.
    destruct (Z.eqb_spec (Q - 1) 0); [lia|].
    rewrite Z.eqb_refl.
    destruct (Z.eqb_spec (2 ^ (mw - 1)) 0); [lia|]. reflexivity.
  - destruct (finite_fields mw ew m e Hmw Hew Hv) as [[Hsub He]|[Hnorm He]];
      fold P in Hsub || fold P in Hnorm.
    + destruct (Z.ltb_spec (Zpos m) P) as [_|]; [|lia].
      destruct (bits_fields P Q (sign_bit s) 0 (Zpos m)) as (E1 & E2 & E3);
        try lia.
      replace (sign_bit s * (P * Q) + Zpos m)
        with (sign_bit s * (P * Q) + 0 * P + Zpos m) by ring.
      rewrite E1, E2, E3, odd_sign_bit. cbn [Z.eqb]. now subst e.
    + fold Q in He.
      destruct (Z.ltb_spec (Zpos m) P) as [|_]; [lia|].
      set (b := e - femin mw ew + 1) in *.
      destruct (bits_fields P Q (sign_bit s) b (Zpos m - P))
        as (E1 & E2 & E3); try lia.
      rewrite E1, E2, E3, odd_sign_bit.
      destruct (Z.eqb_spec b 0); [lia|].
      destruct (Z.eqb_spec b (Q - 1)); [lia|].
      replace (Zpos m - P + P) with (Zpos m) by ring.
      f_equal. unfold b. ring.
Qed.

Lemma float_bits_range (mw ew : Z) (f : spec_float) :
  1 <= mw -> 2 <= ew ->
  valid_binary (fprec mw) (femax ew) f = true ->
  0 <= float_bits mw ew f < 2 ^ (1 + mw + ew).
Proof.
  intros Hmw Hew Hv.
  pose proof (pow2_pos mw) as HP. pose proof (pow2_exp_big ew Hew) as HQ.
  pose proof (pow2_half mw Hmw) as Hh. pose proof (pow2_pos (mw - 1)) as Hh'.
  replace (1 + mw + ew) with (Z.succ (mw + ew)) by lia.
  rewrite Z.pow_succ_r, (Z.pow_add_r 2 mw ew) by lia.
  unfold float_bits. rewrite (Z.pow_add_r 2 mw ew) by lia.
  assert (Hs : forall s, 0 <= sign_bit s <= 1) by (intros []; cbn; lia).
  destruct f as [s|s| |s m e]; try (specialize (Hs s)).
  - set (P := 2 ^ mw) in *; set (Q := 2 ^ ew) in *. nia.
  - set (P := 2 ^ mw) in *; set (Q := 2 ^ ew) in *. nia.
  - set (P := 2 ^ mw) in *; set (Q := 2 ^ ew) in *. nia.
  - cbn [valid_binary] in Hv.
    destruct (finite_fields mw ew m e Hmw Hew Hv) as [[Hsub He]|[Hnorm He]];
      set (P := 2 ^ mw) in *; set (Q := 2 ^ ew) in *.
    + destruct (Z.ltb_spec (Zpos m) P); [nia|lia].
    + destruct (Z.ltb_spec (Zpos m) P); [lia|]. nia.
Qed.

(** ** UTF-8: decoding undoes encoding *)

Ltac zdm := Z.div_mod_to_equations; lia.

Ltac decide_ltb :=
  repeat match goal with
         | |- context [?a <? ?b] =>
             destruct (Z.ltb_spec a b); try (exfalso; zdm)
         | |- context [?a <=? ?b] =>
             destruct (Z.leb_spec a b); try (exfalso; zdm)
         end.

Lemma Ok_inj {A : Type} (a b : A) : Ok a = Ok b -> a = b.
Proof. intros H. now inversion H. Qed.

Lemma utf8_decode_encode_cp (cp : Z) (bs rest : bytes) :
  utf8_encode_cp cp = Ok bs ->
  utf8_decode (bs ++ rest) = (s <- utf8_decode rest ;; Ok (cp :: s)).
Proof.
  unfold utf8_encode_cp.
  destruct (Z.ltb_spec cp 0); [discriminate|].
  destruct (Z.ltb_spec cp 128).
  { intros E. apply Ok_inj in E. subst bs. cbn [app utf8_decode]. cbv zeta.
    rewrite (Z_of_byte_of_Z_small cp) by lia.
    decide_ltb. reflexivity. }
  destruct (Z.ltb_spec cp 2048).
  { intros E. apply Ok_inj in E. subst bs. cbn [app utf8_decode]. cbv zeta.
    rewrite (Z_of_byte_of_Z_small (192 + cp / 64)) by zdm.
    rewrite (Z_of_byte_of_Z_small (128 + cp mod 64)) by zdm.
    replace ((192 + cp / 64 - 192) * 64 + (128 + cp mod 64 - 128)) with cp
      by zdm.
    unfold is_cont. decide_ltb. cbn [andb]. reflexivity. }
  destruct (Z.ltb_spec cp 65536).
  { destruct (Z.leb_spec 55296 cp); destruct (Z.leb_spec cp 57343);
      cbn [andb]; try discriminate;
      intros E; apply Ok_inj in E; subst bs;
      cbn [app utf8_decode]; cbv zeta;
      rewrite (Z_of_byte_of_Z_small (224 + cp / 4096)) by zdm;
      rewrite (Z_of_byte_of_Z_small (128 + (cp / 64) mod 64)) by zdm;
      rewrite (Z_of_byte_of_Z_small (128 + cp mod 64)) by zdm;
      replace ((224 + cp / 4096 - 224) * 4096
               + (128 + (cp / 64) mod 64 - 128) * 64
               + (128 + cp mod 64 - 128)) with cp by zdm;
      unfold is_cont; decide_ltb; cbn [andb negb]; reflexivity. }
  destruct (Z.ltb_spec cp 1114112); [|discriminate].
  intros E. apply Ok_inj in E. subst bs. cbn [app utf8_decode]. cbv zeta.
  rewrite (Z_of_byte_of_Z_small (240 + cp / 262144)) by zdm.
  rewrite (Z_of_byte_of_Z_small (128 + (cp / 4096) mod 64)) by zdm.
  rewrite (Z_of_byte_of_Z_small (128 + (cp / 64) mod 64)) by zdm.
  rewrite (Z_of_byte_of_Z_small (128 + cp mod 64)) by zdm.
  replace ((240 + cp / 262144 - 240) * 262144
           + (128 + (cp / 4096) mod 64 - 128) * 4096
           + (128 + (cp / 64) mod 64 - 128) * 64
           + (128 + cp mod 64 - 128)) with cp by zdm.
  unfold is_cont. decide_ltb. cbn [andb]. reflexivity.
Qed.

Lemma utf8_decode_encode (s : pystr) (bs : bytes) :
  utf8_encode s = Ok bs -> utf8_decode bs = Ok s.
Proof.
  revert bs. induction s as [|cp rest IH]; intros bs; cbn [utf8_encode].
  - intros [= <-]. reflexivity.
  - destruct (utf8_encode_cp cp) as [hd|] eqn:Ecp; [|discriminate].
    destruct (utf8_encode rest) as [tl|] eqn:Erest; [|discriminate].
    cbn [bind]. intros [= <-].
    rewrite (utf8_decode_encode_cp cp hd tl Ecp), (IH tl eq_refl).
    reflexivity.
Qed.

(** A string of scalar values can always be encoded. *)
Lemma utf8_encode_total (s : pystr) :
  forallb is_scalar s = true -> exists bs, utf8_encode s = Ok bs.
Proof.
  induction s as [|cp rest IH]; cbn [forallb utf8_encode]; intros Hs.
  - now exists [].
  - apply andb_prop in Hs. destruct Hs as [Hcp Hrest].
    destruct (IH Hrest) as [tl ->].
    assert (Hhd : exists hd, utf8_encode_cp cp = Ok hd).
    { unfold is_scalar in Hcp. unfold utf8_encode_cp.
      destruct (Z.ltb_spec cp 0).
      { destruct (Z.leb_spec 0 cp); [lia|]. cbn in Hcp.
        destruct (Z.ltb_spec 57343 cp); [lia|discriminate]. }
      destruct (Z.ltb_spec cp 128); [eauto|].
      destruct (Z.ltb_spec cp 2048); [eauto|].
      destruct (Z.ltb_spec cp 65536).
      { destruct (Z.leb_spec 55296 cp); destruct (Z.leb_spec cp 57343);
          cbn [andb]; eauto.
        destruct (Z.ltb_spec cp 55296); [lia|].
        destruct (Z.ltb_spec 57343 cp); [lia|].
        rewrite !andb_false_r in Hcp. discriminate. }
      destruct (Z.ltb_spec cp 1114112); [eauto|].
      rewrite !andb_false_r in Hcp.
      destruct (Z.ltb_spec cp 55296); [lia|].
      rewrite andb_false_r in Hcp. discriminate. }
    destruct Hhd as [hd ->]. cbn [bind]. eauto.
Qed.

(** ** Type inference *)

Example infer_true : from_python (PyBool true) = BOOLEAN.
Proof. reflexivity. Qed.

Example infer_42 : from_python (PyInt 42) = SBYTE.
Proof. reflexivity. Qed.

Example infer_200 : from_python (PyInt 200) = INT16.
Proof. reflexivity. Qed.

Example infer_text : from_python (PyStr (text "x")) = STRING.
Proof. reflexivity. Qed.

Lemma from_python_int (z : Z) : from_python (PyInt z) = narrowest_signed z.
Proof.
  unfold from_python, narrowest_signed, signed_types. cbn [find].
  change (- 2 ^ (8 - 1)) with (-128). change (2 ^ (8 - 1)) with 128.
  change (- 2 ^ (16 - 1)) with (-32768). change (2 ^ (16 - 1)) with 32768.
  change (- 2 ^ (32 - 1)) with (-2147483648).
  change (2 ^ (32 - 1)) with 2147483648.
  change (- 2 ^ (64 - 1)) with (-9223372036854775808).
  change (2 ^ (64 - 1)) with 9223372036854775808.
  destruct (Z.leb_spec (-128) z); destruct (Z.leb_spec z 127);
    destruct (Z.ltb_spec z 128); try lia; cbn [andb]; try reflexivity;
    destruct (Z.leb_spec (-32768) z); destruct (Z.leb_spec z 32767);
    destruct (Z.ltb_spec z 32768); try lia; cbn [andb]; try reflexivity;
    destruct (Z.leb_spec (-2147483648) z); destruct (Z.leb_spec z 2147483647);
    destruct (Z.ltb_spec z 2147483648); try lia; cbn [andb]; try reflexivity;
    destruct ((-9223372036854775808 <=? z) && (z <? 9223372036854775808));
    reflexivity.
Qed.

(** C8. The inferred type of a boolean is Boolean; of an integer, the
    first of SByte, Int16, Int32, Int64 (in this widening order) whose
    range contains it, which for an integer of the Int64 range is the
    narrowest signed type containing it; of a float, Float; of a text
    string, String; of bytes, ByteString; of any other value, String. *)
Theorem from_python_inference (v : pyval) :
  match v with
  | PyBool _ => from_python v = BOOLEAN
  | PyInt z =>
      from_python v = narrowest_signed z /\
      (fits 64 z ->
       exists bits, In (from_python v, bits) signed_types /\ fits bits z /\
         forall t' bits', In (t', bits') signed_types -> fits bits' z ->
                          bits <= bits')
  | PyFloat _ => from_python v = FLOAT
  | PyStr _ => from_python v = STRING
  | PyBytes _ => from_python v = BYTESTRING
  | PyNone | PyObject _ => from_python v = STRING
  end.
Proof.
  destruct v as [| b | z | f | s | bs | o]; try reflexivity.
  split; [apply from_python_int|].
  unfold fits. intros H64.
  change (2 ^ (64 - 1)) with 9223372036854775808 in H64.
  assert (Hall : forall t' bits', In (t', bits') signed_types ->
            bits' = 8 \/ bits' = 16 \/ bits' = 32 \/ bits' = 64).
  { intros t' bits' Hin. cbn in Hin.
    repeat (destruct Hin as [Hin|Hin]; [inversion Hin; lia|]). contradiction. }
  unfold from_python.
  destruct (Z.leb_spec (-128) z); destruct (Z.leb_spec z 127); cbn [andb].
  1: { exists 8. split; [cbn; tauto|]. split; [cbn; lia|].
       intros t' bits' Hin _. destruct (Hall _ _ Hin) as [?|[?|[?|?]]]; lia. }
  all: destruct (Z.leb_spec (-32768) z); destruct (Z.leb_spec z 32767);
    cbn [andb].
  all: try (exists 16; split; [cbn; tauto|]; split; [cbn; lia|];
            intros t' bits' Hin Hfit;
            destruct (Hall _ _ Hin) as [?|[?|[?|?]]]; subst bits';
            cbn in Hfit; lia).
  all: destruct (Z.leb_spec (-2147483648) z);
    destruct (Z.leb_spec z 2147483647); cbn [andb].
  all: try (exists 32; split; [cbn; tauto|]; split; [cbn; lia|];
            intros t' bits' Hin Hfit;
            destruct (Hall _ _ Hin) as [?|[?|[?|?]]]; subst bits';
            cbn in Hfit; lia).
  all: try (exists 64; split; [cbn; tauto|]; split; [cbn; lia|];
            intros t' bits' Hin Hfit;
            destruct (Hall _ _ Hin) as [?|[?|[?|?]]]; subst bits';
            cbn in Hfit; lia).
Qed.

(** ** The interop fixture *)

(** C1. For publisher id "ESP32", writer id 1000 and the single field
    ("Val_F32_A", 25.5, Float), the interop encoder returns D1 0C, the
    4-byte little-endian length 5, the bytes of "ESP32", the 16-byte
    DataSetClassId, 01, the 2-byte little-endian 1000, 01, the 2-byte
    little-endian field count 1, the type tag 0A and the 4-byte
    little-endian binary32 encoding of 25.5. *)
Theorem interop_fixture (rt : runtime) :
  benchmark_leve.encode_uadp_interop rt (PyStr (text "ESP32")) 1000
    [ (text "Val_F32_A", PyFloat float_25_5, FLOAT) ]
  = Ok ([ xd1; x0c ]
        ++ [ x05; x00; x00; x00 ]
        ++ [ x45; x53; x50; x33; x32 ]
        ++ benchmark_leve.DATASET_CLASS_ID
        ++ [ x01 ]
        ++ [ xe8; x03 ]
        ++ [ x01 ]
        ++ [ x01; x00 ]
        ++ [ x0a ]
        ++ [ x00; x00; xcc; x41 ]).
Proof. vm_compute. reflexivity. Qed.

(** ** Version check of the NetworkMessage decoder *)

Lemma index_head (b : byte) (rest : bytes) : index (b :: rest) 0 = Ok (Z_of_byte b).
Proof.
  unfold index. cbv zeta. cbn [Z.ltb Z.compare orb].
  unfold len. cbn [List.length].
  destruct (Z.leb_spec (Z.of_nat (S (List.length rest))) 0); [lia|].
  reflexivity.
Qed.

(** C5. A buffer whose first byte has low four bits other than 1 is
    rejected: the decoder returns no message. *)
Theorem decode_rejects_other_versions (b0 : byte) (rest : bytes) :
  Z.land (Z_of_byte b0) 15 <> 1 ->
  UADPNetworkMessage.decode (b0 :: rest) = Ok None.
Proof.
  intros Hv. unfold UADPNetworkMessage.decode.
  destruct (len (b0 :: rest) <? 2); [reflexivity|].
  cbv zeta. rewrite index_head. cbn [bind].
  unfold UADPFlags.VERSION_MASK.
  destruct (Z.eqb_spec (Z.land (Z_of_byte b0) 15) 1); [contradiction|].
  reflexivity.
Qed.

Lemma decode_rejects_other_versions_witness :
  UADPNetworkMessage.decode [ x72; x00; x2a ] = Ok None.
Proof.
  apply (decode_rejects_other_versions x72 [ x00; x2a ]).
  vm_compute. discriminate.
Defined.

(** ** Null strings and byte strings *)

(** C9. A null String or ByteString is encoded as the four bytes of the
    length -1 and nothing else; a String or ByteString whose length prefix
    is negative decodes to the null marker with the offset advanced by 4,
    whatever follows the prefix. *)
Theorem null_string_encoding (data : bytes) (offset length : Z) :
  unpack_from Fmt_i data offset = Ok length ->
  length < 0 ->
  UADPEncoder.encode_string PyNone = Ok [ xff; xff; xff; xff ] /\
  UADPEncoder.encode_bytestring PyNone = Ok [ xff; xff; xff; xff ] /\
  UADPDecoder.decode_string data offset = Ok (None, offset + 4) /\
  UADPDecoder.decode_bytestring data offset = Ok (None, offset + 4) /\
  UADPDecoder.decode_value data STRING offset = Ok (PyNone, offset + 4) /\
  UADPDecoder.decode_value data BYTESTRING offset = Ok (PyNone, offset + 4).
Proof.
  intros Hlen Hneg.
  assert (Hs : UADPDecoder.decode_string data offset = Ok (None, offset + 4)).
  { unfold UADPDecoder.decode_string. rewrite Hlen. cbn [bind].
    destruct (Z.ltb_spec length 0); [reflexivity|lia]. }
  assert (Hb : UADPDecoder.decode_bytestring data offset = Ok (None, offset + 4)).
  { unfold UADPDecoder.decode_bytestring. rewrite Hlen. cbn [bind].
    destruct (Z.ltb_spec length 0); [reflexivity|lia]. }
  repeat split; try reflexivity; try assumption.
  - change (UADPDecoder.decode_value data STRING offset)
      with (UADPDecoder.returning (UADPDecoder.optional PyStr)
              UADPDecoder.decode_string data offset).
    unfold UADPDecoder.returning. rewrite Hs. reflexivity.
  - change (UADPDecoder.decode_value data BYTESTRING offset)
      with (UADPDecoder.returning (UADPDecoder.optional PyBytes)
              UADPDecoder.decode_bytestring data offset).
    unfold UADPDecoder.returning. rewrite Hb. reflexivity.
Qed.

Lemma null_string_encoding_witness :
  UADPDecoder.decode_string [ xff; xff; xff; xff; x41 ] 0 = Ok (None, 4).
Proof.
  apply (null_string_encoding [ xff; xff; xff; xff; x41 ] 0 (-1)).
  - vm_compute. reflexivity.
  - lia.
Defined.

(** ** The DataValue envelope *)

(** C7. A DataValue is encoded as one mask byte, then the value, then the
    status code if mask bit 1 is set, then the timestamp if mask bit 2 is
    set. Mask bit 0 is always set; bit 1 is set exactly when the status is
    requested and the status code is not Good; bit 2 is set exactly when
    the timestamp is requested. *)
Theorem datavalue_encode_layout (rt : runtime) (self : UADPDataValue.t)
  (include_status include_timestamp : bool) :
  let mask :=
    datavalue_mask (UADPDataValue.status_code self)
      include_status include_timestamp in
  Z.testbit mask 0 = true /\
  Z.testbit mask 1
  = include_status
    && negb (UADPDataValue.status_code self =? StatusCode.GOOD) /\
  Z.testbit mask 2 = include_timestamp /\
  0 <= mask < 256 /\
  UADPDataValue.encode rt self include_status include_timestamp
  = (value <- UADPEncoder.encode_value rt (UADPDataValue.value self)
                (Some (UADPDataValue.type_id self)) ;;
     stamp <- (if Z.testbit mask 2
               then UADPEncoder.encode_datetime rt
                      (UADPDataValue.source_timestamp self)
               else Ok []) ;;
     Ok ([ byte_of_Z mask ]
         ++ value
         ++ (if Z.testbit mask 1
             then UADPEncoder.encode_status_code (UADPDataValue.status_code self)
             else [])
         ++ stamp)).
Proof.
  unfold datavalue_mask, UADPDataValue.encode.
  destruct (include_status
            && negb (UADPDataValue.status_code self =? StatusCode.GOOD));
    destruct include_timestamp; cbv beta iota zeta;
    (split; [reflexivity|]); (split; [reflexivity|]);
    (split; [reflexivity|]); (split; [lia|]).
  all: repeat match goal with
       | |- context [negb (?a =? 0)] =>
           let b := eval vm_compute in (negb (a =? 0)) in
           change (negb (a =? 0)) with b
       | |- context [Z.testbit ?m ?i] =>
           let b := eval vm_compute in (Z.testbit m i) in
           change (Z.testbit m i) with b
       | |- context [append [] ?m] =>
           let b := eval vm_compute in m in
           change (append [] m) with [ byte_of_Z b ]
       | |- context [byte_of_Z ?m] =>
           progress (let b := eval vm_compute in m in
                     change (byte_of_Z m) with (byte_of_Z b))
       end.
  all: cbv beta iota.
  all: destruct (UADPEncoder.encode_value rt (UADPDataValue.value self)
                   (Some (UADPDataValue.type_id self))) as [vb|e];
    cbn [bind]; try reflexivity.
  all: try (destruct (UADPEncoder.encode_datetime rt
                        (UADPDataValue.source_timestamp self)) as [tb|e];
            cbn [bind]).
  all: unfold extend; cbn [app]; rewrite <- ?app_assoc, ?app_nil_r;
    reflexivity.
Qed.

(** ** Payload framing of the NetworkMessage *)

Lemma fold_left_extend {A : Type} (f : A -> bytes) (l : list A) (buffer : bytes) :
  fold_left (fun buffer x => extend buffer (f x)) l buffer
  = buffer ++ List.concat (map f l).
Proof.
  revert buffer. induction l as [|x rest IH]; intros buffer; cbn [fold_left map List.concat].
  - now rewrite app_nil_r.
  - rewrite IH. unfold extend. now rewrite <- app_assoc.
Qed.

Lemma for_each_extend {A : Type} (g : A -> result bytes) (l : list A)
  (buffer : bytes) :
  for_each (fun buffer x => encoded <- g x ;; Ok (extend buffer encoded)) l buffer
  = (encs <- comprehension g l ;; Ok (buffer ++ List.concat encs)).
Proof.
  revert buffer. induction l as [|x rest IH]; intros buffer;
    cbn [for_each comprehension bind List.concat].
  - now rewrite app_nil_r.
  - destruct (g x) as [enc|e]; cbn [bind]; [|reflexivity].
    rewrite IH. destruct (comprehension g rest) as [encs|e]; cbn [bind List.concat];
      [|reflexivity].
    unfold extend. now rewrite <- app_assoc.
Qed.

Lemma comprehension_length {A B : Type} (f : A -> result B) (l : list A)
  (r : list B) :
  comprehension f l = Ok r -> List.length r = List.length l.
Proof.
  revert r. induction l as [|x rest IH]; intros r; cbn [comprehension].
  - intros E. apply Ok_inj in E. now subst r.
  - destruct (f x) as [y|e]; cbn [bind]; [|discriminate].
    destruct (comprehension f rest) as [ys|e]; cbn [bind]; [|discriminate].
    intros E. apply Ok_inj in E. subst r. cbn [List.length].
    now rewrite (IH ys eq_refl).
Qed.

Lemma unpack_pack_unsigned (fmt : int_format) (z : Z) (rest : bytes) :
  signed fmt = false ->
  0 <= z < 2 ^ (8 * Z.of_nat (calcsize fmt)) ->
  unpack_from fmt (pack_int fmt z ++ rest) 0 = Ok z.
Proof.
  intros Hs Hz. unfold unpack_from, pack_int.
  rewrite window_at_start by apply length_le_bytes.
  cbn [bind]. rewrite Hs, le_value_le_bytes, Z.mod_small by exact Hz.
  reflexivity.
Qed.

Lemma unpack_pack_signed (fmt : int_format) (z : Z) (rest : bytes) :
  signed fmt = true ->
  - 2 ^ (8 * Z.of_nat (calcsize fmt) - 1) <= z
    < 2 ^ (8 * Z.of_nat (calcsize fmt) - 1) ->
  unpack_from fmt (pack_int fmt z ++ rest) 0 = Ok z.
Proof.
  intros Hs Hz. unfold unpack_from, pack_int.
  rewrite window_at_start by apply length_le_bytes.
  cbn [bind]. rewrite Hs, le_value_le_bytes, to_signed_wrap;
    [reflexivity | destruct fmt; cbn; lia | exact Hz].
Qed.

(** C3. The payload body of an encoded NetworkMessage is the encoded
    DataSet message itself, without a length prefix, when there is exactly
    one; with two or more it is the 16-bit little-endian byte lengths of
    the encoded messages in message order followed by the encoded messages
    in the same order. Each prefix is two bytes and reads back as the
    length of its message. *)
Theorem payload_framing (rt : runtime) (self : UADPNetworkMessage.t)
  (header : bytes) (encs : list bytes) :
  UADPNetworkMessage.encode_header self [] = Ok header ->
  comprehension (UADPDataSetMessage.encode rt)
    (UADPNetworkMessage.dataset_messages self) = Ok encs ->
  UADPNetworkMessage.encode rt self
  = Ok (UADPNetworkMessage.encode_payload_header self
          (UADPNetworkMessage.encode_group_header self header)
        ++ payload_body encs) /\
  List.length encs = List.length (UADPNetworkMessage.dataset_messages self) /\
  (forall enc, In enc encs ->
     List.length (length_prefix enc) = 2%nat /\
     (len enc < 65536 -> unpack_from Fmt_H (length_prefix enc) 0 = Ok (len enc))).
Proof.
  intros Hh Hc. pose proof (comprehension_length _ _ _ Hc) as Hl.
  split; [|split; [exact Hl|]].
  - unfold UADPNetworkMessage.encode. cbv zeta. rewrite Hh. cbn [bind].
    set (buffer := UADPNetworkMessage.encode_payload_header self _).
    unfold UADPNetworkMessage.encode_payload.
    destruct (Z.ltb_spec 1 (len (UADPNetworkMessage.dataset_messages self)))
      as [Hmany|Hfew].
    + rewrite Hc. cbn [bind].
      rewrite (fold_left_extend (fun enc_msg => pack_int Fmt_H (len enc_msg))).
      rewrite (fold_left_extend (fun enc_msg => enc_msg)), map_id.
      unfold len in Hmany. rewrite <- Hl in Hmany.
      destruct encs as [|e1 [|e2 more]]; cbn [List.length] in Hmany; try lia.
      unfold payload_body, length_prefix. now rewrite <- app_assoc.
    + rewrite for_each_extend, Hc. cbn [bind].
      unfold len in Hfew. rewrite <- Hl in Hfew.
      destruct encs as [|e1 [|e2 more]]; cbn [List.length] in Hfew; try lia.
      * reflexivity.
      * cbn [payload_body List.concat]. now rewrite app_nil_r.
  - intros enc _. split; [apply length_le_bytes|].
    intros Hsmall. unfold length_prefix.
    rewrite <- (app_nil_r (pack_int Fmt_H (len enc))).
    apply unpack_pack_unsigned; [reflexivity|].
    pose proof (len_nonneg enc). cbn. lia.
Qed.

(** ** Round trip of the scalar codec *)

Lemma slice_bound_inside (n i : Z) : 0 <= i <= n -> slice_bound n i = i.
Proof.
  intros Hi. unfold slice_bound.
  destruct (Z.ltb_spec i 0); [lia|].
  destruct (Z.ltb_spec i 0); [lia|].
  destruct (Z.ltb_spec n i); lia.
Qed.

Lemma slice_bound_beyond (n i : Z) : 0 <= n <= i -> slice_bound n i = n.
Proof.
  intros Hi. unfold slice_bound.
  destruct (Z.ltb_spec i 0); [lia|].
  destruct (Z.ltb_spec i 0); [lia|].
  destruct (Z.ltb_spec n i); lia.
Qed.

Lemma slice_inside {A : Type} (pre mid : list A) :
  slice (pre ++ mid) (len pre) (len pre + len mid) = mid.
Proof.
  unfold slice. cbv zeta. rewrite len_app.
  pose proof (len_nonneg pre). pose proof (len_nonneg mid).
  rewrite !slice_bound_inside by lia.
  replace (Z.to_nat (len pre)) with (List.length pre) by (unfold len; lia).
  replace (Z.to_nat (len pre + len mid - len pre)) with (List.length mid)
    by (unfold len; lia).
  rewrite skipn_app, skipn_all, Nat.sub_diag. cbn [skipn app].
  apply firstn_all.
Qed.

(** A slice that asks for more than the buffer holds gives what is there. *)
Lemma slice_clamped {A : Type} (data : list A) (lo hi : Z) :
  0 <= lo <= len data -> len data <= hi ->
  slice data lo hi = skipn (Z.to_nat lo) data.
Proof.
  intros Hlo Hhi. unfold slice. cbv zeta.
  pose proof (len_nonneg data).
  rewrite (slice_bound_inside (len data) lo), (slice_bound_beyond (len data) hi)
    by lia.
  apply firstn_all2. rewrite length_skipn. unfold len in *. lia.
Qed.

Lemma host_float_valid_single (w : spec_float) :
  valid_binary 24 128 w = true -> float_round 23 8 (host_float w) = w.
Proof.
  destruct w as [s|s| |s m e]; try reflexivity.
  cbn [valid_binary]. apply float_round_single_of_host.
Qed.

Ltac roundtrip_int fmt z dec unpack_lemma :=
  exists (pack_int fmt z), (Z.of_nat (calcsize fmt));
  split; [reflexivity|];
  split;
  [ change (UADPDecoder.decode_value (pack_int fmt z) _ 0)
      with (UADPDecoder.returning PyInt dec (pack_int fmt z) 0);
    unfold UADPDecoder.returning, dec;
    rewrite <- (app_nil_r (pack_int fmt z));
    rewrite unpack_lemma by (try reflexivity; cbn; lia);
    reflexivity
  | split; [unfold len, pack_int; now rewrite length_le_bytes | reflexivity] ].

(** C2. For every supported scalar type and every value representable in
    it, decoding at offset 0 the bytes produced by encoding the value
    returns the value and the number of bytes of the encoding, which is
    the fixed width of a fixed-width type and, for String and ByteString,
    4 plus the payload byte length (4 for the null value). *)
Theorem scalar_roundtrip (rt : runtime) (t : Z) (v : pyval) :
  representable t v ->
  exists (bs : bytes) (n : Z),
    UADPEncoder.encode_value rt v (Some t) = Ok bs /\
    UADPDecoder.decode_value bs t 0 = Ok (v, n) /\
    n = len bs /\
    width_law t v n.
Proof.
  intros Hrep. destruct Hrep.
  - (* Boolean *)
    exists (pack_int Fmt_B (if b then 1 else 0)), 1.
    split; [reflexivity|]. split; [|split; reflexivity].
    destruct b; reflexivity.
  - roundtrip_int Fmt_b z UADPDecoder.decode_sbyte unpack_pack_signed.
  - roundtrip_int Fmt_B z UADPDecoder.decode_byte unpack_pack_unsigned.
  - roundtrip_int Fmt_h z UADPDecoder.decode_int16 unpack_pack_signed.
  - roundtrip_int Fmt_H z UADPDecoder.decode_uint16 unpack_pack_unsigned.
  - roundtrip_int Fmt_i z UADPDecoder.decode_int32 unpack_pack_signed.
  - roundtrip_int Fmt_I z UADPDecoder.decode_uint32 unpack_pack_unsigned.
  - roundtrip_int Fmt_q z UADPDecoder.decode_int64 unpack_pack_signed.
  - roundtrip_int Fmt_Q z UADPDecoder.decode_uint64 unpack_pack_unsigned.
  - (* Float *)
    exists (le_bytes 4 (float_bits 23 8 w)), 4.
    assert (Hbits : 0 <= float_bits 23 8 w < 2 ^ 32).
    { apply (float_bits_range 23 8 w); [lia | lia | assumption]. }
    split.
    { change (UADPEncoder.encode_value rt (PyFloat (host_float w)) (Some FLOAT))
        with (Ok (le_bytes 4
                    (float_bits 23 8 (float_round 23 8 (host_float w))))).
      now rewrite host_float_valid_single. }
    split; [|split; reflexivity].
    change (UADPDecoder.decode_value (le_bytes 4 (float_bits 23 8 w)) FLOAT 0)
      with (UADPDecoder.returning PyFloat UADPDecoder.decode_float
              (le_bytes 4 (float_bits 23 8 w)) 0).
    unfold UADPDecoder.returning, UADPDecoder.decode_float, unpack_float_from.
    cbn [mant_width exp_width float_size].
    rewrite <- (app_nil_r (le_bytes 4 _)).
    rewrite window_at_start by apply length_le_bytes.
    cbn [bind]. rewrite le_value_le_bytes.
    rewrite Z.mod_small by exact Hbits.
    rewrite float_of_bits_of_float by (try lia; assumption).
    reflexivity.
  - (* Double *)
    exists (le_bytes 8 (float_bits 52 11 f)), 8.
    assert (Hbits : 0 <= float_bits 52 11 f < 2 ^ 64).
    { apply (float_bits_range 52 11 f); [lia | lia | assumption]. }
    split.
    { change (UADPEncoder.encode_value rt (PyFloat f) (Some DOUBLE))
        with (Ok (le_bytes 8 (float_bits 52 11 (float_round 52 11 f)))).
      now rewrite float_round_exact. }
    split; [|split; reflexivity].
    change (UADPDecoder.decode_value (le_bytes 8 (float_bits 52 11 f)) DOUBLE 0)
      with (UADPDecoder.returning PyFloat UADPDecoder.decode_double
              (le_bytes 8 (float_bits 52 11 f)) 0).
    unfold UADPDecoder.returning, UADPDecoder.decode_double, unpack_float_from.
    cbn [mant_width exp_width float_size].
    rewrite <- (app_nil_r (le_bytes 8 _)).
    rewrite window_at_start by apply length_le_bytes.
    cbn [bind]. rewrite le_value_le_bytes.
    rewrite Z.mod_small by exact Hbits.
    rewrite float_of_bits_of_float by (try lia; assumption).
    unfold host_float. now rewrite float_round_exact.
  - (* null String *)
    exists (pack_int Fmt_i (-1)), 4. repeat split; reflexivity.
  - (* String *)
    rename H into Henc, H0 into Hlen.
    pose proof (len_nonneg payload) as Hnn.
    exists (pack_int Fmt_i (len payload) ++ payload), (4 + len payload).
    split.
    { change (UADPEncoder.encode_value rt (PyStr s) (Some STRING))
        with (UADPEncoder.encode_string (PyStr s)).
      unfold UADPEncoder.encode_string. now rewrite Henc. }
    split; [|split].
    + change (UADPDecoder.decode_value ?d STRING 0)
        with (UADPDecoder.returning (UADPDecoder.optional PyStr)
                UADPDecoder.decode_string d 0).
      unfold UADPDecoder.returning, UADPDecoder.decode_string.
      rewrite unpack_pack_signed by (try reflexivity; cbn; lia).
      cbn [bind]. destruct (Z.ltb_spec (len payload) 0); [lia|].
      change (0 + 4) with (len (pack_int Fmt_i (len payload))).
      rewrite slice_inside, (utf8_decode_encode s payload Henc).
      reflexivity.
    + rewrite len_app. reflexivity.
    + cbn. exists payload. now split.
  - roundtrip_int Fmt_Q z UADPDecoder.decode_datetime unpack_pack_unsigned.
  - (* null ByteString *)
    exists (pack_int Fmt_i (-1)), 4. repeat split; reflexivity.
  - (* ByteString *)
    rename H into Hlen.
    pose proof (len_nonneg payload) as Hnn.
    exists (pack_int Fmt_i (len payload) ++ payload), (4 + len payload).
    split; [reflexivity|]. split; [|split].
    + change (UADPDecoder.decode_value ?d BYTESTRING 0)
        with (UADPDecoder.returning (UADPDecoder.optional PyBytes)
                UADPDecoder.decode_bytestring d 0).
      unfold UADPDecoder.returning, UADPDecoder.decode_bytestring.
      rewrite unpack_pack_signed by (try reflexivity; cbn; lia).
      cbn [bind]. destruct (Z.ltb_spec (len payload) 0); [lia|].
      change (0 + 4) with (len (pack_int Fmt_i (len payload))).
      rewrite slice_inside. reflexivity.
    + rewrite len_app. reflexivity.
    + reflexivity.
Qed.

Lemma scalar_roundtrip_witness :
  exists (bs : bytes) (n : Z),
    UADPEncoder.encode_value example_runtime (PyInt 200) (Some INT16) = Ok bs /\
    UADPDecoder.decode_value bs INT16 0 = Ok (PyInt 200, n) /\
    n = len bs /\
    width_law INT16 (PyInt 200) n.
Proof.
  apply (scalar_roundtrip example_runtime INT16 (PyInt 200)).
  apply rep_int16. lia.
Defined.

Example float_25_5_bits :
  7177611906121728 = 51 * 2 ^ 47 /\
  float_bits 52 11 float_25_5 = 0x4039800000000000 /\
  float_bits 23 8 (float_round 23 8 float_25_5) = 0x41CC0000.
Proof. vm_compute. repeat split; reflexivity. Qed.

Example float_25_5_is_single :
  representable FLOAT (PyFloat float_25_5).
Proof.
  change float_25_5 with (host_float (S754_finite false 13369344 (-19))).
  apply rep_float. reflexivity.
Qed.

(** ** Truncated buffers *)

Lemma unpack_from_short (fmt : int_format) (data : bytes) (offset : Z) :
  0 <= offset -> len data < offset + Z.of_nat (calcsize fmt) ->
  unpack_from fmt data offset = Raise ValueError.
Proof.
  intros Ho Hs. unfold unpack_from. now rewrite window_short.
Qed.

Lemma unpack_float_from_short (fmt : float_format) (data : bytes) (offset : Z) :
  0 <= offset -> len data < offset + Z.of_nat (float_size fmt) ->
  unpack_float_from fmt data offset = Raise ValueError.
Proof.
  intros Ho Hs. unfold unpack_float_from. now rewrite window_short.
Qed.

Lemma unpack_from_inside (fmt : int_format) (data : bytes) (offset n : Z) :
  0 <= offset -> unpack_from fmt data offset = Ok n ->
  offset + Z.of_nat (calcsize fmt) <= len data.
Proof.
  intros Ho. unfold unpack_from, window. cbv zeta.
  destruct (Z.ltb_spec offset 0); [lia|].
  destruct (Z.ltb_spec offset 0); [lia|].
  destruct (Z.ltb_spec (len data) (offset + Z.of_nat (calcsize fmt)));
    cbn [orb bind]; [discriminate|]. intros _. assumption.
Qed.

Lemma slice_from_inside {A : Type} (data : list A) (lo : Z) :
  0 <= lo <= len data -> slice_from data lo = skipn (Z.to_nat lo) data.
Proof.
  intros Hlo. unfold slice_from. now rewrite slice_bound_inside.
Qed.

Ltac dispatch :=
  cbv beta iota delta
    [ UADPDecoder.decode_value UADPDecoder.decoders dict_get Z.eqb Pos.eqb
      BOOLEAN SBYTE BYTE INT16 UINT16 INT32 UINT32 INT64 UINT64 FLOAT DOUBLE
      STRING DATETIME GUID BYTESTRING ].

(** C6, as the code has it. A fixed-width scalar decode on a buffer with
    fewer bytes than the fixed width fails with an error, and so does a
    String or ByteString decode with fewer than four bytes for the length
    prefix. When a non-negative length prefix announces more payload
    bytes than the buffer holds, the decode does not fail for that: it
    takes the bytes that are there (for a String, their UTF-8 decoding)
    and returns the offset advanced by 4 plus the announced length. *)
Theorem truncated_reads (data : bytes) (t offset : Z) :
  0 <= offset ->
  (forall w, fixed_width t = Some w -> len data < offset + w ->
     UADPDecoder.decode_value data t offset = Raise ValueError) /\
  (t = STRING \/ t = BYTESTRING -> len data < offset + 4 ->
     UADPDecoder.decode_value data t offset = Raise ValueError) /\
  (forall n, unpack_from Fmt_i data offset = Ok n -> 0 <= n ->
     len data < offset + 4 + n ->
     UADPDecoder.decode_value data BYTESTRING offset
     = Ok (PyBytes (slice_from data (offset + 4)), offset + 4 + n) /\
     UADPDecoder.decode_value data STRING offset
     = (s <- utf8_decode (slice_from data (offset + 4)) ;;
        Ok (PyStr s, offset + 4 + n))).
Proof.
  intros Ho. split; [|split].
  - intros w. unfold fixed_width, dict_get.
    repeat match goal with
           | |- context [?k =? t] => destruct (Z.eqb_spec k t) as [<-|_]
           end; try discriminate;
      intros Hw Hs; apply Ok_inj in Hw || inversion Hw; subst w; dispatch;
      unfold UADPDecoder.returning, UADPDecoder.decode_boolean,
        UADPDecoder.decode_sbyte, UADPDecoder.decode_byte,
        UADPDecoder.decode_int16, UADPDecoder.decode_uint16,
        UADPDecoder.decode_int32, UADPDecoder.decode_uint32,
        UADPDecoder.decode_int64, UADPDecoder.decode_uint64,
        UADPDecoder.decode_float, UADPDecoder.decode_double,
        UADPDecoder.decode_datetime;
      (rewrite unpack_from_short by (cbn; lia))
      || (rewrite unpack_float_from_short by (cbn; lia));
      reflexivity.
  - intros [-> | ->] Hs; dispatch;
      unfold UADPDecoder.returning, UADPDecoder.decode_string,
        UADPDecoder.decode_bytestring;
      rewrite unpack_from_short by (cbn; lia); reflexivity.
  - intros n Hn Hpos Hs.
    pose proof (unpack_from_inside Fmt_i data offset n Ho Hn) as Hin.
    cbn in Hin.
    assert (Hslice : slice data (offset + 4) (offset + 4 + n)
                     = slice_from data (offset + 4)).
    { rewrite slice_clamped, slice_from_inside by lia. reflexivity. }
    split; dispatch;
      unfold UADPDecoder.returning, UADPDecoder.decode_string,
        UADPDecoder.decode_bytestring;
      rewrite Hn; cbn [bind];
      (destruct (Z.ltb_spec n 0); [lia|]); rewrite Hslice.
    + reflexivity.
    + destruct (utf8_decode (slice_from data (offset + 4))); reflexivity.
Qed.

Lemma truncated_reads_witness :
  UADPDecoder.decode_value [ x2a; x00 ] INT32 0 = Raise ValueError.
Proof.
  apply (proj1 (truncated_reads [ x2a; x00 ] INT32 0 ltac:(lia)) 4).
  - reflexivity.
  - vm_compute. reflexivity.
Defined.

(** The length prefix announces five payload bytes and one is there; the
    ByteString and the String decoders return that byte and offset 9. *)
Lemma truncated_payload_is_accepted :
  unpack_from Fmt_i [ x05; x00; x00; x00; x41 ] 0 = Ok 5 /\
  len [ x05; x00; x00; x00; x41 ] < 0 + 4 + 5 /\
  UADPDecoder.decode_value [ x05; x00; x00; x00; x41 ] BYTESTRING 0
  = Ok (PyBytes [ x41 ], 9) /\
  UADPDecoder.decode_value [ x05; x00; x00; x00; x41 ] STRING 0
  = Ok (PyStr [ 65 ], 9).
Proof. vm_compute. repeat split; reflexivity. Qed.

(** ** Publisher id in minimal framing *)

Lemma slice_to_firstn {A : Type} (l : list A) (n : Z) :
  0 <= n -> slice_to l n = firstn (Z.to_nat n) l.
Proof.
  intros Hn. unfold slice_to. pose proof (len_nonneg l).
  destruct (Z_le_gt_dec n (len l)).
  - now rewrite slice_bound_inside by lia.
  - rewrite slice_bound_beyond by lia.
    unfold len. rewrite Nat2Z.id, firstn_all.
    symmetry. apply firstn_all2. unfold len in *. lia.
Qed.

(** Whatever the publisher id, the selector tag of minimal framing is
    Byte (0) or String (4). *)
Lemma minimal_selector_tag (rt : runtime) (self : UADPNetworkMessage.t)
  (bs : bytes) :
  UADPNetworkMessage.encode_minimal rt self = Ok bs ->
  exists tag rest, bs = x11 :: tag :: rest /\ (tag = x00 \/ tag = x04).
Proof.
  unfold UADPNetworkMessage.encode_minimal. cbv zeta.
  change (append [] (Z.lor UADPNetworkMessage.VERSION
                       UADPFlags.PUBLISHER_ID_ENABLED)) with [ x11 ].
  change (append [ x11 ] UADPFlags.PUBLISHER_ID_STRING) with [ x11; x04 ].
  change (append [ x11 ] UADPFlags.PUBLISHER_ID_BYTE) with [ x11; x00 ].
  assert (Hstr :
    (buffer <- (encoded <- utf8_encode
                             (py_str rt (UADPNetworkMessage.publisher_id self)) ;;
                Ok (extend
                      (extend [ x11; x04 ]
                         (pack_int Fmt_i (len (slice_to encoded 16))))
                      (slice_to encoded 16))) ;;
     buffer0 <- for_each
                  (fun buffer0 ds_msg =>
                     encoded <- UADPDataSetMessage.encode rt ds_msg ;;
                     Ok (extend buffer0 encoded))
                  (UADPNetworkMessage.dataset_messages self)
                  (append buffer
                     (len (UADPNetworkMessage.dataset_messages self))) ;;
     Ok buffer0) = Ok bs ->
    exists tag rest, bs = x11 :: tag :: rest /\ (tag = x00 \/ tag = x04)).
  { destruct (utf8_encode (py_str rt (UADPNetworkMessage.publisher_id self)))
      as [encoded|e]; cbn [bind]; [|discriminate].
    rewrite for_each_extend.
    destruct (comprehension (UADPDataSetMessage.encode rt)
                (UADPNetworkMessage.dataset_messages self)) as [encs|e];
      cbn [bind]; [|discriminate].
    intros E. apply Ok_inj in E. subst bs.
    unfold extend, append. cbn [app]. eauto. }
  destruct (UADPNetworkMessage.publisher_id self) as [| b | z | f | s | pb | o];
    try exact Hstr.
  - cbn [get_int bind]. destruct (sign_bit b <=? 255); [|exact Hstr].
    cbn [bind]. rewrite for_each_extend.
    destruct (comprehension (UADPDataSetMessage.encode rt)
                (UADPNetworkMessage.dataset_messages self)) as [encs|e];
      cbn [bind]; [|discriminate].
    intros E. apply Ok_inj in E. subst bs.
    unfold append. cbn [app]. eauto.
  - cbn [get_int bind]. destruct (z <=? 255); [|exact Hstr].
    cbn [bind]. rewrite for_each_extend.
    destruct (comprehension (UADPDataSetMessage.encode rt)
                (UADPNetworkMessage.dataset_messages self)) as [encs|e];
      cbn [bind]; [|discriminate].
    intros E. apply Ok_inj in E. subst bs.
    unfold append. cbn [app]. eauto.
Qed.

(** Among the publisher ids, those sent in string form are exactly those
    that are not an integer in the range 0-255. *)
Lemma sent_as_string_on_ids (publisher_id : pyval) :
  is_publisher_id publisher_id ->
  sent_as_string publisher_id <->
  ~ (exists z, publisher_id = PyInt z /\ 0 <= z <= 255).
Proof.
  destruct publisher_id as [| b | z | f | s | bs | o];
    cbn [is_publisher_id sent_as_string]; intros Hid; try contradiction.
  - split.
    + intros Hz (z' & E & Hr). injection E as <-. lia.
    + intros Hn. destruct (Z_le_gt_dec z 255) as [Hle|Hgt]; [|lia].
      exfalso. apply Hn. exists z. split; [reflexivity|lia].
  - split; [|trivial]. intros _ (z & E & _). discriminate E.
Qed.

(** C10. In minimal framing every publisher id that is not an integer in
    the range 0-255 (text, an integer greater than 255, and also any
    value that is not an integer) is sent with the String selector tag
    followed by the UTF-8 bytes of its string form cut to at most 16
    bytes, length-prefixed; then come the message count and the DataSet
    messages. No publisher id is ever sent with the UInt16 or UInt32
    tag: the tag is Byte or String. *)
Theorem minimal_publisher_id_as_string (rt : runtime)
  (self : UADPNetworkMessage.t) (encoded : bytes) (encs : list bytes) :
  sent_as_string (UADPNetworkMessage.publisher_id self) ->
  utf8_encode (py_str rt (UADPNetworkMessage.publisher_id self)) = Ok encoded ->
  comprehension (UADPDataSetMessage.encode rt)
    (UADPNetworkMessage.dataset_messages self) = Ok encs ->
  UADPNetworkMessage.encode_minimal rt self
  = Ok ([ x11; x04 ]
        ++ pack_int Fmt_i (len (firstn 16 encoded))
        ++ firstn 16 encoded
        ++ [ byte_of_Z (len (UADPNetworkMessage.dataset_messages self)) ]
        ++ List.concat encs) /\
  (List.length (firstn 16 encoded) <= 16)%nat /\
  (forall (other : UADPNetworkMessage.t) (bs : bytes),
     UADPNetworkMessage.encode_minimal rt other = Ok bs ->
     exists tag rest, bs = x11 :: tag :: rest /\ (tag = x00 \/ tag = x04)).
Proof.
  intros Hs He Hc.
  split; [|split; [apply firstn_le_length | apply minimal_selector_tag]].
  unfold UADPNetworkMessage.encode_minimal. cbv zeta.
  assert (Hstr :
    (encoded0 <- utf8_encode (py_str rt (UADPNetworkMessage.publisher_id self)) ;;
     Ok (extend
           (extend (append (append [] (Z.lor UADPNetworkMessage.VERSION
                                         UADPFlags.PUBLISHER_ID_ENABLED))
                      UADPFlags.PUBLISHER_ID_STRING)
              (pack_int Fmt_i (len (slice_to encoded0 16))))
           (slice_to encoded0 16)))
    = Ok ([ x11; x04 ] ++ pack_int Fmt_i (len (firstn 16 encoded))
          ++ firstn 16 encoded)).
  { rewrite He. cbn [bind]. rewrite slice_to_firstn by lia.
    change (Z.to_nat 16) with 16%nat. unfold extend.
    rewrite <- app_assoc. reflexivity. }
  assert (Hpub :
    match UADPNetworkMessage.publisher_id self with
    | PyInt _ | PyBool _ =>
        id <- get_int (UADPNetworkMessage.publisher_id self) ;;
        (if id <=? 255
         then Ok (append (append (append [] (Z.lor UADPNetworkMessage.VERSION
                                               UADPFlags.PUBLISHER_ID_ENABLED))
                            UADPFlags.PUBLISHER_ID_BYTE) id)
         else
           encoded0 <- utf8_encode
                         (py_str rt (UADPNetworkMessage.publisher_id self)) ;;
           Ok (extend
                 (extend (append (append [] (Z.lor UADPNetworkMessage.VERSION
                                               UADPFlags.PUBLISHER_ID_ENABLED))
                            UADPFlags.PUBLISHER_ID_STRING)
                    (pack_int Fmt_i (len (slice_to encoded0 16))))
                 (slice_to encoded0 16)))
    | _ =>
        encoded0 <- utf8_encode
                      (py_str rt (UADPNetworkMessage.publisher_id self)) ;;
        Ok (extend
              (extend (append (append [] (Z.lor UADPNetworkMessage.VERSION
                                            UADPFlags.PUBLISHER_ID_ENABLED))
                         UADPFlags.PUBLISHER_ID_STRING)
                 (pack_int Fmt_i (len (slice_to encoded0 16))))
              (slice_to encoded0 16))
    end
    = Ok ([ x11; x04 ] ++ pack_int Fmt_i (len (firstn 16 encoded))
          ++ firstn 16 encoded)).
  { destruct (UADPNetworkMessage.publisher_id self) as [| b | z | f | s | bs | o];
      cbn [sent_as_string] in Hs; try exact Hstr; try contradiction.
    cbn [get_int bind]. destruct (Z.leb_spec z 255); [lia|]. exact Hstr. }
  rewrite Hpub. cbn [bind].
  rewrite for_each_extend, Hc. cbn [bind].
  unfold append. rewrite <- !app_assoc. reflexivity.
Qed.

Lemma minimal_publisher_id_as_string_witness :
  UADPNetworkMessage.encode_minimal example_runtime
    (UADPNetworkMessage.init (PyInt 1000) 1)
  = Ok [ x11; x04; x04; x00; x00; x00; x31; x30; x30; x30; x00 ].
Proof.
  apply (minimal_publisher_id_as_string example_runtime
           (UADPNetworkMessage.init (PyInt 1000) 1)
           [ x31; x30; x30; x30 ] []).
  - cbn. lia.
  - vm_compute. reflexivity.
  - reflexivity.
Defined.

(** ** Group header *)

Lemma payload_framing_witness :
  UADPNetworkMessage.encode example_runtime example_message_2
  = Ok ([ x71; x04; x05; x00; x00; x00; x45; x53; x50; x33; x32;
          x03; x01; x00; x00; x00; x00; x00; x05; x00;
          x02; xe8; x03; xe9; x03 ]
        ++ payload_body [ [ x0b; x00; x05; x00; x2a ];
                          [ x0b; x00; x05; x00; xc8; x00 ] ]).
Proof.
  apply (payload_framing example_runtime example_message_2
           [ x71; x04; x05; x00; x00; x00; x45; x53; x50; x33; x32 ]
           [ [ x0b; x00; x05; x00; x2a ]; [ x0b; x00; x05; x00; xc8; x00 ] ]).
  - vm_compute. reflexivity.
  - vm_compute. reflexivity.
Defined.

Example two_messages_body :
  payload_body [ [ x0b; x00; x05; x00; x2a ]; [ x0b; x00; x05; x00; xc8; x00 ] ]
  = [ x05; x00; x06; x00 ]
    ++ [ x0b; x00; x05; x00; x2a ] ++ [ x0b; x00; x05; x00; xc8; x00 ].
Proof. reflexivity. Qed.

(** What the encoder writes for the group header. *)
Lemma group_header_bytes (self : UADPNetworkMessage.t) (buffer : bytes) :
  UADPNetworkMessage.include_group_header self = true ->
  UADPNetworkMessage.encode_group_header self buffer
  = buffer ++ [ x03 ]
    ++ pack_int Fmt_H (UADPNetworkMessage.writer_group_id self)
    ++ pack_int Fmt_I 0
    ++ pack_int Fmt_H (Z.land (UADPNetworkMessage.sequence_number self) 65535).
Proof.
  intros Hg. unfold UADPNetworkMessage.encode_group_header. rewrite Hg.
  unfold extend, append. rewrite <- !app_assoc. reflexivity.
Qed.

(** C4 on the code. The message of group 1 and message number 5 is encoded
    with the group-flags byte 03: bits 0 and 1 are set, bit 2
    (NetworkMessageNumberPresent) is clear, although the 16-bit message
    number 05 00 follows the writer group id 01 00 and the group version
    00 00 00 00. The decoder, which reads the message number only when
    bit 2 is set, takes the 05 for the DataSet message count and runs off
    the end of the buffer. *)
Theorem group_flags_byte_of_example :
  UADPNetworkMessage.encode example_runtime example_message
  = Ok ([ x71; x04; x05; x00; x00; x00; x45; x53; x50; x33; x32 ]
        ++ [ x03 ] ++ [ x01; x00 ] ++ [ x00; x00; x00; x00 ] ++ [ x05; x00 ]
        ++ [ x01; xe8; x03 ]
        ++ [ x0b; x00; x05; x00; x2a ]) /\
  Z.testbit (Z_of_byte x03) 0 = true /\
  Z.testbit (Z_of_byte x03) 1 = true /\
  Z.testbit (Z_of_byte x03) 2 = false /\
  (bs <- UADPNetworkMessage.encode example_runtime example_message ;;
   UADPNetworkMessage.decode bs) = Raise ValueError.
Proof. vm_compute. repeat split; reflexivity. Qed.

(** * Further properties of the codec *)

(** ** Decoding inside a larger buffer *)

Lemma unpack_pack_unsigned_at (fmt : int_format) (z : Z) (pre rest : bytes) :
  signed fmt = false ->
  0 <= z < 2 ^ (8 * Z.of_nat (calcsize fmt)) ->
  unpack_from fmt (pre ++ pack_int fmt z ++ rest) (len pre) = Ok z.
Proof.
  intros Hs Hz. unfold unpack_from, pack_int.
  rewrite window_inside by apply length_le_bytes.
  cbn [bind]. rewrite Hs, le_value_le_bytes, Z.mod_small by exact Hz.
  reflexivity.
Qed.

Lemma unpack_pack_signed_at (fmt : int_format) (z : Z) (pre rest : bytes) :
  signed fmt = true ->
  - 2 ^ (8 * Z.of_nat (calcsize fmt) - 1) <= z
    < 2 ^ (8 * Z.of_nat (calcsize fmt) - 1) ->
  unpack_from fmt (pre ++ pack_int fmt z ++ rest) (len pre) = Ok z.
Proof.
  intros Hs Hz. unfold unpack_from, pack_int.
  rewrite window_inside by apply length_le_bytes.
  cbn [bind]. rewrite Hs, le_value_le_bytes, to_signed_wrap;
    [reflexivity | destruct fmt; cbn; lia | exact Hz].
Qed.

Lemma slice_middle {A : Type} (pre mid post : list A) :
  slice (pre ++ mid ++ post) (len pre) (len pre + len mid) = mid.
Proof.
  unfold slice. cbv zeta. rewrite !len_app.
  pose proof (len_nonneg pre). pose proof (len_nonneg mid).
  pose proof (len_nonneg post).
  rewrite !slice_bound_inside by lia.
  replace (Z.to_nat (len pre)) with (List.length pre) by (unfold len; lia).
  replace (Z.to_nat (len pre + len mid - len pre)) with (List.length mid)
    by (unfold len; lia).
  rewrite skipn_app, skipn_all, Nat.sub_diag. cbn [skipn app].
  rewrite firstn_app, firstn_all, Nat.sub_diag. cbn [firstn].
  apply app_nil_r.
Qed.

Lemma index_at (pre : bytes) (b : byte) (rest : bytes) :
  index (pre ++ b :: rest) (len pre) = Ok (Z_of_byte b).
Proof.
  unfold index. cbv zeta. rewrite len_app.
  pose proof (len_nonneg pre). pose proof (len_nonneg rest).
  assert (Hl : len (b :: rest) = 1 + len rest)
    by (unfold len; cbn [List.length]; lia).
  rewrite Hl.
  assert (E0 : (len pre <? 0) = false) by (apply Z.ltb_ge; lia).
  rewrite !E0.
  assert (E1 : (len pre + (1 + len rest) <=? len pre) = false)
    by (apply Z.leb_gt; lia).
  rewrite E1. cbn [orb].
  replace (Z.to_nat (len pre)) with (List.length pre + 0)%nat
    by (unfold len; lia).
  rewrite nth_error_app2 by lia.
  replace (List.length pre + 0 - List.length pre)%nat with 0%nat by lia.
  reflexivity.
Qed.

Lemma len_pack_int (fmt : int_format) (z : Z) :
  len (pack_int fmt z) = Z.of_nat (calcsize fmt).
Proof. unfold len, pack_int. now rewrite length_le_bytes. Qed.

Ltac roundtrip_int_at fmt z dec unpack_lemma pre rest :=
  exists (pack_int fmt z);
  split; [reflexivity|];
  change (UADPDecoder.decode_value (pre ++ pack_int fmt z ++ rest) _ (len pre))
    with (UADPDecoder.returning PyInt dec (pre ++ pack_int fmt z ++ rest)
            (len pre));
  unfold UADPDecoder.returning, dec;
  rewrite unpack_lemma by (try reflexivity; cbn; lia);
  cbn [bind]; rewrite len_pack_int; reflexivity.

(** Decoding an encoded value where it lies in a buffer. *)
Lemma decode_encoded_in_buffer (rt : runtime) (t : Z) (v : pyval)
  (pre rest : bytes) :
  representable t v ->
  exists bs : bytes,
    UADPEncoder.encode_value rt v (Some t) = Ok bs /\
    UADPDecoder.decode_value (pre ++ bs ++ rest) t (len pre)
    = Ok (v, len pre + len bs).
Proof.
  intros Hrep. destruct Hrep.
  - exists (pack_int Fmt_B (if b then 1 else 0)).
    split; [reflexivity|].
    change (UADPDecoder.decode_value ?d BOOLEAN ?o)
      with (UADPDecoder.returning PyBool UADPDecoder.decode_boolean d o).
    unfold UADPDecoder.returning, UADPDecoder.decode_boolean.
    rewrite unpack_pack_unsigned_at
      by (try reflexivity; destruct b; cbn; lia).
    destruct b; reflexivity.
  - roundtrip_int_at Fmt_b z UADPDecoder.decode_sbyte unpack_pack_signed_at pre rest.
  - roundtrip_int_at Fmt_B z UADPDecoder.decode_byte unpack_pack_unsigned_at pre rest.
  - roundtrip_int_at Fmt_h z UADPDecoder.decode_int16 unpack_pack_signed_at pre rest.
  - roundtrip_int_at Fmt_H z UADPDecoder.decode_uint16 unpack_pack_unsigned_at pre rest.
  - roundtrip_int_at Fmt_i z UADPDecoder.decode_int32 unpack_pack_signed_at pre rest.
  - roundtrip_int_at Fmt_I z UADPDecoder.decode_uint32 unpack_pack_unsigned_at pre rest.
  - roundtrip_int_at Fmt_q z UADPDecoder.decode_int64 unpack_pack_signed_at pre rest.
  - roundtrip_int_at Fmt_Q z UADPDecoder.decode_uint64 unpack_pack_unsigned_at pre rest.
  - exists (le_bytes 4 (float_bits 23 8 w)).
    assert (Hbits : 0 <= float_bits 23 8 w < 2 ^ 32).
    { apply (float_bits_range 23 8 w); [lia | lia | assumption]. }
    split.
    { change (UADPEncoder.encode_value rt (PyFloat (host_float w)) (Some FLOAT))
        with (Ok (le_bytes 4
                    (float_bits 23 8 (float_round 23 8 (host_float w))))).
      now rewrite host_float_valid_single. }
    change (UADPDecoder.decode_value ?d FLOAT ?o)
      with (UADPDecoder.returning PyFloat UADPDecoder.decode_float d o).
    unfold UADPDecoder.returning, UADPDecoder.decode_float, unpack_float_from.
    cbn [mant_width exp_width float_size].
    rewrite window_inside by apply length_le_bytes.
    cbn [bind]. rewrite le_value_le_bytes.
    rewrite Z.mod_small by exact Hbits.
    rewrite float_of_bits_of_float by (try lia; assumption).
    unfold len. rewrite length_le_bytes. reflexivity.
  - exists (le_bytes 8 (float_bits 52 11 f)).
    assert (Hbits : 0 <= float_bits 52 11 f < 2 ^ 64).
    { apply (float_bits_range 52 11 f); [lia | lia | assumption]. }
    split.
    { change (UADPEncoder.encode_value rt (PyFloat f) (Some DOUBLE))
        with (Ok (le_bytes 8 (float_bits 52 11 (float_round 52 11 f)))).
      now rewrite float_round_exact. }
    change (UADPDecoder.decode_value ?d DOUBLE ?o)
      with (UADPDecoder.returning PyFloat UADPDecoder.decode_double d o).
    unfold UADPDecoder.returning, UADPDecoder.decode_double, unpack_float_from.
    cbn [mant_width exp_width float_size].
    rewrite window_inside by apply length_le_bytes.
    cbn [bind]. rewrite le_value_le_bytes.
    rewrite Z.mod_small by exact Hbits.
    rewrite float_of_bits_of_float by (try lia; assumption).
    unfold host_float. rewrite float_round_exact by assumption.
    unfold len. rewrite length_le_bytes. reflexivity.
  - exists (pack_int Fmt_i (-1)). split; [reflexivity|].
    change (UADPDecoder.decode_value ?d STRING ?o)
      with (UADPDecoder.returning (UADPDecoder.optional PyStr)
              UADPDecoder.decode_string d o).
    unfold UADPDecoder.returning, UADPDecoder.decode_string.
    rewrite unpack_pack_signed_at by (try reflexivity; cbn; lia).
    reflexivity.
  - rename H into Henc, H0 into Hlen.
    pose proof (len_nonneg payload) as Hnn.
    exists (pack_int Fmt_i (len payload) ++ payload).
    split.
    { change (UADPEncoder.encode_value rt (PyStr s) (Some STRING))
        with (UADPEncoder.encode_string (PyStr s)).
      unfold UADPEncoder.encode_string. now rewrite Henc. }
    change (UADPDecoder.decode_value ?d STRING ?o)
      with (UADPDecoder.returning (UADPDecoder.optional PyStr)
              UADPDecoder.decode_string d o).
    unfold UADPDecoder.returning, UADPDecoder.decode_string.
    rewrite <- app_assoc.
    rewrite unpack_pack_signed_at by (try reflexivity; cbn; lia).
    cbn [bind]. destruct (Z.ltb_spec (len payload) 0); [lia|].
    rewrite (app_assoc pre).
    replace (len pre + 4) with (len (pre ++ pack_int Fmt_i (len payload)))
      by (rewrite len_app, len_pack_int; reflexivity).
    rewrite slice_middle, (utf8_decode_encode s payload Henc).
    cbn [bind UADPDecoder.optional].
    rewrite !len_app, len_pack_int. cbn [calcsize]. do 2 f_equal. lia.
  - roundtrip_int_at Fmt_Q z UADPDecoder.decode_datetime unpack_pack_unsigned_at pre rest.
  - exists (pack_int Fmt_i (-1)). split; [reflexivity|].
    change (UADPDecoder.decode_value ?d BYTESTRING ?o)
      with (UADPDecoder.returning (UADPDecoder.optional PyBytes)
              UADPDecoder.decode_bytestring d o).
    unfold UADPDecoder.returning, UADPDecoder.decode_bytestring.
    rewrite unpack_pack_signed_at by (try reflexivity; cbn; lia).
    reflexivity.
  - rename H into Hlen.
    pose proof (len_nonneg payload) as Hnn.
    exists (pack_int Fmt_i (len payload) ++ payload).
    split; [reflexivity|].
    change (UADPDecoder.decode_value ?d BYTESTRING ?o)
      with (UADPDecoder.returning (UADPDecoder.optional PyBytes)
              UADPDecoder.decode_bytestring d o).
    unfold UADPDecoder.returning, UADPDecoder.decode_bytestring.
    rewrite <- app_assoc.
    rewrite unpack_pack_signed_at by (try reflexivity; cbn; lia).
    cbn [bind]. destruct (Z.ltb_spec (len payload) 0); [lia|].
    rewrite (app_assoc pre).
    replace (len pre + 4) with (len (pre ++ pack_int Fmt_i (len payload)))
      by (rewrite len_app, len_pack_int; reflexivity).
    rewrite slice_middle.
    cbn [bind UADPDecoder.optional].
    rewrite !len_app, len_pack_int. cbn [calcsize]. do 2 f_equal. lia.
Qed.

(** X1. An encoded value is decoded where it lies: for a value
    representable in its type, decoding at the position of its encoding
    inside any buffer returns the value and the position just after the
    encoding, whatever bytes precede and follow. *)
Theorem scalar_roundtrip_in_buffer (rt : runtime) (t : Z) (v : pyval)
  (pre rest : bytes) :
  representable t v ->
  exists bs : bytes,
    UADPEncoder.encode_value rt v (Some t) = Ok bs /\
    UADPDecoder.decode_value (pre ++ bs ++ rest) t (len pre)
    = Ok (v, len pre + len bs).
Proof. apply decode_encoded_in_buffer. Qed.

Lemma scalar_roundtrip_in_buffer_witness :
  exists bs : bytes,
    UADPEncoder.encode_value example_runtime (PyInt (-2)) (Some INT16) = Ok bs /\
    UADPDecoder.decode_value ([ x0a; x0b ] ++ bs ++ [ xff ]) INT16
      (len [ x0a; x0b ])
    = Ok (PyInt (-2), len [ x0a; x0b ] + len bs).
Proof.
  apply (scalar_roundtrip_in_buffer example_runtime INT16 (PyInt (-2))
           [ x0a; x0b ] [ xff ]).
  apply rep_int16. lia.
Defined.

(** ** Round trip of the DataValue envelope *)

Lemma datavalue_encode_bytes (rt : runtime) (self : UADPDataValue.t)
  (include_status include_timestamp : bool) (vb tb : bytes) :
  UADPEncoder.encode_value rt (UADPDataValue.value self)
    (Some (UADPDataValue.type_id self)) = Ok vb ->
  (if include_timestamp
   then UADPEncoder.encode_datetime rt (UADPDataValue.source_timestamp self)
   else Ok []) = Ok tb ->
  UADPDataValue.encode rt self include_status include_timestamp
  = Ok ([ byte_of_Z (datavalue_mask (UADPDataValue.status_code self)
                       include_status include_timestamp) ]
        ++ vb
        ++ (if include_status
               && negb (UADPDataValue.status_code self =? StatusCode.GOOD)
            then pack_int Fmt_I (UADPDataValue.status_code self) else [])
        ++ tb).
Proof.
  intros Hv Ht. unfold datavalue_mask, UADPDataValue.encode.
  rewrite Hv.
  destruct (include_status
            && negb (UADPDataValue.status_code self =? StatusCode.GOOD));
    destruct include_timestamp; cbv beta iota zeta.
  all: repeat match goal with
       | |- context [negb (?a =? 0)] =>
           let b := eval vm_compute in (negb (a =? 0)) in
           change (negb (a =? 0)) with b
       | |- context [append [] ?m] =>
           let b := eval vm_compute in m in
           change (append [] m) with [ byte_of_Z b ]
       | |- context [byte_of_Z ?m] =>
           progress (let b := eval vm_compute in m in
                     change (byte_of_Z m) with (byte_of_Z b))
       end.
  all: cbv beta iota; cbn [bind]; try rewrite Ht; cbn [bind].
  all: try (apply Ok_inj in Ht; subst tb).
  all: unfold extend, UADPEncoder.encode_status_code; cbn [app];
    rewrite <- ?app_assoc, ?app_nil_r; reflexivity.
Qed.

Lemma representable_type_nonzero (t : Z) (v : pyval) :
  representable t v -> (t =? 0) = false.
Proof. intros H. destruct H; reflexivity. Qed.

(** X2. A DataValue whose value is representable in its type, whose
    status code is a 32-bit number and whose timestamp, when it is sent,
    is a 64-bit tick count, is decoded from its own encoding with the
    same value and type; the status code comes back when it was asked
    for (a Good status is not sent and decodes as Good), and so does the
    timestamp; otherwise they decode as Good and None. The decoder
    consumes the whole encoding. *)
Theorem datavalue_roundtrip (rt : runtime) (self : UADPDataValue.t)
  (include_status include_timestamp : bool) :
  representable (UADPDataValue.type_id self) (UADPDataValue.value self) ->
  0 <= UADPDataValue.status_code self < 2 ^ 32 ->
  (include_timestamp = true ->
   exists ticks, UADPDataValue.source_timestamp self = PyInt ticks /\
                 0 <= ticks < 2 ^ 64) ->
  exists bs : bytes,
    UADPDataValue.encode rt self include_status include_timestamp = Ok bs /\
    UADPDataValue.decode bs (UADPDataValue.type_id self) 0
    = Ok (datavalue_sent self include_status include_timestamp, len bs).
Proof.
  intros Hrep Hst Hts.
  destruct self as [v t status ts]. cbn [UADPDataValue.value
    UADPDataValue.type_id UADPDataValue.status_code
    UADPDataValue.source_timestamp] in *.
  pose proof (representable_type_nonzero t v Hrep) as Ht0.
  set (c := include_status && negb (status =? StatusCode.GOOD)).
  set (sb := if c then pack_int Fmt_I status else []).
  assert (Htb : exists tb,
            (if include_timestamp then UADPEncoder.encode_datetime rt ts
             else Ok []) = Ok tb /\
            forall (pre : bytes),
              include_timestamp = true ->
              UADPDecoder.decode_datetime (pre ++ tb) (len pre)
              = Ok (match ts with PyInt z => z | _ => 0 end, len pre + 8)).
  { destruct include_timestamp.
    - destruct (Hts eq_refl) as (ticks & -> & Hr).
      exists (pack_int Fmt_Q ticks). split; [reflexivity|].
      intros pre _. unfold UADPDecoder.decode_datetime.
      rewrite <- (app_nil_r (pack_int Fmt_Q ticks)).
      rewrite unpack_pack_unsigned_at by (try reflexivity; cbn; lia).
      reflexivity.
    - exists []. split; [reflexivity|]. intros pre H. discriminate H. }
  destruct Htb as (tb & Hte & Htd).
  set (mb := byte_of_Z (datavalue_mask status include_status include_timestamp)).
  destruct (decode_encoded_in_buffer rt t v [ mb ] (sb ++ tb) Hrep)
    as (vb & Hve & Hvd).
  exists ([ mb ] ++ vb ++ sb ++ tb).
  split.
  { apply (datavalue_encode_bytes rt
             {| UADPDataValue.value := v; UADPDataValue.type_id := t;
                UADPDataValue.status_code := status;
                UADPDataValue.source_timestamp := ts |}
             include_status include_timestamp vb tb Hve Hte). }
  unfold UADPDataValue.decode. cbv zeta.
  change ([ mb ] ++ vb ++ sb ++ tb) with (mb :: vb ++ sb ++ tb) at 1.
  rewrite index_head. cbn [bind].
  assert (Hmask : Z_of_byte mb
                  = datavalue_mask status include_status include_timestamp).
  { unfold mb. apply Z_of_byte_of_Z_small. unfold datavalue_mask.
    fold c. destruct c; destruct include_timestamp; lia. }
  rewrite Hmask. unfold datavalue_mask. fold c.
  assert (Hbit0 : forall a b : bool,
            negb (Z.land (1 + (if a then 2 else 0) + (if b then 4 else 0)) 1 =? 0)
            = true) by (intros [] []; reflexivity).
  assert (Hbit1 : forall a b : bool,
            negb (Z.land (1 + (if a then 2 else 0) + (if b then 4 else 0)) 2 =? 0)
            = a) by (intros [] []; reflexivity).
  assert (Hbit2 : forall a b : bool,
            negb (Z.land (1 + (if a then 2 else 0) + (if b then 4 else 0)) 4 =? 0)
            = b) by (intros [] []; reflexivity).
  rewrite Hbit0, Hbit1, Hbit2.
  change (0 + 1) with (len [ mb ]).
  change (mb :: vb ++ sb ++ tb) with ([ mb ] ++ vb ++ sb ++ tb).
  rewrite Hvd. cbn [bind].
  assert (Hstatus :
    (if c
     then UADPDecoder.decode_uint32 ([ mb ] ++ vb ++ sb ++ tb)
            (len [ mb ] + len vb)
     else Ok (StatusCode.GOOD, len [ mb ] + len vb))
    = Ok (if include_status then status else StatusCode.GOOD,
          len [ mb ] + len vb + len sb)).
  { unfold sb. destruct c eqn:Ec.
    - unfold UADPDecoder.decode_uint32.
      rewrite <- len_app. rewrite (app_assoc [ mb ] vb).
      rewrite unpack_pack_unsigned_at by (try reflexivity; cbn; lia).
      cbn [bind]. rewrite len_pack_int.
      unfold c in Ec. apply andb_prop in Ec. destruct Ec as [-> _].
      reflexivity.
    - change (len (@nil byte)) with 0. rewrite Z.add_0_r.
      unfold c in Ec. destruct include_status; [|reflexivity].
      cbn [andb] in Ec. apply negb_false_iff in Ec.
      apply Z.eqb_eq in Ec. now rewrite Ec. }
  rewrite Hstatus. cbn [bind].
  destruct include_timestamp.
  - replace (len [ mb ] + len vb + len sb) with (len (([ mb ] ++ vb) ++ sb))
      by (rewrite !len_app; reflexivity).
    replace ([ mb ] ++ vb ++ sb ++ tb) with ((([ mb ] ++ vb) ++ sb) ++ tb)
      by (rewrite <- !app_assoc; reflexivity).
    rewrite (Htd _ eq_refl). cbn [bind].
    destruct (Hts eq_refl) as (ticks & -> & Hr).
    unfold UADPDataValue.init, datavalue_sent. rewrite Ht0.
    cbn [UADPDataValue.value UADPDataValue.type_id UADPDataValue.status_code
           UADPDataValue.source_timestamp].
    do 2 f_equal.
    apply Ok_inj in Hte. subst tb.
    rewrite !len_app, len_pack_int. reflexivity.
  - cbn [bind]. apply Ok_inj in Hte. subst tb.
    unfold UADPDataValue.init, datavalue_sent. rewrite Ht0.
    cbn [UADPDataValue.value UADPDataValue.type_id UADPDataValue.status_code
           UADPDataValue.source_timestamp].
    do 2 f_equal. rewrite !app_nil_r, !len_app. lia.
Qed.

Lemma datavalue_roundtrip_witness :
  exists bs : bytes,
    UADPDataValue.encode example_runtime
      (UADPDataValue.init (PyInt 42) (Some INT32) StatusCode.BAD (PyInt 7))
      true true = Ok bs /\
    UADPDataValue.decode bs INT32 0
    = Ok (UADPDataValue.init (PyInt 42) (Some INT32) StatusCode.BAD (PyInt 7),
          len bs).
Proof.
  apply (datavalue_roundtrip example_runtime
           (UADPDataValue.init (PyInt 42) (Some INT32) StatusCode.BAD (PyInt 7))
           true true).
  - apply rep_int32. lia.
  - vm_compute. split; [discriminate | reflexivity].
  - intros _. exists 7. split; [reflexivity | lia].
Defined.

(** ** DataSet messages *)

Lemma comprehension_app {A B : Type} (g : A -> result B) (l1 l2 : list A) :
  comprehension g (l1 ++ l2)
  = (a <- comprehension g l1 ;; b <- comprehension g l2 ;; Ok (a ++ b)).
Proof.
  induction l1 as [|x l1 IH]; cbn [app comprehension bind].
  - destruct (comprehension g l2); reflexivity.
  - destruct (g x) as [y|e]; cbn [bind]; [|reflexivity].
    rewrite IH. destruct (comprehension g l1) as [a|e]; cbn [bind];
      [|reflexivity].
    destruct (comprehension g l2) as [b|e]; reflexivity.
Qed.

Lemma rawdata_loop (rt : runtime) (fs : list (pystr * pyval * Z))
  (buffer : bytes) :
  for_each (fun buffer '(name, value, type_id) =>
              encoded <- UADPEncoder.encode_value rt value (Some type_id) ;;
              Ok (extend buffer encoded))
           fs buffer
  = (encs <- comprehension
               (fun '(_, value, type_id) =>
                  UADPEncoder.encode_value rt value (Some type_id))
               fs ;;
     Ok (buffer ++ List.concat encs)).
Proof.
  revert buffer.
  induction fs as [|[[name value] type_id] rest IH]; intros buffer;
    cbn [for_each comprehension bind List.concat].
  - now rewrite app_nil_r.
  - destruct (UADPEncoder.encode_value rt value (Some type_id)) as [enc|e];
      cbn [bind]; [|reflexivity].
    rewrite IH.
    destruct (comprehension _ rest) as [encs|e]; cbn [bind List.concat];
      [|reflexivity].
    unfold extend. rewrite <- !app_assoc. reflexivity.
Qed.

Lemma dataset_encode_bytes (rt : runtime) (self : UADPDataSetMessage.t) :
  UADPDataSetMessage.encode rt self
  = (encs <- comprehension
               (fun '(_, value, type_id) =>
                  UADPEncoder.encode_value rt value (Some type_id))
               (UADPDataSetMessage.fields self) ;;
     Ok ([ byte_of_Z
             (Z.lor (Z.lor UADPDataSetFlags.VALID
                       (Z.shiftl (UADPDataSetMessage.field_encoding self) 1))
                UADPDataSetFlags.SEQUENCE_NUMBER_ENABLED);
           x00 ]
         ++ pack_int Fmt_H
              (Z.land (UADPDataSetMessage.sequence_number self) 65535)
         ++ List.concat encs)).
Proof.
  unfold UADPDataSetMessage.encode. cbv zeta.
  rewrite rawdata_loop.
  destruct (comprehension _ (UADPDataSetMessage.fields self)); cbn [bind];
    [|reflexivity].
  unfold extend, append. cbn [app]. rewrite <- ?app_assoc. reflexivity.
Qed.

Lemma variant_loop (rt : runtime) (fs : list (pystr * pyval * Z))
  (buffer : bytes) :
  for_each (fun buffer '(name, value, type_id) =>
              let buffer := append buffer type_id in
              encoded <- UADPEncoder.encode_value rt value (Some type_id) ;;
              Ok (extend buffer encoded))
           fs buffer
  = (section <- variant_section rt fs ;; Ok (buffer ++ section)).
Proof.
  unfold variant_section. revert buffer.
  induction fs as [|[[name value] type_id] rest IH]; intros buffer;
    cbn [for_each comprehension bind List.concat].
  - now rewrite app_nil_r.
  - destruct (UADPEncoder.encode_value rt value (Some type_id)) as [enc|e];
      cbn [bind]; [|reflexivity].
    rewrite IH.
    destruct (comprehension _ rest) as [chunks|e]; cbn [bind List.concat];
      [|reflexivity].
    unfold extend, append. rewrite <- !app_assoc. reflexivity.
Qed.

Lemma variant_encode_bytes (rt : runtime) (self : UADPDataSetMessage.t) :
  UADPDataSetMessage.encode_with_types rt self
  = (section <- variant_section rt (UADPDataSetMessage.fields self) ;;
     Ok ([ x09; x00 ]
         ++ pack_int Fmt_H
              (Z.land (UADPDataSetMessage.sequence_number self) 65535)
         ++ pack_int Fmt_H (len (UADPDataSetMessage.fields self))
         ++ section)).
Proof.
  unfold UADPDataSetMessage.encode_with_types. cbv zeta.
  rewrite variant_loop.
  destruct (variant_section rt (UADPDataSetMessage.fields self));
    cbn [bind]; [|reflexivity].
  unfold extend. rewrite <- !app_assoc. reflexivity.
Qed.

Lemma comprehension_wire {B : Type} (h : pyval -> Z -> result B)
  (fs gs : list (pystr * pyval * Z)) :
  wire_fields fs = wire_fields gs ->
  comprehension (fun '(_, value, type_id) => h value type_id) fs
  = comprehension (fun '(_, value, type_id) => h value type_id) gs.
Proof.
  unfold wire_fields. revert gs.
  induction fs as [|[[n v] t] fs IH]; intros [|[[n' v'] t'] gs];
    cbn [map comprehension]; intros E; try discriminate.
  - reflexivity.
  - injection E as Ev Et Erest. subst v' t'.
    now rewrite (IH gs Erest).
Qed.

Lemma wire_fields_length (fs gs : list (pystr * pyval * Z)) :
  wire_fields fs = wire_fields gs -> len fs = len gs.
Proof.
  intros E. unfold len. f_equal.
  apply (f_equal (@List.length _)) in E. unfold wire_fields in E.
  now rewrite !length_map in E.
Qed.

Lemma land_low16 (n : Z) : Z.land n 65535 = n mod 65536.
Proof. change 65535 with (Z.ones 16). now rewrite Z.land_ones by lia. Qed.

(** X3. The bytes of a DataSet message carry the field values and types
    and the sequence number modulo 65536, and nothing else: two messages
    with the same field values and types in the same order, and sequence
    numbers that agree modulo 65536, have the same Variant encoding, and
    the same RawData encoding when their field-encoding settings agree,
    whatever their field names, writer ids and status. *)
Theorem dataset_wire_content (rt : runtime) (self other : UADPDataSetMessage.t) :
  wire_fields (UADPDataSetMessage.fields self)
  = wire_fields (UADPDataSetMessage.fields other) ->
  UADPDataSetMessage.sequence_number self mod 65536
  = UADPDataSetMessage.sequence_number other mod 65536 ->
  UADPDataSetMessage.encode_with_types rt self
  = UADPDataSetMessage.encode_with_types rt other /\
  (UADPDataSetMessage.field_encoding self
   = UADPDataSetMessage.field_encoding other ->
   UADPDataSetMessage.encode rt self = UADPDataSetMessage.encode rt other).
Proof.
  intros Hf Hs. split.
  - rewrite !variant_encode_bytes, !land_low16, Hs.
    rewrite (wire_fields_length _ _ Hf). unfold variant_section.
    rewrite (comprehension_wire
               (fun value type_id =>
                  encoded <- UADPEncoder.encode_value rt value (Some type_id) ;;
                  Ok (byte_of_Z type_id :: encoded)) _ _ Hf).
    reflexivity.
  - intros He. rewrite !dataset_encode_bytes, !land_low16, Hs, He.
    rewrite (comprehension_wire
               (fun value type_id =>
                  UADPEncoder.encode_value rt value (Some type_id)) _ _ Hf).
    reflexivity.
Qed.

Lemma dataset_wire_content_witness :
  UADPDataSetMessage.encode example_runtime
    (UADPDataSetMessage.add_field (UADPDataSetMessage.init 1000 65541)
       (text "T") (PyInt 42) None)
  = UADPDataSetMessage.encode example_runtime
      (UADPDataSetMessage.add_field (UADPDataSetMessage.init 7 5)
         (text "Temperature") (PyInt 42) None).
Proof.
  apply (dataset_wire_content example_runtime
           (UADPDataSetMessage.add_field (UADPDataSetMessage.init 1000 65541)
              (text "T") (PyInt 42) None)
           (UADPDataSetMessage.add_field (UADPDataSetMessage.init 7 5)
              (text "Temperature") (PyInt 42) None));
    reflexivity.
Defined.

Lemma variant_section_split (rt : runtime)
  (before : list (pystr * pyval * Z)) (name : pystr) (v : pyval) (t : Z)
  (after : list (pystr * pyval * Z)) :
  variant_section rt (before ++ (name, v, t) :: after)
  = (a <- variant_section rt before ;;
     enc <- UADPEncoder.encode_value rt v (Some t) ;;
     c <- variant_section rt after ;;
     Ok (a ++ byte_of_Z t :: enc ++ c)).
Proof.
  unfold variant_section. rewrite comprehension_app.
  destruct (comprehension _ before) as [ca|e]; cbn [bind comprehension];
    [|reflexivity].
  destruct (UADPEncoder.encode_value rt v (Some t)) as [enc|e]; cbn [bind];
    [|reflexivity].
  destruct (comprehension _ after) as [cc|e]; cbn [bind]; [|reflexivity].
  rewrite concat_app. cbn [List.concat]. reflexivity.
Qed.

Lemma representable_type_byte (t : Z) (v : pyval) :
  representable t v -> 0 <= t < 256.
Proof. intros H. destruct H; cbv; split; congruence. Qed.

(** X4. Variant encoding is self-describing field by field: for every
    field of an encoded message whose value is representable in its type,
    the byte at the field's position (6 plus the length of the fields
    before it) is its type tag, and decoding with that tag just after it
    returns the field's value and the position of the next field. *)
Theorem variant_field_in_place (rt : runtime) (self : UADPDataSetMessage.t)
  (before : list (pystr * pyval * Z)) (name : pystr) (v : pyval) (t : Z)
  (after : list (pystr * pyval * Z)) (data : bytes) :
  UADPDataSetMessage.fields self = before ++ (name, v, t) :: after ->
  representable t v ->
  UADPDataSetMessage.encode_with_types rt self = Ok data ->
  exists (section enc : bytes),
    variant_section rt before = Ok section /\
    UADPEncoder.encode_value rt v (Some t) = Ok enc /\
    variant_section rt (before ++ [ (name, v, t) ])
    = Ok (section ++ byte_of_Z t :: enc) /\
    index data (6 + len section) = Ok t /\
    UADPDecoder.decode_value data t (6 + len section + 1)
    = Ok (v, 6 + len section + 1 + len enc).
Proof.
  intros Hf Hrep Hd. rewrite variant_encode_bytes, Hf in Hd.
  rewrite variant_section_split in Hd.
  destruct (variant_section rt before) as [a|e] eqn:Ea; cbn [bind] in Hd;
    [|discriminate].
  destruct (UADPEncoder.encode_value rt v (Some t)) as [enc|e] eqn:Ee;
    cbn [bind] in Hd; [|discriminate].
  destruct (variant_section rt after) as [c|e] eqn:Ec; cbn [bind] in Hd;
    [|discriminate].
  apply Ok_inj in Hd.
  exists a, enc. split; [reflexivity|]. split; [reflexivity|].
  split.
  { rewrite variant_section_split, Ea, Ee. cbn [bind].
    change (variant_section rt []) with (@Ok bytes []). cbn [bind].
    now rewrite app_nil_r. }
  set (hdr := [ x09; x00 ]
              ++ pack_int Fmt_H
                   (Z.land (UADPDataSetMessage.sequence_number self) 65535)
              ++ pack_int Fmt_H (len (before ++ (name, v, t) :: after))) in *.
  assert (Hh : len hdr = 6).
  { unfold hdr. rewrite !len_app, !len_pack_int. reflexivity. }
  pose proof (representable_type_byte t v Hrep) as Ht.
  assert (Hdata : data = hdr ++ a ++ byte_of_Z t :: enc ++ c).
  { subst data. unfold hdr. rewrite <- !app_assoc. reflexivity. }
  clear Hd.
  split.
  - subst data.
    replace (hdr ++ a ++ byte_of_Z t :: enc ++ c)
      with ((hdr ++ a) ++ byte_of_Z t :: enc ++ c)
      by (rewrite <- app_assoc; reflexivity).
    replace (6 + len a) with (len (hdr ++ a)) by (rewrite len_app; lia).
    rewrite index_at, Z_of_byte_of_Z_small by lia. reflexivity.
  - destruct (decode_encoded_in_buffer rt t v (hdr ++ a ++ [ byte_of_Z t ]) c Hrep)
      as (bs & Hbs & Hdec).
    rewrite Ee in Hbs. apply Ok_inj in Hbs. subst bs.
    subst data.
    replace (hdr ++ a ++ byte_of_Z t :: enc ++ c)
      with ((hdr ++ a ++ [ byte_of_Z t ]) ++ enc ++ c)
      by (rewrite <- !app_assoc; reflexivity).
    replace (6 + len a + 1) with (len (hdr ++ a ++ [ byte_of_Z t ]))
      by (rewrite !len_app, Hh; change (len [ byte_of_Z t ]) with 1; lia).
    exact Hdec.
Qed.

Lemma variant_field_in_place_witness :
  exists (section enc : bytes),
    variant_section example_runtime [ (text "A", PyInt 42, SBYTE) ] = Ok section /\
    UADPEncoder.encode_value example_runtime (PyInt 200) (Some INT16) = Ok enc /\
    variant_section example_runtime
      ([ (text "A", PyInt 42, SBYTE) ] ++ [ (text "B", PyInt 200, INT16) ])
    = Ok (section ++ byte_of_Z INT16 :: enc) /\
    index [ x09; x00; x05; x00; x02; x00; x02; x2a; x04; xc8; x00 ]
      (6 + len section) = Ok INT16 /\
    UADPDecoder.decode_value
      [ x09; x00; x05; x00; x02; x00; x02; x2a; x04; xc8; x00 ] INT16
      (6 + len section + 1)
    = Ok (PyInt 200, 6 + len section + 1 + len enc).
Proof.
  apply (variant_field_in_place example_runtime
           (UADPDataSetMessage.add_field
              (UADPDataSetMessage.add_field (UADPDataSetMessage.init 1000 5)
                 (text "A") (PyInt 42) None)
              (text "B") (PyInt 200) None)
           [ (text "A", PyInt 42, SBYTE) ] (text "B") (PyInt 200) INT16 []).
  - reflexivity.
  - apply rep_int16. lia.
  - vm_compute. reflexivity.
Defined.

(** X5. The interop encoder and the library's Variant encoder write the
    same field count and field bytes: for a text publisher id, the
    interop message is its fixed header (D1 0C, the length-prefixed
    publisher id, the DataSetClassId, 01, the writer id, 01) followed by
    the Variant encoding of the same fields without its first four bytes
    (flags and sequence number). *)
Theorem interop_shares_variant_fields (rt : runtime) (s : pystr)
  (pub : bytes) (dataset_writer_id : Z) (self : UADPDataSetMessage.t)
  (lib : bytes) :
  utf8_encode s = Ok pub ->
  UADPDataSetMessage.encode_with_types rt self = Ok lib ->
  benchmark_leve.encode_uadp_interop rt (PyStr s) dataset_writer_id
    (UADPDataSetMessage.fields self)
  = Ok ([ xd1; x0c ] ++ pack_int Fmt_i (len pub) ++ pub
        ++ benchmark_leve.DATASET_CLASS_ID
        ++ [ x01 ] ++ pack_int Fmt_H dataset_writer_id ++ [ x01 ]
        ++ skipn 4 lib).
Proof.
  intros Hp Hl. rewrite variant_encode_bytes in Hl.
  unfold benchmark_leve.encode_uadp_interop. cbv zeta.
  rewrite Hp. cbn [bind]. rewrite variant_loop.
  destruct (variant_section rt (UADPDataSetMessage.fields self)) as [sec|e];
    cbn [bind] in Hl |- *; [|discriminate].
  apply Ok_inj in Hl. subst lib.
  unfold extend, append. cbn [app skipn pack_int calcsize le_bytes].
  rewrite <- !app_assoc. reflexivity.
Qed.

Lemma interop_shares_variant_fields_witness :
  benchmark_leve.encode_uadp_interop example_runtime (PyStr (text "ESP32")) 1000
    [ (text "Val_I32_C", PyInt 42, INT32) ]
  = Ok ([ xd1; x0c ] ++ pack_int Fmt_i 5 ++ [ x45; x53; x50; x33; x32 ]
        ++ benchmark_leve.DATASET_CLASS_ID
        ++ [ x01 ] ++ pack_int Fmt_H 1000 ++ [ x01 ]
        ++ skipn 4 [ x09; x00; x07; x00; x01; x00; x06; x2a; x00; x00; x00 ]).
Proof.
  apply (interop_shares_variant_fields example_runtime (text "ESP32")
           [ x45; x53; x50; x33; x32 ] 1000
           (UADPDataSetMessage.add_field (UADPDataSetMessage.init 1 7)
              (text "Val_I32_C") (PyInt 42) (Some INT32))).
  - vm_compute. reflexivity.
  - vm_compute. reflexivity.
Defined.

(** ** Decoding the headers of an encoded NetworkMessage *)

Lemma decode_phases (data : bytes) :
  UADPNetworkMessage.decode data
  = if len data <? 2 then Ok None
    else
      flags <- index data 0 ;;
      if negb (Z.land flags 15 =? 1) then Ok None
      else
        '(msg, offset) <-
          (if negb (Z.land flags 16 =? 0)
           then read_publisher_id data 1 (UADPNetworkMessage.init (PyStr []) 0)
           else Ok (UADPNetworkMessage.init (PyStr []) 0, 1)) ;;
        '(msg, offset) <-
          (if negb (Z.land flags 32 =? 0)
           then read_group_header data offset msg
           else Ok (msg, offset)) ;;
        '(ds_count, writer_ids, offset) <-
          (if negb (Z.land flags 64 =? 0)
           then read_payload_header data offset
           else Ok (1, [], offset)) ;;
        Ok (Some (UADPNetworkMessage.set_decoded msg (slice_from data offset)
                    writer_ids ds_count)).
Proof. reflexivity. Qed.

Lemma slice_from_app {A : Type} (pre post : list A) :
  slice_from (pre ++ post) (len pre) = post.
Proof.
  unfold slice_from. rewrite len_app.
  pose proof (len_nonneg pre). pose proof (len_nonneg post).
  rewrite slice_bound_inside by lia.
  replace (Z.to_nat (len pre)) with (List.length pre) by (unfold len; lia).
  rewrite skipn_app, skipn_all, Nat.sub_diag. reflexivity.
Qed.

(** The loop that reads the writer ids. *)
Lemma read_writer_ids (ws : list Z) (pre post : bytes) (acc : list Z) (k : nat) :
  Forall (fun w => 0 <= w < 65536) ws ->
  for_each (fun '(writer_ids, offset) (_ : nat) =>
              wid <- unpack_from Fmt_H
                       (pre ++ List.concat (map (pack_int Fmt_H) ws) ++ post)
                       offset ;;
              Ok (writer_ids ++ [wid], offset + 2))
           (seq k (List.length ws)) (acc, len pre)
  = Ok (acc ++ ws, len pre + 2 * len ws).
Proof.
  revert pre acc k. induction ws as [|w ws IH]; intros pre acc k Hr.
  - cbn [List.length seq for_each]. rewrite app_nil_r.
    change (len (@nil Z)) with 0. do 2 f_equal. lia.
  - inversion Hr as [|? ? Hw Hws]; subst.
    cbn [List.length seq for_each map List.concat].
    rewrite <- app_assoc.
    rewrite unpack_pack_unsigned_at by (try reflexivity; cbn; lia).
    cbn [bind].
    replace (len pre + 2) with (len (pre ++ pack_int Fmt_H w))
      by (rewrite len_app, len_pack_int; reflexivity).
    rewrite (app_assoc pre).
    rewrite (IH (pre ++ pack_int Fmt_H w) (acc ++ [ w ]) (S k) Hws).
    rewrite <- app_assoc. cbn [app].
    rewrite len_app, len_pack_int.
    replace (len (w :: ws)) with (1 + len ws)
      by (unfold len; cbn [List.length]; lia).
    do 2 f_equal. cbn [calcsize]. lia.
Qed.

Lemma read_payload_header_at (ws : list Z) (pre post : bytes) :
  Forall (fun w => 0 <= w < 65536) ws ->
  len ws <= 255 ->
  read_payload_header
    (pre ++ byte_of_Z (len ws) :: List.concat (map (pack_int Fmt_H) ws) ++ post)
    (len pre)
  = Ok (len ws, ws, len pre + 1 + 2 * len ws).
Proof.
  intros Hr Hc. unfold read_payload_header. cbv zeta.
  pose proof (len_nonneg ws) as Hn.
  rewrite index_at, Z_of_byte_of_Z_small by lia. cbn [bind].
  replace (Z.to_nat (len ws)) with (List.length ws) by (unfold len; lia).
  replace (len pre + 1) with (len (pre ++ [ byte_of_Z (len ws) ]))
    by (rewrite len_app; reflexivity).
  replace (pre ++ byte_of_Z (len ws)
                  :: List.concat (map (pack_int Fmt_H) ws) ++ post)
    with ((pre ++ [ byte_of_Z (len ws) ])
            ++ List.concat (map (pack_int Fmt_H) ws) ++ post)
    by (rewrite <- app_assoc; reflexivity).
  rewrite (read_writer_ids ws _ post [] 0 Hr). reflexivity.
Qed.

Lemma encode_payload_header_bytes (self : UADPNetworkMessage.t) (buffer : bytes) :
  UADPNetworkMessage.encode_payload_header self buffer
  = buffer
    ++ (if UADPNetworkMessage.include_payload_header self
        then byte_of_Z (len (UADPNetworkMessage.dataset_messages self))
             :: List.concat
                  (map (pack_int Fmt_H)
                     (map UADPDataSetMessage.dataset_writer_id
                        (UADPNetworkMessage.dataset_messages self)))
        else []).
Proof.
  unfold UADPNetworkMessage.encode_payload_header.
  destruct (UADPNetworkMessage.include_payload_header self);
    [|now rewrite app_nil_r].
  rewrite (fold_left_extend
             (fun ds_msg =>
                pack_int Fmt_H (UADPDataSetMessage.dataset_writer_id ds_msg))).
  unfold append. rewrite <- app_assoc, map_map. reflexivity.
Qed.

Lemma encode_payload_bytes (rt : runtime) (self : UADPNetworkMessage.t)
  (encs : list bytes) (buffer : bytes) :
  comprehension (UADPDataSetMessage.encode rt)
    (UADPNetworkMessage.dataset_messages self) = Ok encs ->
  UADPNetworkMessage.encode_payload rt self buffer
  = Ok (buffer ++ payload_body encs).
Proof.
  intros Hc. pose proof (comprehension_length _ _ _ Hc) as Hl.
  unfold UADPNetworkMessage.encode_payload.
  destruct (Z.ltb_spec 1 (len (UADPNetworkMessage.dataset_messages self)))
    as [Hmany|Hfew].
  - rewrite Hc. cbn [bind].
    rewrite (fold_left_extend (fun enc_msg => pack_int Fmt_H (len enc_msg))).
    rewrite (fold_left_extend (fun enc_msg => enc_msg)), map_id.
    unfold len in Hmany. rewrite <- Hl in Hmany.
    destruct encs as [|e1 [|e2 more]]; cbn [List.length] in Hmany; try lia.
    unfold payload_body, length_prefix. now rewrite <- app_assoc.
  - rewrite for_each_extend, Hc. cbn [bind].
    unfold len in Hfew. rewrite <- Hl in Hfew.
    destruct encs as [|e1 [|e2 more]]; cbn [List.length] in Hfew; try lia.
    + reflexivity.
    + cbn [payload_body List.concat]. now rewrite app_nil_r.
Qed.

(** The flags byte and publisher id that [encode] writes, and how
    [decode] reads the publisher id back. *)
Lemma publisher_id_header (self : UADPNetworkMessage.t) :
  publisher_on_wire (UADPNetworkMessage.publisher_id self) ->
  exists (flags : Z) (idbytes : bytes),
    UADPNetworkMessage.encode_header self [] = Ok (byte_of_Z flags :: idbytes) /\
    flags = 17 + (if UADPNetworkMessage.include_group_header self then 32 else 0)
               + (if UADPNetworkMessage.include_payload_header self
                  then 64 else 0) /\
    1 <= len idbytes /\
    forall (f : byte) (post : bytes) (msg : UADPNetworkMessage.t),
      read_publisher_id (f :: idbytes ++ post) 1 msg
      = Ok (UADPNetworkMessage.set_publisher_id msg
              (UADPNetworkMessage.publisher_id self),
            1 + len idbytes).
Proof.
  intros Hw.
  exists (17 + (if UADPNetworkMessage.include_group_header self then 32 else 0)
             + (if UADPNetworkMessage.include_payload_header self
                then 64 else 0)).
  unfold UADPNetworkMessage.encode_header. cbv zeta.
  set (flags := if UADPNetworkMessage.include_payload_header self then _ else _).
  assert (Hflags : flags
            = 17 + (if UADPNetworkMessage.include_group_header self
                    then 32 else 0)
                 + (if UADPNetworkMessage.include_payload_header self
                    then 64 else 0)).
  { unfold flags.
    destruct (UADPNetworkMessage.include_group_header self);
      destruct (UADPNetworkMessage.include_payload_header self); reflexivity. }
  rewrite Hflags. clear Hflags flags.
  set (flags := 17 + _ + _).
  destruct (UADPNetworkMessage.publisher_id self) as [| b | z | f | s | bs | o];
    cbn [publisher_on_wire] in Hw; try contradiction.
  - (* integer *)
    cbn [get_int bind].
    destruct (Z.leb_spec z 255) as [Hb|Hb];
      [|destruct (Z.leb_spec z 65535) as [Hh|Hh]].
    + exists [ x00; byte_of_Z z ]. split; [reflexivity|].
      split; [reflexivity|]. split; [cbv; discriminate|].
      intros f0 post msg. unfold read_publisher_id. cbv zeta.
      change (f0 :: [ x00; byte_of_Z z ] ++ post)
        with ([ f0 ] ++ x00 :: ([ byte_of_Z z ] ++ post)).
      change 1 with (len [ f0 ]) at 1. rewrite index_at. cbn [bind].
      change (Z_of_byte x00 =? UADPFlags.PUBLISHER_ID_BYTE) with true.
      cbv beta iota.
      change ([ f0 ] ++ x00 :: ([ byte_of_Z z ] ++ post))
        with ([ f0; x00 ] ++ byte_of_Z z :: post).
      change (len [ f0 ] + 1) with (len [ f0; x00 ]).
      rewrite index_at, Z_of_byte_of_Z_small by lia. reflexivity.
    + exists (x01 :: pack_int Fmt_H z). split; [reflexivity|].
      split; [reflexivity|]. split; [cbv; discriminate|].
      intros f0 post msg. unfold read_publisher_id. cbv zeta.
      change (f0 :: (x01 :: pack_int Fmt_H z) ++ post)
        with ([ f0 ] ++ x01 :: (pack_int Fmt_H z ++ post)).
      change 1 with (len [ f0 ]) at 1. rewrite index_at. cbn [bind].
      change (Z_of_byte x01 =? UADPFlags.PUBLISHER_ID_BYTE) with false.
      change (Z_of_byte x01 =? UADPFlags.PUBLISHER_ID_UINT16) with true.
      cbv beta iota.
      change ([ f0 ] ++ x01 :: (pack_int Fmt_H z ++ post))
        with ([ f0; x01 ] ++ pack_int Fmt_H z ++ post).
      change (len [ f0 ] + 1) with (len [ f0; x01 ]).
      rewrite unpack_pack_unsigned_at by (try reflexivity; cbn; lia).
      reflexivity.
    + exists (x02 :: pack_int Fmt_I z). split; [reflexivity|].
      split; [reflexivity|]. split; [cbv; discriminate|].
      intros f0 post msg. unfold read_publisher_id. cbv zeta.
      change (f0 :: (x02 :: pack_int Fmt_I z) ++ post)
        with ([ f0 ] ++ x02 :: (pack_int Fmt_I z ++ post)).
      change 1 with (len [ f0 ]) at 1. rewrite index_at. cbn [bind].
      change (Z_of_byte x02 =? UADPFlags.PUBLISHER_ID_BYTE) with false.
      change (Z_of_byte x02 =? UADPFlags.PUBLISHER_ID_UINT16) with false.
      change (Z_of_byte x02 =? UADPFlags.PUBLISHER_ID_UINT32) with true.
      cbv beta iota.
      change ([ f0 ] ++ x02 :: (pack_int Fmt_I z ++ post))
        with ([ f0; x02 ] ++ pack_int Fmt_I z ++ post).
      change (len [ f0 ] + 1) with (len [ f0; x02 ]).
      rewrite unpack_pack_unsigned_at by (try reflexivity; cbn; lia).
      reflexivity.
  - (* text *)
    destruct Hw as (pub & Hpub & Hlen).
    pose proof (len_nonneg pub) as Hnn.
    exists (x04 :: pack_int Fmt_i (len pub) ++ pub).
    split.
    { unfold UADPEncoder.encode_string. rewrite Hpub. reflexivity. }
    split; [reflexivity|].
    split.
    { change (x04 :: pack_int Fmt_i (len pub) ++ pub)
        with ([ x04 ] ++ pack_int Fmt_i (len pub) ++ pub).
      rewrite !len_app. change (len [ x04 ]) with 1. rewrite len_pack_int.
      cbn [calcsize]. lia. }
    intros f0 post msg. unfold read_publisher_id. cbv zeta.
    change (f0 :: (x04 :: pack_int Fmt_i (len pub) ++ pub) ++ post)
      with ([ f0 ] ++ x04 :: ((pack_int Fmt_i (len pub) ++ pub) ++ post)).
    change 1 with (len [ f0 ]) at 1. rewrite index_at. cbn [bind].
    change (Z_of_byte x04 =? UADPFlags.PUBLISHER_ID_BYTE) with false.
    change (Z_of_byte x04 =? UADPFlags.PUBLISHER_ID_UINT16) with false.
    change (Z_of_byte x04 =? UADPFlags.PUBLISHER_ID_UINT32) with false.
    change (Z_of_byte x04 =? UADPFlags.PUBLISHER_ID_STRING) with true.
    cbv beta iota.
    unfold UADPDecoder.decode_string.
    change ([ f0 ] ++ x04 :: ((pack_int Fmt_i (len pub) ++ pub) ++ post))
      with ([ f0; x04 ] ++ (pack_int Fmt_i (len pub) ++ pub) ++ post).
    change (len [ f0 ] + 1) with (len [ f0; x04 ]).
    rewrite <- (app_assoc (pack_int Fmt_i (len pub))).
    rewrite unpack_pack_signed_at by (try reflexivity; cbn; lia).
    cbn [bind]. destruct (Z.ltb_spec (len pub) 0); [lia|].
    rewrite (app_assoc [ f0; x04 ]).
    replace (len [ f0; x04 ] + 4)
      with (len ([ f0; x04 ] ++ pack_int Fmt_i (len pub)))
      by (rewrite len_app, len_pack_int; reflexivity).
    rewrite slice_middle, (utf8_decode_encode s pub Hpub).
    cbn [bind UADPDecoder.optional].
    do 2 f_equal.
    change (x04 :: pack_int Fmt_i (len pub) ++ pub)
      with ([ x04 ] ++ pack_int Fmt_i (len pub) ++ pub).
    rewrite !len_app, len_pack_int. change (len [ f0; x04 ]) with 2.
    change (len [ x04 ]) with 1. cbn [calcsize]. lia.
Qed.

(** X6. Without the group header, [decode] reads back what [encode]
    wrote in the headers: for a publisher id that is text or a 32-bit
    integer, the decoded message has that publisher id; with the payload
    header it has the DataSet message count (up to 255) and the 16-bit
    writer ids in message order, without it the count 1 and no writer
    ids; and its raw payload is exactly the payload body of the encoded
    DataSet messages. *)
Theorem network_headers_roundtrip (rt : runtime) (self : UADPNetworkMessage.t)
  (encs : list bytes) :
  UADPNetworkMessage.include_group_header self = false ->
  publisher_on_wire (UADPNetworkMessage.publisher_id self) ->
  comprehension (UADPDataSetMessage.encode rt)
    (UADPNetworkMessage.dataset_messages self) = Ok encs ->
  (UADPNetworkMessage.include_payload_header self = true ->
   len (UADPNetworkMessage.dataset_messages self) <= 255 /\
   Forall (fun m => 0 <= UADPDataSetMessage.dataset_writer_id m < 65536)
     (UADPNetworkMessage.dataset_messages self)) ->
  exists data : bytes,
    UADPNetworkMessage.encode rt self = Ok data /\
    UADPNetworkMessage.decode data = Ok (Some (decoded_headers self encs)).
Proof.
  intros Hg Hw Hc Hp.
  destruct (publisher_id_header self Hw) as (flags & idbytes & Hh & Hf & Hl & Hread).
  rewrite Hg in Hf.
  set (ws := map UADPDataSetMessage.dataset_writer_id
               (UADPNetworkMessage.dataset_messages self)).
  set (ph := if UADPNetworkMessage.include_payload_header self
             then byte_of_Z (len (UADPNetworkMessage.dataset_messages self))
                  :: List.concat (map (pack_int Fmt_H) ws)
             else []).
  exists ((byte_of_Z flags :: idbytes) ++ ph ++ payload_body encs).
  split.
  { unfold UADPNetworkMessage.encode. cbv zeta. rewrite Hh. cbn [bind].
    unfold UADPNetworkMessage.encode_group_header. rewrite Hg.
    rewrite encode_payload_header_bytes. fold ws. fold ph.
    rewrite (encode_payload_bytes rt self encs _ Hc). cbn [bind].
    now rewrite <- app_assoc. }
  rewrite decode_phases.
  pose proof (len_nonneg (ph ++ payload_body encs)) as Hrest.
  assert (Hlen : (len ((byte_of_Z flags :: idbytes) ++ ph ++ payload_body encs)
                  <? 2) = false).
  { apply Z.ltb_ge. rewrite len_app.
    change (byte_of_Z flags :: idbytes) with ([ byte_of_Z flags ] ++ idbytes).
    rewrite len_app. change (len [ byte_of_Z flags ]) with 1. lia. }
  rewrite Hlen.
  change ((byte_of_Z flags :: idbytes) ++ ph ++ payload_body encs)
    with (byte_of_Z flags :: idbytes ++ ph ++ payload_body encs).
  rewrite index_head. cbn [bind].
  assert (Hfl : Z_of_byte (byte_of_Z flags) = flags).
  { apply Z_of_byte_of_Z_small. subst flags.
    destruct (UADPNetworkMessage.include_payload_header self); lia. }
  rewrite Hfl.
  assert (Hver : negb (Z.land flags 15 =? 1) = false).
  { subst flags.
    destruct (UADPNetworkMessage.include_payload_header self); reflexivity. }
  assert (Hpub : negb (Z.land flags 16 =? 0) = true).
  { subst flags.
    destruct (UADPNetworkMessage.include_payload_header self); reflexivity. }
  assert (Hgrp : negb (Z.land flags 32 =? 0) = false).
  { subst flags.
    destruct (UADPNetworkMessage.include_payload_header self); reflexivity. }
  assert (Hpay : negb (Z.land flags 64 =? 0)
                 = UADPNetworkMessage.include_payload_header self).
  { subst flags.
    destruct (UADPNetworkMessage.include_payload_header self); reflexivity. }
  rewrite Hver, Hpub, Hread. cbn [bind]. rewrite Hgrp. cbn [bind].
  rewrite Hpay. unfold decoded_headers. fold ws.
  replace (1 + len idbytes) with (len (byte_of_Z flags :: idbytes))
    by (change (byte_of_Z flags :: idbytes) with ([ byte_of_Z flags ] ++ idbytes);
        rewrite len_app; reflexivity).
  change (byte_of_Z flags :: idbytes ++ ph ++ payload_body encs)
    with ((byte_of_Z flags :: idbytes) ++ ph ++ payload_body encs).
  unfold ph.
  destruct (UADPNetworkMessage.include_payload_header self) eqn:Eph.
  - destruct (Hp eq_refl) as [Hcount Hids].
    assert (Hlw : len ws = len (UADPNetworkMessage.dataset_messages self)).
    { unfold ws, len. now rewrite length_map. }
    rewrite <- Hlw.
    change ((byte_of_Z (len ws) :: List.concat (map (pack_int Fmt_H) ws))
            ++ payload_body encs)
      with (byte_of_Z (len ws)
              :: List.concat (map (pack_int Fmt_H) ws) ++ payload_body encs).
    rewrite read_payload_header_at.
    + cbn [bind].
      replace (len (byte_of_Z flags :: idbytes) + 1 + 2 * len ws)
        with (len ((byte_of_Z flags :: idbytes)
                     ++ byte_of_Z (len ws)
                          :: List.concat (map (pack_int Fmt_H) ws))).
      * replace ((byte_of_Z flags :: idbytes)
                   ++ byte_of_Z (len ws)
                        :: List.concat (map (pack_int Fmt_H) ws)
                             ++ payload_body encs)
          with (((byte_of_Z flags :: idbytes)
                   ++ byte_of_Z (len ws)
                        :: List.concat (map (pack_int Fmt_H) ws))
                  ++ payload_body encs)
          by (rewrite <- app_assoc; reflexivity).
        rewrite slice_from_app. reflexivity.
      * rewrite len_app.
        change (byte_of_Z (len ws) :: List.concat (map (pack_int Fmt_H) ws))
          with ([ byte_of_Z (len ws) ]
                  ++ List.concat (map (pack_int Fmt_H) ws)).
        rewrite len_app. change (len [ byte_of_Z (len ws) ]) with 1.
        assert (Hcat : forall l : list Z,
                  len (List.concat (map (pack_int Fmt_H) l)) = 2 * len l).
        { induction l as [|x l IH]; [reflexivity|].
          cbn [map List.concat]. rewrite len_app, len_pack_int, IH.
          unfold len. cbn [List.length calcsize]. lia. }
        rewrite Hcat. lia.
    + unfold ws. apply Forall_map. exact Hids.
    + lia.
  - cbn [bind].
    change ([] ++ payload_body encs) with (payload_body encs).
    rewrite slice_from_app. reflexivity.
Qed.


Lemma network_headers_roundtrip_witness :
  exists data : bytes,
    UADPNetworkMessage.encode example_runtime example_message_plain = Ok data /\
    UADPNetworkMessage.decode data
    = Ok (Some (decoded_headers example_message_plain
                  (map (fun m =>
                          match UADPDataSetMessage.encode example_runtime m with
                          | Ok e => e
                          | Raise _ => []
                          end)
                     (UADPNetworkMessage.dataset_messages
                        example_message_plain)))).
Proof.
  apply (network_headers_roundtrip example_runtime example_message_plain).
  - reflexivity.
  - exists (match utf8_encode (text "ESP32") with Ok b => b | Raise _ => [] end).
    split; reflexivity.
  - vm_compute. reflexivity.
  - intros _. split.
    + vm_compute. discriminate.
    + repeat constructor; cbn; lia.
Defined.

(** ** The group header on the way back *)

Lemma pack_H_bytes (z : Z) :
  pack_int Fmt_H z = [ byte_of_Z z; byte_of_Z (z / 256) ].
Proof. reflexivity. Qed.

Lemma read_group_header_at (wg : Z) (pre post : bytes)
  (msg : UADPNetworkMessage.t) :
  0 <= wg < 65536 ->
  read_group_header
    (pre ++ x03 :: pack_int Fmt_H wg ++ pack_int Fmt_I 0 ++ post) (len pre) msg
  = Ok (UADPNetworkMessage.set_writer_group_id msg wg, len pre + 7).
Proof.
  intros Hwg. unfold read_group_header. cbv zeta.
  rewrite index_at. cbn [bind].
  change (negb (Z.land (Z_of_byte x03) 1 =? 0)) with true.
  change (negb (Z.land (Z_of_byte x03) 2 =? 0)) with true.
  change (negb (Z.land (Z_of_byte x03) 4 =? 0)) with false.
  cbv beta iota.
  replace (pre ++ x03 :: pack_int Fmt_H wg ++ pack_int Fmt_I 0 ++ post)
    with ((pre ++ [ x03 ]) ++ pack_int Fmt_H wg ++ pack_int Fmt_I 0 ++ post)
    by (rewrite <- app_assoc; reflexivity).
  replace (len pre + 1) with (len (pre ++ [ x03 ]))
    by (rewrite len_app; reflexivity).
  rewrite unpack_pack_unsigned_at by (try reflexivity; cbn; lia).
  cbn [bind]. rewrite len_app. change (len [ x03 ]) with 1.
  do 2 f_equal. lia.
Qed.

(** With the group header, [decode] comes to the payload header, or to
    the payload, at the two bytes of the message number. *)
Lemma decode_after_group_header (rt : runtime) (self : UADPNetworkMessage.t)
  (encs : list bytes) :
  UADPNetworkMessage.include_group_header self = true ->
  publisher_on_wire (UADPNetworkMessage.publisher_id self) ->
  0 <= UADPNetworkMessage.writer_group_id self < 65536 ->
  comprehension (UADPDataSetMessage.encode rt)
    (UADPNetworkMessage.dataset_messages self) = Ok encs ->
  exists pre : bytes,
    UADPNetworkMessage.encode rt self
    = Ok (pre ++ pack_int Fmt_H
                   (Z.land (UADPNetworkMessage.sequence_number self) 65535)
              ++ payload_header_bytes self ++ payload_body encs) /\
    forall tail : bytes,
      UADPNetworkMessage.decode (pre ++ tail)
      = ('(ds_count, writer_ids, offset) <-
           (if UADPNetworkMessage.include_payload_header self
            then read_payload_header (pre ++ tail) (len pre)
            else Ok (1, [], len pre)) ;;
         Ok (Some (UADPNetworkMessage.set_decoded (decoded_group self)
                     (slice_from (pre ++ tail) offset) writer_ids ds_count))).
Proof.
  intros Hg Hw Hwg Hc.
  destruct (publisher_id_header self Hw) as (flags & idbytes & Hh & Hf & Hl & Hread).
  rewrite Hg in Hf.
  exists ((byte_of_Z flags :: idbytes)
            ++ x03 :: pack_int Fmt_H (UADPNetworkMessage.writer_group_id self)
            ++ pack_int Fmt_I 0).
  split.
  { unfold UADPNetworkMessage.encode. cbv zeta. rewrite Hh. cbn [bind].
    rewrite (group_header_bytes self _ Hg).
    rewrite encode_payload_header_bytes. fold (payload_header_bytes self).
    rewrite (encode_payload_bytes rt self encs _ Hc). cbn [bind].
    f_equal. rewrite <- !app_assoc. cbn [app]. rewrite <- !app_assoc.
    reflexivity. }
  intros tail.
  set (pre0 := byte_of_Z flags :: idbytes).
  set (grp := x03 :: pack_int Fmt_H (UADPNetworkMessage.writer_group_id self)
                ++ pack_int Fmt_I 0).
  assert (Hpre0 : len pre0 = 1 + len idbytes).
  { unfold pre0. change (byte_of_Z flags :: idbytes)
      with ([ byte_of_Z flags ] ++ idbytes).
    rewrite len_app. reflexivity. }
  assert (Hgrp : len grp = 7).
  { unfold grp.
    change (x03 :: pack_int Fmt_H (UADPNetworkMessage.writer_group_id self)
              ++ pack_int Fmt_I 0)
      with ([ x03 ] ++ pack_int Fmt_H (UADPNetworkMessage.writer_group_id self)
              ++ pack_int Fmt_I 0).
    rewrite !len_app, !len_pack_int. reflexivity. }
  rewrite decode_phases.
  pose proof (len_nonneg tail) as Htail.
  assert (Hlen : (len ((pre0 ++ grp) ++ tail) <? 2) = false).
  { apply Z.ltb_ge. rewrite !len_app. lia. }
  rewrite Hlen.
  assert (Hdata : (pre0 ++ grp) ++ tail
                  = byte_of_Z flags :: idbytes ++ grp ++ tail).
  { unfold pre0. rewrite <- app_assoc. reflexivity. }
  rewrite Hdata. rewrite index_head. cbn [bind].
  assert (Hfl : Z_of_byte (byte_of_Z flags) = flags).
  { apply Z_of_byte_of_Z_small. subst flags.
    destruct (UADPNetworkMessage.include_payload_header self); lia. }
  rewrite Hfl.
  assert (Hver : negb (Z.land flags 15 =? 1) = false).
  { subst flags.
    destruct (UADPNetworkMessage.include_payload_header self); reflexivity. }
  assert (Hpub : negb (Z.land flags 16 =? 0) = true).
  { subst flags.
    destruct (UADPNetworkMessage.include_payload_header self); reflexivity. }
  assert (Hgb : negb (Z.land flags 32 =? 0) = true).
  { subst flags.
    destruct (UADPNetworkMessage.include_payload_header self); reflexivity. }
  assert (Hpay : negb (Z.land flags 64 =? 0)
                 = UADPNetworkMessage.include_payload_header self).
  { subst flags.
    destruct (UADPNetworkMessage.include_payload_header self); reflexivity. }
  rewrite Hver, Hpub, Hread. cbn [bind]. rewrite Hgb, Hpay.
  rewrite <- Hpre0.
  replace (byte_of_Z flags :: idbytes ++ grp ++ tail)
    with (pre0 ++ x03 :: pack_int Fmt_H (UADPNetworkMessage.writer_group_id self)
                ++ pack_int Fmt_I 0 ++ tail)
    by (unfold pre0, grp; cbn [app]; rewrite <- !app_assoc; reflexivity).
  rewrite (read_group_header_at _ pre0 tail _ Hwg). cbn [bind].
  replace (len (pre0 ++ grp)) with (len pre0 + 7)
    by (rewrite len_app; lia).
  reflexivity.
Qed.

(** X7. With the group header and without the payload header, [decode]
    accepts the encoding of a message and returns its publisher id and
    its 16-bit writer group id, but it leaves the message number where the
    encoder put it: the raw payload begins with the two bytes of the
    sequence number (modulo 65536), before the encoded DataSet messages,
    and the decoded message keeps the sequence number 0. *)
Theorem group_header_number_left_in_payload (rt : runtime)
  (self : UADPNetworkMessage.t) (encs : list bytes) :
  UADPNetworkMessage.include_group_header self = true ->
  UADPNetworkMessage.include_payload_header self = false ->
  publisher_on_wire (UADPNetworkMessage.publisher_id self) ->
  0 <= UADPNetworkMessage.writer_group_id self < 65536 ->
  comprehension (UADPDataSetMessage.encode rt)
    (UADPNetworkMessage.dataset_messages self) = Ok encs ->
  exists data : bytes,
    UADPNetworkMessage.encode rt self = Ok data /\
    UADPNetworkMessage.decode data
    = Ok (Some (UADPNetworkMessage.set_decoded (decoded_group self)
                  (pack_int Fmt_H
                     (Z.land (UADPNetworkMessage.sequence_number self) 65535)
                   ++ payload_body encs)
                  [] 1)) /\
    UADPNetworkMessage.sequence_number (decoded_group self) = 0.
Proof.
  intros Hg Hp Hw Hwg Hc.
  destruct (decode_after_group_header rt self encs Hg Hw Hwg Hc)
    as (pre & Henc & Hdec).
  eexists. split; [exact Henc|]. split; [|reflexivity].
  rewrite Hdec, Hp. cbn [bind]. rewrite slice_from_app.
  unfold payload_header_bytes. rewrite Hp. reflexivity.
Qed.

Lemma group_header_number_left_in_payload_witness :
  exists data : bytes,
    UADPNetworkMessage.encode example_runtime
      (UADPNetworkMessage.set_include_payload_header example_message false)
    = Ok data /\
    UADPNetworkMessage.decode data
    = Ok (Some (UADPNetworkMessage.set_decoded
                  (decoded_group
                     (UADPNetworkMessage.set_include_payload_header
                        example_message false))
                  (pack_int Fmt_H (Z.land 5 65535)
                   ++ payload_body [ [ x0b; x00; x05; x00; x2a ] ])
                  [] 1)) /\
    UADPNetworkMessage.sequence_number
      (decoded_group
         (UADPNetworkMessage.set_include_payload_header example_message false))
    = 0.
Proof.
  apply (group_header_number_left_in_payload example_runtime
           (UADPNetworkMessage.set_include_payload_header example_message false)
           [ [ x0b; x00; x05; x00; x2a ] ]).
  - reflexivity.
  - reflexivity.
  - exists (match utf8_encode (text "ESP32") with Ok b => b | Raise _ => [] end).
    split; reflexivity.
  - cbn. lia.
  - reflexivity.
Defined.

(** X8. With both headers, the defaults, [decode] takes the low byte of
    the message number for the DataSet message count: whenever it returns
    a message for the encoding of [self], that message's count is the
    sequence number modulo 256 and its own sequence number is 0. For a
    sequence number that is a multiple of 256 (the initial 0 among them)
    it does return one: with count 0, no writer ids, and a raw payload
    that starts at the high byte of the message number, before the
    payload header. *)
Theorem group_header_count_misread (rt : runtime)
  (self : UADPNetworkMessage.t) (encs : list bytes) :
  UADPNetworkMessage.include_group_header self = true ->
  UADPNetworkMessage.include_payload_header self = true ->
  publisher_on_wire (UADPNetworkMessage.publisher_id self) ->
  0 <= UADPNetworkMessage.writer_group_id self < 65536 ->
  comprehension (UADPDataSetMessage.encode rt)
    (UADPNetworkMessage.dataset_messages self) = Ok encs ->
  exists data : bytes,
    UADPNetworkMessage.encode rt self = Ok data /\
    (forall m : UADPNetworkMessage.t,
       UADPNetworkMessage.decode data = Ok (Some m) ->
       UADPNetworkMessage._ds_count m
       = Some (UADPNetworkMessage.sequence_number self mod 256) /\
       UADPNetworkMessage.sequence_number m = 0) /\
    (UADPNetworkMessage.sequence_number self mod 256 = 0 ->
     UADPNetworkMessage.decode data
     = Ok (Some (UADPNetworkMessage.set_decoded (decoded_group self)
                   (byte_of_Z
                      (Z.land (UADPNetworkMessage.sequence_number self) 65535
                       / 256)
                    :: payload_header_bytes self ++ payload_body encs)
                   [] 0))).
Proof.
  intros Hg Hp Hw Hwg Hc.
  destruct (decode_after_group_header rt self encs Hg Hw Hwg Hc)
    as (pre & Henc & Hdec).
  eexists. split; [exact Henc|].
  rewrite Hdec, Hp. rewrite pack_H_bytes.
  set (seq16 := Z.land (UADPNetworkMessage.sequence_number self) 65535).
  set (rest := byte_of_Z (seq16 / 256)
                 :: payload_header_bytes self ++ payload_body encs).
  change (pre ++ [ byte_of_Z seq16; byte_of_Z (seq16 / 256) ]
              ++ payload_header_bytes self ++ payload_body encs)
    with (pre ++ byte_of_Z seq16 :: rest).
  assert (Hlow : Z_of_byte (byte_of_Z seq16)
                 = UADPNetworkMessage.sequence_number self mod 256).
  { unfold seq16. rewrite Z_of_byte_of_Z, land_low16. zdm. }
  unfold read_payload_header. cbv zeta. rewrite index_at, Hlow.
  cbn [bind]. split.
  - intros m.
    destruct (for_each _ _ _) as [[ws off]|e]; cbn [bind]; intros Hm;
      [|discriminate].
    apply Ok_inj in Hm.
    assert (Em : m = UADPNetworkMessage.set_decoded (decoded_group self)
                       (slice_from (pre ++ byte_of_Z seq16 :: rest) off) ws
                       (UADPNetworkMessage.sequence_number self mod 256))
      by congruence.
    rewrite Em. split; reflexivity.
  - intros H0. rewrite H0. change (Z.to_nat 0) with 0%nat.
    cbn [seq for_each bind].
    replace (pre ++ byte_of_Z seq16 :: rest)
      with ((pre ++ [ byte_of_Z seq16 ]) ++ rest)
      by (rewrite <- app_assoc; reflexivity).
    replace (len pre + 1) with (len (pre ++ [ byte_of_Z seq16 ]))
      by (rewrite len_app; reflexivity).
    rewrite slice_from_app. reflexivity.
Qed.

Lemma group_header_count_misread_witness :
  exists data : bytes,
    UADPNetworkMessage.encode example_runtime usage_message = Ok data /\
    (forall m : UADPNetworkMessage.t,
       UADPNetworkMessage.decode data = Ok (Some m) ->
       UADPNetworkMessage._ds_count m
       = Some (UADPNetworkMessage.sequence_number usage_message mod 256) /\
       UADPNetworkMessage.sequence_number m = 0) /\
    (UADPNetworkMessage.sequence_number usage_message mod 256 = 0 ->
     UADPNetworkMessage.decode data
     = Ok (Some (UADPNetworkMessage.set_decoded (decoded_group usage_message)
                   (byte_of_Z
                      (Z.land (UADPNetworkMessage.sequence_number usage_message)
                         65535 / 256)
                    :: payload_header_bytes usage_message
                    ++ payload_body
                         (map (fun m =>
                                 match UADPDataSetMessage.encode example_runtime m with
                                 | Ok e => e
                                 | Raise _ => []
                                 end)
                            (UADPNetworkMessage.dataset_messages usage_message)))
                   [] 0))).
Proof.
  apply (group_header_count_misread example_runtime usage_message).
  - reflexivity.
  - reflexivity.
  - exists (match utf8_encode (text "ESP32-UADP-001") with
            | Ok b => b
            | Raise _ => []
            end).
    split; reflexivity.
  - cbn. lia.
  - vm_compute. reflexivity.
Defined.

(** ** The publisher *)

Lemma with_fields_own (ds : UADPDataSetMessage.t) :
  UADPDataSetMessage.with_fields ds (UADPDataSetMessage.fields ds) = ds.
Proof. destruct ds. reflexivity. Qed.

(** The DataSet message that [publish] fills holds the entries of the
    dict, in order, after the fields it had. *)
Lemma publish_fields (data_dict : list (pystr * UADPPublisher.item))
  (ds : UADPDataSetMessage.t) :
  fold_left
    (fun ds_msg '(field_name, value) =>
       match value with
       | UADPPublisher.Typed v type_id =>
           UADPDataSetMessage.add_field ds_msg field_name v type_id
       | UADPPublisher.AsDataValue dv =>
           UADPDataSetMessage.add_data_value ds_msg field_name dv
       | UADPPublisher.Plain v =>
           UADPDataSetMessage.add_field ds_msg field_name v None
       end)
    data_dict ds
  = UADPDataSetMessage.with_fields ds
      (UADPDataSetMessage.fields ds ++ dict_fields data_dict).
Proof.
  revert ds. induction data_dict as [|[name value] rest IH]; intros ds.
  - cbn [fold_left dict_fields map]. rewrite app_nil_r.
    now rewrite with_fields_own.
  - cbn [fold_left]. rewrite IH. unfold dict_fields. cbn [map].
    destruct value as [v [ty|] | dv | v];
      unfold UADPDataSetMessage.add_field, UADPDataSetMessage.add_data_value,
        UADPDataSetMessage.with_fields;
      cbn [UADPDataSetMessage.fields UADPDataSetMessage.dataset_writer_id
           UADPDataSetMessage.sequence_number UADPDataSetMessage.field_encoding
           UADPDataSetMessage.status];
      rewrite <- app_assoc; reflexivity.
Qed.

Lemma publish_minimal_fields
  (data_dict : list (pystr * UADPPublisher.minimal_item))
  (ds : UADPDataSetMessage.t) :
  fold_left
    (fun ds_msg '(field_name, value) =>
       match value with
       | UADPPublisher.Pair v type_id =>
           UADPDataSetMessage.add_field ds_msg field_name v type_id
       | UADPPublisher.Bare v =>
           UADPDataSetMessage.add_field ds_msg field_name v None
       end)
    data_dict ds
  = UADPDataSetMessage.with_fields ds
      (UADPDataSetMessage.fields ds ++ dict_fields_minimal data_dict).
Proof.
  revert ds. induction data_dict as [|[name value] rest IH]; intros ds.
  - cbn [fold_left dict_fields_minimal map]. rewrite app_nil_r.
    now rewrite with_fields_own.
  - cbn [fold_left]. rewrite IH. unfold dict_fields_minimal. cbn [map].
    destruct value as [v [ty|] | v];
      unfold UADPDataSetMessage.add_field, UADPDataSetMessage.with_fields;
      cbn [UADPDataSetMessage.fields UADPDataSetMessage.dataset_writer_id
           UADPDataSetMessage.sequence_number UADPDataSetMessage.field_encoding
           UADPDataSetMessage.status];
      rewrite <- app_assoc; reflexivity.
Qed.

(** One call on a connected publisher. *)
Lemma run_call_connected {M : Type} (mqtt_ops : mqtt_client M)
  (sent : M -> list (pystr * bytes)) (rt : runtime)
  (self : UADPPublisher.t) (mqtt : M) (c : publish_call) :
  keeps_log mqtt_ops sent ->
  UADPPublisher.connected self = true ->
  exists new : list (pystr * bytes),
    sent (snd (fst (run_call mqtt_ops rt self mqtt c))) = sent mqtt ++ new /\
    len new = (if snd (run_call mqtt_ops rt self mqtt c) then 1 else 0) /\
    UADPPublisher.bytes_sent (fst (fst (run_call mqtt_ops rt self mqtt c)))
    = UADPPublisher.bytes_sent self + total_size new /\
    UADPPublisher.message_count (fst (fst (run_call mqtt_ops rt self mqtt c)))
    = UADPPublisher.message_count self + 1 /\
    UADPPublisher.connected (fst (fst (run_call mqtt_ops rt self mqtt c)))
    = true.
Proof.
  intros Hlog Hc.
  assert (Hnone : sent mqtt = sent mqtt ++ []) by now rewrite app_nil_r.
  destruct c as [wid dict suffix | wid dict suffix]; cbn [run_call];
    [unfold UADPPublisher.publish | unfold UADPPublisher.publish_minimal];
    rewrite Hc; cbn [negb]; cbv zeta.
  - destruct (UADPNetworkMessage.encode rt _) as [payload|e].
    + pose proof (Hlog mqtt
                    (UADPPublisher.topic_of
                       (UADPPublisher.set_message_count self
                          (UADPPublisher.message_count self + 1)) suffix)
                    payload) as Hp.
      destruct (mqtt_publish mqtt_ops mqtt _ payload) as [mqtt' [u|e]];
        cbn [fst snd].
      * eexists. split; [exact Hp|]. cbn [total_size fold_right snd].
        repeat split; try reflexivity; try exact Hc.
        unfold UADPPublisher.set_bytes_sent, UADPPublisher.set_message_count.
        cbn [UADPPublisher.bytes_sent]. lia.
      * exists []. rewrite app_nil_r. split; [exact Hp|].
        cbn [total_size fold_right]. repeat split; try exact Hc.
        unfold UADPPublisher.set_message_count.
        cbn [UADPPublisher.bytes_sent]. lia.
    + cbn [fst snd]. exists []. split; [exact Hnone|].
      cbn [total_size fold_right]. repeat split; try exact Hc.
      unfold UADPPublisher.set_message_count.
      cbn [UADPPublisher.bytes_sent]. lia.
  - destruct (UADPNetworkMessage.encode_minimal rt _) as [payload|e].
    + pose proof (Hlog mqtt
                    (UADPPublisher.topic_of
                       (UADPPublisher.set_message_count self
                          (UADPPublisher.message_count self + 1)) suffix)
                    payload) as Hp.
      destruct (mqtt_publish mqtt_ops mqtt _ payload) as [mqtt' [u|e]];
        cbn [fst snd].
      * eexists. split; [exact Hp|]. cbn [total_size fold_right snd].
        repeat split; try reflexivity; try exact Hc.
        unfold UADPPublisher.set_bytes_sent, UADPPublisher.set_message_count.
        cbn [UADPPublisher.bytes_sent]. lia.
      * exists []. rewrite app_nil_r. split; [exact Hp|].
        cbn [total_size fold_right]. repeat split; try exact Hc.
        unfold UADPPublisher.set_message_count.
        cbn [UADPPublisher.bytes_sent]. lia.
    + cbn [fst snd]. exists []. split; [exact Hnone|].
      cbn [total_size fold_right]. repeat split; try exact Hc.
      unfold UADPPublisher.set_message_count.
      cbn [UADPPublisher.bytes_sent]. lia.
Qed.

Lemma total_size_app (a b : list (pystr * bytes)) :
  total_size (a ++ b) = total_size a + total_size b.
Proof.
  unfold total_size. induction a as [|x a IH]; cbn [app fold_right].
  - reflexivity.
  - rewrite IH. lia.
Qed.

(** X9. The counters of a connected publisher over any run of [publish]
    and [publish_minimal] calls, on a transport whose accepted
    publications can be observed: [message_count] grows by the number of
    calls, whether they succeed or not; the publications accepted by the
    transport are as many as the calls that returned True; [bytes_sent]
    grows by exactly the total size of those payloads; and the publisher
    stays connected. *)
Theorem publish_accounting {M : Type} (mqtt_ops : mqtt_client M)
  (sent : M -> list (pystr * bytes)) (rt : runtime)
  (self : UADPPublisher.t) (mqtt : M) (calls : list publish_call) :
  keeps_log mqtt_ops sent ->
  UADPPublisher.connected self = true ->
  exists new : list (pystr * bytes),
    sent (snd (fst (publish_all mqtt_ops rt self mqtt calls)))
    = sent mqtt ++ new /\
    len new
    = len (filter (fun ok : bool => ok)
             (snd (publish_all mqtt_ops rt self mqtt calls))) /\
    UADPPublisher.bytes_sent
      (fst (fst (publish_all mqtt_ops rt self mqtt calls)))
    = UADPPublisher.bytes_sent self + total_size new /\
    UADPPublisher.message_count
      (fst (fst (publish_all mqtt_ops rt self mqtt calls)))
    = UADPPublisher.message_count self + len calls /\
    UADPPublisher.connected
      (fst (fst (publish_all mqtt_ops rt self mqtt calls)))
    = true.
Proof.
  intros Hlog. revert self mqtt.
  induction calls as [|c rest IH]; intros self mqtt Hc.
  - exists []. cbn [publish_all fst snd filter]. rewrite app_nil_r.
    repeat split; try assumption. change (len (@nil publish_call)) with 0.
    cbn [total_size fold_right]. lia. change (len (@nil publish_call)) with 0.
    lia.
  - cbn [publish_all].
    destruct (run_call_connected mqtt_ops sent rt self mqtt c Hlog Hc)
      as (new1 & Hs1 & Hn1 & Hb1 & Hm1 & Hc1).
    destruct (run_call mqtt_ops rt self mqtt c) as [[self1 mqtt1] ok].
    cbn [fst snd] in Hs1, Hn1, Hb1, Hm1, Hc1.
    destruct (IH self1 mqtt1 Hc1) as (new2 & Hs2 & Hn2 & Hb2 & Hm2 & Hc2).
    destruct (publish_all mqtt_ops rt self1 mqtt1 rest) as [[self2 mqtt2] oks].
    cbn [fst snd] in *.
    exists (new1 ++ new2). rewrite app_assoc, <- Hs1, Hs2.
    rewrite total_size_app, len_app.
    replace (len (c :: rest)) with (1 + len rest)
      by (unfold len; cbn [List.length]; lia).
    repeat split; try assumption; try lia.
    destruct ok; cbn [filter].
    + replace (len (true :: filter (fun ok : bool => ok) oks))
        with (1 + len (filter (fun ok : bool => ok) oks))
        by (unfold len; cbn [List.length]; lia).
      lia.
    + lia.
Qed.

Lemma publish_accounting_witness :
  exists new : list (pystr * bytes),
    snd (fst (publish_all (recorder 25) example_runtime example_publisher []
                [ Full 1000 example_dict None;
                  Minimal 1000 example_dict_minimal (Some (text "min")) ]))
    = [] ++ new /\
    len new
    = len (filter (fun ok : bool => ok)
             (snd (publish_all (recorder 25) example_runtime example_publisher []
                     [ Full 1000 example_dict None;
                       Minimal 1000 example_dict_minimal (Some (text "min")) ]))) /\
    UADPPublisher.bytes_sent
      (fst (fst (publish_all (recorder 25) example_runtime example_publisher []
                   [ Full 1000 example_dict None;
                     Minimal 1000 example_dict_minimal (Some (text "min")) ])))
    = UADPPublisher.bytes_sent example_publisher + total_size new /\
    UADPPublisher.message_count
      (fst (fst (publish_all (recorder 25) example_runtime example_publisher []
                   [ Full 1000 example_dict None;
                     Minimal 1000 example_dict_minimal (Some (text "min")) ])))
    = UADPPublisher.message_count example_publisher
      + len [ Full 1000 example_dict None;
              Minimal 1000 example_dict_minimal (Some (text "min")) ] /\
    UADPPublisher.connected
      (fst (fst (publish_all (recorder 25) example_runtime example_publisher []
                   [ Full 1000 example_dict None;
                     Minimal 1000 example_dict_minimal (Some (text "min")) ])))
    = true.
Proof.
  apply (publish_accounting (recorder 25) (fun m => m) example_runtime
           example_publisher []
           [ Full 1000 example_dict None;
             Minimal 1000 example_dict_minimal (Some (text "min")) ]).
  - intros m topic payload. cbn [recorder mqtt_publish].
    destruct (len payload <=? 25); reflexivity.
  - reflexivity.
Defined.

(** X10. A publisher that is not connected does nothing: every call of
    [publish] or [publish_minimal] returns False and leaves the counters
    and the transport as they were. *)
Theorem publish_needs_connection {M : Type} (mqtt_ops : mqtt_client M)
  (rt : runtime) (self : UADPPublisher.t) (mqtt : M)
  (calls : list publish_call) :
  UADPPublisher.connected self = false ->
  publish_all mqtt_ops rt self mqtt calls
  = (self, mqtt, repeat false (List.length calls)).
Proof.
  intros Hc. induction calls as [|c rest IH].
  - reflexivity.
  - cbn [publish_all List.length repeat].
    assert (Hrun : run_call mqtt_ops rt self mqtt c = (self, mqtt, false)).
    { destruct c; cbn [run_call];
        [unfold UADPPublisher.publish | unfold UADPPublisher.publish_minimal];
        rewrite Hc; reflexivity. }
    rewrite Hrun, IH. reflexivity.
Qed.

Lemma publish_needs_connection_witness :
  publish_all (recorder 25) example_runtime
    (UADPPublisher.init (PyStr (text "ESP32")) (text "opcua/uadp")) []
    [ Full 1000 example_dict None; Minimal 1000 example_dict_minimal None ]
  = (UADPPublisher.init (PyStr (text "ESP32")) (text "opcua/uadp"), [],
     repeat false
       (List.length
          [ Full 1000 example_dict None; Minimal 1000 example_dict_minimal None ])).
Proof.
  apply (publish_needs_connection (recorder 25) example_runtime
           (UADPPublisher.init (PyStr (text "ESP32")) (text "opcua/uadp")) []
           [ Full 1000 example_dict None; Minimal 1000 example_dict_minimal None ]).
  reflexivity.
Defined.

(** What the full encoding of a NetworkMessage depends on. *)
Lemma network_encode_content (rt : runtime) (m1 m2 : UADPNetworkMessage.t) :
  UADPNetworkMessage.publisher_id m1 = UADPNetworkMessage.publisher_id m2 ->
  UADPNetworkMessage.writer_group_id m1 = UADPNetworkMessage.writer_group_id m2 ->
  UADPNetworkMessage.include_group_header m1
  = UADPNetworkMessage.include_group_header m2 ->
  UADPNetworkMessage.include_payload_header m1
  = UADPNetworkMessage.include_payload_header m2 ->
  UADPNetworkMessage.sequence_number m1 mod 65536
  = UADPNetworkMessage.sequence_number m2 mod 65536 ->
  map UADPDataSetMessage.dataset_writer_id (UADPNetworkMessage.dataset_messages m1)
  = map UADPDataSetMessage.dataset_writer_id
      (UADPNetworkMessage.dataset_messages m2) ->
  comprehension (UADPDataSetMessage.encode rt)
    (UADPNetworkMessage.dataset_messages m1)
  = comprehension (UADPDataSetMessage.encode rt)
      (UADPNetworkMessage.dataset_messages m2) ->
  UADPNetworkMessage.encode rt m1 = UADPNetworkMessage.encode rt m2.
Proof.
  intros Hpid Hwg Hg Hp Hseq Hids Hcomp.
  assert (Hlen : len (UADPNetworkMessage.dataset_messages m1)
                 = len (UADPNetworkMessage.dataset_messages m2)).
  { unfold len. f_equal. apply (f_equal (@List.length _)) in Hids.
    now rewrite !length_map in Hids. }
  unfold UADPNetworkMessage.encode. cbv zeta.
  assert (Hhead : UADPNetworkMessage.encode_header m1 []
                  = UADPNetworkMessage.encode_header m2 []).
  { unfold UADPNetworkMessage.encode_header. now rewrite Hpid, Hg, Hp. }
  rewrite Hhead.
  destruct (UADPNetworkMessage.encode_header m2 []) as [buffer|e];
    cbn [bind]; [|reflexivity].
  assert (Hgroup : UADPNetworkMessage.encode_group_header m1 buffer
                   = UADPNetworkMessage.encode_group_header m2 buffer).
  { unfold UADPNetworkMessage.encode_group_header.
    now rewrite Hg, Hwg, !land_low16, Hseq. }
  rewrite Hgroup, !encode_payload_header_bytes, Hp, Hlen, Hids.
  unfold UADPNetworkMessage.encode_payload.
  rewrite Hlen, !for_each_extend, Hcomp. reflexivity.
Qed.

(** What the minimal encoding of a NetworkMessage depends on. *)
Lemma minimal_encode_content (rt : runtime) (m1 m2 : UADPNetworkMessage.t) :
  UADPNetworkMessage.publisher_id m1 = UADPNetworkMessage.publisher_id m2 ->
  len (UADPNetworkMessage.dataset_messages m1)
  = len (UADPNetworkMessage.dataset_messages m2) ->
  comprehension (UADPDataSetMessage.encode rt)
    (UADPNetworkMessage.dataset_messages m1)
  = comprehension (UADPDataSetMessage.encode rt)
      (UADPNetworkMessage.dataset_messages m2) ->
  UADPNetworkMessage.encode_minimal rt m1
  = UADPNetworkMessage.encode_minimal rt m2.
Proof.
  intros Hpid Hlen Hcomp.
  unfold UADPNetworkMessage.encode_minimal. cbv zeta.
  rewrite Hpid, Hlen. 
  destruct (match UADPNetworkMessage.publisher_id m2 with
            | PyBool _ | PyInt _ => _
            | _ => _
            end) as [buffer|e]; cbn [bind]; [|reflexivity].
  rewrite !for_each_extend, Hcomp. reflexivity.
Qed.

(** X11. The payloads of a publisher depend on its message count only
    modulo 65536: two publishers with the same publisher id and writer
    group id whose counts agree modulo 65536 build, from the same dict,
    NetworkMessages with the same full encoding and the same minimal
    encoding. After 65536 messages the sequence numbers on the wire
    repeat. *)
Theorem publish_sequence_wraps (rt : runtime) (a b : UADPPublisher.t)
  (dataset_writer_id : Z) (data_dict : list (pystr * UADPPublisher.item))
  (minimal_dict : list (pystr * UADPPublisher.minimal_item)) :
  UADPPublisher.publisher_id a = UADPPublisher.publisher_id b ->
  UADPPublisher.writer_group_id a = UADPPublisher.writer_group_id b ->
  UADPPublisher.message_count a mod 65536
  = UADPPublisher.message_count b mod 65536 ->
  UADPNetworkMessage.encode rt (UADPPublisher.build a dataset_writer_id data_dict)
  = UADPNetworkMessage.encode rt
      (UADPPublisher.build b dataset_writer_id data_dict) /\
  UADPNetworkMessage.encode_minimal rt
    (UADPPublisher.build_minimal a dataset_writer_id minimal_dict)
  = UADPNetworkMessage.encode_minimal rt
      (UADPPublisher.build_minimal b dataset_writer_id minimal_dict).
Proof.
  intros Hpid Hwg Hseq. split.
  - unfold UADPPublisher.build. cbv zeta. rewrite !publish_fields.
    apply network_encode_content; try reflexivity; try assumption.
    cbn [UADPNetworkMessage.dataset_messages
         UADPNetworkMessage.add_dataset_message
         UADPNetworkMessage.set_sequence_number UADPNetworkMessage.init
         app comprehension].
    rewrite !dataset_encode_bytes.
    cbn [UADPDataSetMessage.with_fields UADPDataSetMessage.init
         UADPDataSetMessage.fields UADPDataSetMessage.sequence_number
         UADPDataSetMessage.field_encoding].
    now rewrite !land_low16, Hseq.
  - unfold UADPPublisher.build_minimal. cbv zeta.
    rewrite !publish_minimal_fields.
    apply minimal_encode_content; try reflexivity; try assumption.
    cbn [UADPNetworkMessage.dataset_messages
         UADPNetworkMessage.add_dataset_message
         UADPNetworkMessage.set_sequence_number UADPNetworkMessage.init
         app comprehension].
    rewrite !dataset_encode_bytes.
    cbn [UADPDataSetMessage.with_fields UADPDataSetMessage.init
         UADPDataSetMessage.fields UADPDataSetMessage.sequence_number
         UADPDataSetMessage.field_encoding].
    now rewrite !land_low16, Hseq.
Qed.

Lemma publish_sequence_wraps_witness :
  UADPNetworkMessage.encode example_runtime
    (UADPPublisher.build
       (UADPPublisher.set_message_count example_publisher 1) 1000 example_dict)
  = UADPNetworkMessage.encode example_runtime
      (UADPPublisher.build
         (UADPPublisher.set_message_count example_publisher 65537) 1000
         example_dict) /\
  UADPNetworkMessage.encode_minimal example_runtime
    (UADPPublisher.build_minimal
       (UADPPublisher.set_message_count example_publisher 1) 1000
       example_dict_minimal)
  = UADPNetworkMessage.encode_minimal example_runtime
      (UADPPublisher.build_minimal
         (UADPPublisher.set_message_count example_publisher 65537) 1000
         example_dict_minimal).
Proof.
  apply (publish_sequence_wraps example_runtime
           (UADPPublisher.set_message_count example_publisher 1)
           (UADPPublisher.set_message_count example_publisher 65537)
           1000 example_dict example_dict_minimal); reflexivity.
Defined.

(** ** The subscriber *)

Ltac subscriber_step :=
  unfold UADPSubscriber.on_exception;
  cbn [UADPSubscriber._on_raw_callback UADPSubscriber._on_message_callback
       UADPSubscriber._on_error_callback UADPSubscriber.stats
       UADPSubscriber.set_stats].

Ltac stats_equal :=
  unfold UADPSubscriber.set_stats, UADPSubscriber.count_received,
    UADPSubscriber.count_decoded, UADPSubscriber.count_error;
  cbn [UADPSubscriber._on_raw_callback UADPSubscriber._on_message_callback
       UADPSubscriber._on_error_callback UADPSubscriber.stats
       UADPSubscriber.received UADPSubscriber.decoded UADPSubscriber.errors
       UADPSubscriber.bytes_received];
  f_equal; f_equal; lia.

(** One message on a subscriber whose callbacks do not raise. *)
Lemma callback_quiet {W : Type} (self : UADPSubscriber.t W) (w : W)
  (topic : pyval) (payload : bytes) :
  quiet self ->
  readable_topic topic ->
  snd (UADPSubscriber._mqtt_callback self w topic payload) = Ok tt /\
  snd (fst (UADPSubscriber._mqtt_callback self w topic payload))
  = UADPSubscriber.set_stats self
      {| UADPSubscriber.received :=
           UADPSubscriber.received (UADPSubscriber.stats self) + 1;
         UADPSubscriber.decoded :=
           UADPSubscriber.decoded (UADPSubscriber.stats self)
           + (if accepted payload then 1 else 0);
         UADPSubscriber.errors :=
           UADPSubscriber.errors (UADPSubscriber.stats self)
           + (if accepted payload then 0 else 1);
         UADPSubscriber.bytes_received :=
           UADPSubscriber.bytes_received (UADPSubscriber.stats self)
           + len payload |}.
Proof.
  intros (Hraw & Hmsg & Herr) Hread.
  unfold UADPSubscriber._mqtt_callback. cbv zeta.
  assert (Htopic : exists t',
            match topic with
            | PyBytes raw =>
                match utf8_decode raw with
                | Ok s => Ok (PyStr s)
                | Raise e => Raise e
                end
            | _ => Ok topic
            end = Ok t').
  { destruct topic; try (eexists; reflexivity).
    destruct Hread as (s & ->). eexists; reflexivity. }
  destruct Htopic as (t' & ->).
  subscriber_step.
  assert (Hrawcall : exists w1,
            match UADPSubscriber._on_raw_callback self with
            | Some callback => callback w t' payload
            | None => (w, Ok tt)
            end = (w1, Ok tt)).
  { destruct (UADPSubscriber._on_raw_callback self) as [cb|].
    - specialize (Hraw cb eq_refl w t' payload).
      destruct (cb w t' payload) as [w1 r1]. cbn [snd] in Hraw. subst r1.
      now exists w1.
    - now exists w. }
  destruct Hrawcall as (w1 & ->).
  unfold accepted.
  destruct (UADPNetworkMessage.decode payload) as [[m|]|e]; subscriber_step.
  - destruct (UADPSubscriber._on_message_callback self) as [cb|].
    + specialize (Hmsg cb eq_refl w1 m t').
      destruct (cb w1 m t') as [w2 r2]. cbn [snd] in Hmsg. subst r2.
      cbn [fst snd]. split; [reflexivity|stats_equal].
    + cbn [fst snd]. split; [reflexivity|stats_equal].
  - destruct (UADPSubscriber._on_error_callback self) as [cb|].
    + specialize (Herr cb eq_refl w1 UADPSubscriber.DecodeFailed payload).
      destruct (cb w1 UADPSubscriber.DecodeFailed payload) as [w2 r2].
      cbn [snd] in Herr. subst r2.
      cbn [fst snd]. split; [reflexivity|stats_equal].
    + cbn [fst snd]. split; [reflexivity|stats_equal].
  - destruct (UADPSubscriber._on_error_callback self) as [cb|].
    + specialize (Herr cb eq_refl w1 (UADPSubscriber.Caught e) payload).
      destruct (cb w1 (UADPSubscriber.Caught e) payload) as [w2 r2].
      cbn [snd] in Herr. subst r2.
      cbn [fst snd]. split; [reflexivity|stats_equal].
    + cbn [fst snd]. split; [reflexivity|stats_equal].
Qed.

(** X12. The statistics of a subscriber whose callbacks do not raise,
    over any run of messages with readable topics: [received] grows by
    the number of messages, [bytes_received] by the total size of the
    payloads, [decoded] by the number of payloads for which [decode]
    returns a message, and [errors] by the number of the others. So the
    balance [received = decoded + errors] is kept. *)
Theorem subscriber_counts {W : Type} (self : UADPSubscriber.t W) (w : W)
  (messages : list (pyval * bytes)) :
  quiet self ->
  Forall (fun message => readable_topic (fst message)) messages ->
  snd (deliver_all self w messages)
  = UADPSubscriber.set_stats self
      {| UADPSubscriber.received :=
           UADPSubscriber.received (UADPSubscriber.stats self) + len messages;
         UADPSubscriber.decoded :=
           UADPSubscriber.decoded (UADPSubscriber.stats self)
           + len (filter accepted (map snd messages));
         UADPSubscriber.errors :=
           UADPSubscriber.errors (UADPSubscriber.stats self)
           + (len messages - len (filter accepted (map snd messages)));
         UADPSubscriber.bytes_received :=
           UADPSubscriber.bytes_received (UADPSubscriber.stats self)
           + len (List.concat (map snd messages)) |} /\
  (UADPSubscriber.received (UADPSubscriber.stats self)
   = UADPSubscriber.decoded (UADPSubscriber.stats self)
     + UADPSubscriber.errors (UADPSubscriber.stats self) ->
   UADPSubscriber.received
     (UADPSubscriber.stats (snd (deliver_all self w messages)))
   = UADPSubscriber.decoded
       (UADPSubscriber.stats (snd (deliver_all self w messages)))
     + UADPSubscriber.errors
         (UADPSubscriber.stats (snd (deliver_all self w messages)))).
Proof.
  intros Hq Hr.
  assert (Hstats :
    snd (deliver_all self w messages)
    = UADPSubscriber.set_stats self
        {| UADPSubscriber.received :=
             UADPSubscriber.received (UADPSubscriber.stats self) + len messages;
           UADPSubscriber.decoded :=
             UADPSubscriber.decoded (UADPSubscriber.stats self)
             + len (filter accepted (map snd messages));
           UADPSubscriber.errors :=
             UADPSubscriber.errors (UADPSubscriber.stats self)
             + (len messages - len (filter accepted (map snd messages)));
           UADPSubscriber.bytes_received :=
             UADPSubscriber.bytes_received (UADPSubscriber.stats self)
             + len (List.concat (map snd messages)) |}).
  { revert self w Hq.
    induction Hr as [|[topic payload] rest Htopic Hrest IH]; intros self w Hq.
    - cbn [deliver_all snd map filter List.concat].
      change (len (@nil (pyval * bytes))) with 0.
      change (len (@nil bytes)) with 0. change (len (@nil byte)) with 0.
      destruct self as [cm cr ce [r d e b]].
      unfold UADPSubscriber.set_stats.
      cbn [UADPSubscriber._on_raw_callback UADPSubscriber._on_message_callback
           UADPSubscriber._on_error_callback UADPSubscriber.stats
           UADPSubscriber.received UADPSubscriber.decoded UADPSubscriber.errors
           UADPSubscriber.bytes_received].
      f_equal. f_equal; lia.
    - cbn [deliver_all fst] in *.
      destruct (callback_quiet self w topic payload Hq Htopic) as [_ Hone].
      destruct (UADPSubscriber._mqtt_callback self w topic payload)
        as [[w1 self1] r1].
      cbn [fst snd] in Hone. subst self1.
      rewrite IH by exact Hq.
      cbn [map snd filter List.concat].
      rewrite len_app.
      replace (len ((topic, payload) :: rest)) with (1 + len rest)
        by (unfold len; cbn [List.length]; lia).
      destruct (accepted payload).
      + replace (len (payload :: filter accepted (map snd rest)))
          with (1 + len (filter accepted (map snd rest)))
          by (unfold len; cbn [List.length]; lia).
        stats_equal.
      + stats_equal. }
  split; [exact Hstats|].
  intros Hb. rewrite Hstats.
  cbn [UADPSubscriber.set_stats UADPSubscriber.stats UADPSubscriber.received
       UADPSubscriber.decoded UADPSubscriber.errors].
  lia.
Qed.

(** X13. A message callback that raises makes one message count twice:
    when the payload decodes and the message callback raises on it,
    [decoded] and [errors] both grow by one for the one message received,
    and the error callback, if set, is told of the exception; what it
    returns or raises is what the callback as a whole returns or
    raises. *)
Theorem failing_message_callback_counted_twice {W : Type}
  (self : UADPSubscriber.t W) (w w' : W) (topic : pystr) (payload : bytes)
  (net_msg : UADPNetworkMessage.t)
  (callback : W -> UADPNetworkMessage.t -> pyval -> W * result unit)
  (e : exn) :
  UADPSubscriber._on_raw_callback self = None ->
  UADPSubscriber._on_message_callback self = Some callback ->
  UADPNetworkMessage.decode payload = Ok (Some net_msg) ->
  callback w net_msg (PyStr topic) = (w', Raise e) ->
  UADPSubscriber.stats
    (snd (fst (UADPSubscriber._mqtt_callback self w (PyStr topic) payload)))
  = {| UADPSubscriber.received :=
         UADPSubscriber.received (UADPSubscriber.stats self) + 1;
       UADPSubscriber.decoded :=
         UADPSubscriber.decoded (UADPSubscriber.stats self) + 1;
       UADPSubscriber.errors :=
         UADPSubscriber.errors (UADPSubscriber.stats self) + 1;
       UADPSubscriber.bytes_received :=
         UADPSubscriber.bytes_received (UADPSubscriber.stats self)
         + len payload |} /\
  (forall on_error,
     UADPSubscriber._on_error_callback self = Some on_error ->
     fst (fst (UADPSubscriber._mqtt_callback self w (PyStr topic) payload))
     = fst (on_error w' (UADPSubscriber.Caught e) payload) /\
     snd (UADPSubscriber._mqtt_callback self w (PyStr topic) payload)
     = snd (on_error w' (UADPSubscriber.Caught e) payload)).
Proof.
  intros Hraw Hmsg Hdec Hcb.
  unfold UADPSubscriber._mqtt_callback. cbv zeta.
  subscriber_step. rewrite Hraw, Hdec. subscriber_step.
  rewrite Hmsg, Hcb. subscriber_step.
  split.
  - destruct (UADPSubscriber._on_error_callback self) as [cb|].
    + destruct (cb w' (UADPSubscriber.Caught e) payload) as [w2 r2].
      reflexivity.
    + reflexivity.
  - intros on_error ->.
    destruct (on_error w' (UADPSubscriber.Caught e) payload) as [w2 r2].
    split; reflexivity.
Qed.

(** X14. With no raw callback set, an error callback that raises when
    told of a failed decode is called a second time, from the exception
    handler, now with its own exception: [errors] grows by two for the
    one message, and the second call decides whether an exception leaves
    the callback. *)
Theorem failing_error_callback_called_twice {W : Type}
  (self : UADPSubscriber.t W) (w w' : W) (topic : pystr) (payload : bytes)
  (on_error : W -> UADPSubscriber.error_report -> bytes -> W * result unit)
  (e : exn) :
  UADPSubscriber._on_raw_callback self = None ->
  UADPSubscriber._on_error_callback self = Some on_error ->
  UADPNetworkMessage.decode payload = Ok None ->
  on_error w UADPSubscriber.DecodeFailed payload = (w', Raise e) ->
  UADPSubscriber.stats
    (snd (fst (UADPSubscriber._mqtt_callback self w (PyStr topic) payload)))
  = {| UADPSubscriber.received :=
         UADPSubscriber.received (UADPSubscriber.stats self) + 1;
       UADPSubscriber.decoded :=
         UADPSubscriber.decoded (UADPSubscriber.stats self);
       UADPSubscriber.errors :=
         UADPSubscriber.errors (UADPSubscriber.stats self) + 2;
       UADPSubscriber.bytes_received :=
         UADPSubscriber.bytes_received (UADPSubscriber.stats self)
         + len payload |} /\
  fst (fst (UADPSubscriber._mqtt_callback self w (PyStr topic) payload))
  = fst (on_error w' (UADPSubscriber.Caught e) payload) /\
  snd (UADPSubscriber._mqtt_callback self w (PyStr topic) payload)
  = snd (on_error w' (UADPSubscriber.Caught e) payload).
Proof.
  intros Hraw Herr Hdec Hcb.
  unfold UADPSubscriber._mqtt_callback. cbv zeta.
  subscriber_step. rewrite Hraw, Hdec. subscriber_step.
  rewrite Herr, Hcb. subscriber_step. rewrite ?Herr.
  destruct (on_error w' (UADPSubscriber.Caught e) payload) as [w2 r2].
  cbn [fst snd UADPSubscriber.stats UADPSubscriber.set_stats].
  repeat split.
  unfold UADPSubscriber.count_error, UADPSubscriber.count_received.
  cbn [UADPSubscriber.received UADPSubscriber.decoded UADPSubscriber.errors
       UADPSubscriber.bytes_received].
  f_equal; lia.
Qed.

Lemma subscriber_counts_witness :
  snd (deliver_all collecting ([], [])
         [ (PyStr (text "opcua/uadp"), good_payload);
           (PyBytes [ x74 ], bad_payload) ])
  = UADPSubscriber.set_stats collecting
      {| UADPSubscriber.received :=
           UADPSubscriber.received (UADPSubscriber.stats collecting)
           + len [ (PyStr (text "opcua/uadp"), good_payload);
                   (PyBytes [ x74 ], bad_payload) ];
         UADPSubscriber.decoded :=
           UADPSubscriber.decoded (UADPSubscriber.stats collecting)
           + len (filter accepted
                    (map snd [ (PyStr (text "opcua/uadp"), good_payload);
                               (PyBytes [ x74 ], bad_payload) ]));
         UADPSubscriber.errors :=
           UADPSubscriber.errors (UADPSubscriber.stats collecting)
           + (len [ (PyStr (text "opcua/uadp"), good_payload);
                    (PyBytes [ x74 ], bad_payload) ]
              - len (filter accepted
                       (map snd [ (PyStr (text "opcua/uadp"), good_payload);
                                  (PyBytes [ x74 ], bad_payload) ])));
         UADPSubscriber.bytes_received :=
           UADPSubscriber.bytes_received (UADPSubscriber.stats collecting)
           + len (List.concat
                    (map snd [ (PyStr (text "opcua/uadp"), good_payload);
                               (PyBytes [ x74 ], bad_payload) ])) |}.
Proof.
  apply (subscriber_counts collecting ([], [])
           [ (PyStr (text "opcua/uadp"), good_payload);
             (PyBytes [ x74 ], bad_payload) ]).
  - repeat split.
    + intros callback H. discriminate H.
    + intros callback H w net_msg topic. injection H as <-. reflexivity.
    + intros callback H w report payload. injection H as <-. reflexivity.
  - repeat constructor. exists (text "t"). reflexivity.
Defined.

Lemma failing_message_callback_counted_twice_witness :
  UADPSubscriber.stats
    (snd (fst (UADPSubscriber._mqtt_callback raising ([], [])
                 (PyStr (text "opcua/uadp")) good_payload)))
  = {| UADPSubscriber.received :=
         UADPSubscriber.received (UADPSubscriber.stats raising) + 1;
       UADPSubscriber.decoded :=
         UADPSubscriber.decoded (UADPSubscriber.stats raising) + 1;
       UADPSubscriber.errors :=
         UADPSubscriber.errors (UADPSubscriber.stats raising) + 1;
       UADPSubscriber.bytes_received :=
         UADPSubscriber.bytes_received (UADPSubscriber.stats raising)
         + len good_payload |}.
Proof.
  apply (failing_message_callback_counted_twice raising ([], []) ([], [])
           (text "opcua/uadp") good_payload
           (UADPNetworkMessage.set_decoded
              (UADPNetworkMessage.init (PyStr []) 0) [ x00; x2a ] [] 1)
           (fun w net_msg topic => (w, Raise TypeError)) TypeError);
    reflexivity.
Defined.

Lemma failing_error_callback_called_twice_witness :
  UADPSubscriber.stats
    (snd (fst (UADPSubscriber._mqtt_callback raising ([], [])
                 (PyStr (text "opcua/uadp")) bad_payload)))
  = {| UADPSubscriber.received :=
         UADPSubscriber.received (UADPSubscriber.stats raising) + 1;
       UADPSubscriber.decoded :=
         UADPSubscriber.decoded (UADPSubscriber.stats raising);
       UADPSubscriber.errors :=
         UADPSubscriber.errors (UADPSubscriber.stats raising) + 2;
       UADPSubscriber.bytes_received :=
         UADPSubscriber.bytes_received (UADPSubscriber.stats raising)
         + len bad_payload |}.
Proof.
  apply (failing_error_callback_called_twice raising ([], []) ([], [])
           (text "opcua/uadp") bad_payload
           (fun w report payload =>
              match report with
              | UADPSubscriber.DecodeFailed => (w, Raise ValueError)
              | UADPSubscriber.Caught _ => ((fst w, snd w ++ [report]), Ok tt)
              end)
           ValueError);
    reflexivity.
Defined.

(** ** Looking up fields *)

Lemma str_eqb_eq (a b : pystr) :
  UADPDataSetMessage.str_eqb a b = true <-> a = b.
Proof.
  revert b. induction a as [|x a IH]; intros [|y b];
    cbn [UADPDataSetMessage.str_eqb];
    try (split; [discriminate|discriminate]).
  - split; reflexivity.
  - rewrite andb_true_iff, Z.eqb_eq, IH. split.
    + intros [-> ->]. reflexivity.
    + intros E. injection E as -> ->. split; reflexivity.
Qed.

(** X15. Field lookup after [add_field]: [get_field] returns the value
    of the first field of the wanted name, so a field added under a name
    that is already present is never returned, one added under a new
    name is returned for that name, and any other lookup is unchanged
    (None when the name is absent); [get_field_names] grows by the name
    at its end, duplicates included; and a result other than None means
    that the name is among the field names. *)
Theorem get_field_after_add (self : UADPDataSetMessage.t) (name : pystr)
  (value : pyval) (type_id : option Z) (wanted : pystr) :
  UADPDataSetMessage.get_field
    (UADPDataSetMessage.add_field self name value type_id) wanted
  = (if existsb (fun fname => UADPDataSetMessage.str_eqb fname wanted)
          (UADPDataSetMessage.get_field_names self)
     then UADPDataSetMessage.get_field self wanted
     else if UADPDataSetMessage.str_eqb name wanted then value else PyNone) /\
  UADPDataSetMessage.get_field_names
    (UADPDataSetMessage.add_field self name value type_id)
  = UADPDataSetMessage.get_field_names self ++ [ name ] /\
  (UADPDataSetMessage.get_field self wanted <> PyNone ->
   In wanted (UADPDataSetMessage.get_field_names self)).
Proof.
  unfold UADPDataSetMessage.get_field, UADPDataSetMessage.get_field_names,
    UADPDataSetMessage.add_field, UADPDataSetMessage.with_fields.
  cbn [UADPDataSetMessage.fields].
  generalize (UADPDataSetMessage.fields self) as fs. intros fs.
  repeat split.
  - induction fs as [|[[fname v] t] fs IH]; cbn [app map existsb].
    + destruct (UADPDataSetMessage.str_eqb name wanted); reflexivity.
    + destruct (UADPDataSetMessage.str_eqb fname wanted); cbn [orb];
        [reflexivity|exact IH].
  - rewrite map_app. reflexivity.
  - induction fs as [|[[fname v] t] fs IH]; cbn [map In].
    + intros H. now contradiction H.
    + destruct (UADPDataSetMessage.str_eqb fname wanted) eqn:E.
      * intros _. left. now apply str_eqb_eq.
      * intros H. right. exact (IH H).
Qed.

Lemma get_field_after_add_witness :
  In (text "T")
    (UADPDataSetMessage.get_field_names
       (UADPDataSetMessage.add_field (UADPDataSetMessage.init 1000 5)
          (text "T") (PyInt 42) None)).
Proof.
  apply (get_field_after_add
           (UADPDataSetMessage.add_field (UADPDataSetMessage.init 1000 5)
              (text "T") (PyInt 42) None)
           (text "T") (PyInt 7) None (text "T")).
  vm_compute. discriminate.
Defined.

(** ** Status codes *)

Lemma land_top_bits (code : Z) :
  Z.land code 3221225472 = 2 ^ 30 * ((code / 2 ^ 30) mod 2 ^ 2).
Proof.
  apply Z.bits_inj'. intros n Hn. rewrite Z.land_spec.
  change 3221225472 with (3 * 2 ^ 30).
  rewrite (Z.mul_comm (2 ^ 30)).
  destruct (Z.ltb_spec n 30) as [Hlow|Hhigh].
  - rewrite !Z.mul_pow2_bits_low by lia. apply andb_false_r.
  - rewrite !Z.mul_pow2_bits by lia.
    destruct (Z.ltb_spec (n - 30) 2) as [Hin|Hout].
    + rewrite Z.mod_pow2_bits_low by lia.
      rewrite Z.div_pow2_bits by lia.
      replace (n - 30 + 30) with n by lia.
      assert (Hn30 : n - 30 = 0 \/ n - 30 = 1) by lia.
      destruct Hn30 as [->| ->]; cbn; apply andb_true_r.
    + rewrite Z.mod_pow2_bits_high by lia.
      change 3 with (Z.ones 2). rewrite Z.ones_spec_high by lia.
      apply andb_false_r.
Qed.

(** X16. [StatusCode.is_good] looks at bits 30 and 31 only: a code is
    good exactly when its low 32 bits, read as an unsigned number, are
    below 0x40000000. *)
Theorem is_good_top_bits (code : Z) :
  StatusCode.is_good code = (code mod 4294967296 <? 1073741824).
Proof.
  unfold StatusCode.is_good. rewrite land_top_bits.
  change (2 ^ 30) with 1073741824. change (2 ^ 2) with 4.
  assert (Hsplit : code mod 4294967296
                   = code mod 1073741824
                     + 1073741824 * ((code / 1073741824) mod 4)).
  { change 4294967296 with (1073741824 * 4). apply Z.rem_mul_r; lia. }
  rewrite Hsplit.
  pose proof (Z.mod_pos_bound code 1073741824 ltac:(lia)).
  pose proof (Z.mod_pos_bound (code / 1073741824) 4 ltac:(lia)).
  destruct (Z.eqb_spec (1073741824 * ((code / 1073741824) mod 4)) 0);
    destruct (Z.ltb_spec (code mod 1073741824
                          + 1073741824 * ((code / 1073741824) mod 4))
                1073741824); try reflexivity; lia.
Qed.

(** ** The size of the two framings *)

Lemma len_cons {A : Type} (x : A) (l : list A) : len (x :: l) = 1 + len l.
Proof. unfold len. cbn [List.length]. lia. Qed.

Lemma len_concat_pack_H (l : list Z) :
  len (List.concat (map (pack_int Fmt_H) l)) = 2 * len l.
Proof.
  induction l as [|x l IH]; [reflexivity|].
  cbn [map List.concat]. rewrite len_app, len_pack_int, IH, len_cons.
  cbn [calcsize]. lia.
Qed.

Lemma len_payload_body (encs : list bytes) :
  len (payload_body encs)
  = (if 1 <? len encs then 2 * len encs else 0) + len (List.concat encs).
Proof.
  destruct encs as [|e1 [|e2 more]].
  - reflexivity.
  - cbn [payload_body List.concat]. rewrite app_nil_r. reflexivity.
  - assert (Hmany : (1 <? len (e1 :: e2 :: more)) = true).
    { apply Z.ltb_lt. rewrite !len_cons. pose proof (len_nonneg more). lia. }
    rewrite Hmany. unfold payload_body. rewrite len_app. f_equal.
    unfold length_prefix.
    rewrite <- (map_map (@len byte) (pack_int Fmt_H)).
    rewrite len_concat_pack_H. unfold len. now rewrite length_map.
Qed.

Lemma len_slice_to (l : bytes) (n : Z) :
  0 <= n -> len (slice_to l n) = Z.min (len l) n.
Proof.
  intros Hn. rewrite slice_to_firstn by exact Hn. unfold len.
  rewrite length_firstn. lia.
Qed.

(** X17. The size of full framing against minimal framing, for a
    message with both headers and a text publisher id, whenever its
    DataSet messages encode: both encodings exist, and the full one is
    longer by the 9 bytes of the group header, 2 bytes of writer id for
    each of the k DataSet messages, 2 bytes of length prefix for each
    when k is at least 2, and the bytes of the publisher id beyond the
    16 that minimal framing keeps. For one message and a short
    publisher id, as in [compare_encoding_size], that is 11 bytes. *)
Theorem framing_overhead (rt : runtime) (self : UADPNetworkMessage.t)
  (s : pystr) (pub : bytes) (encs : list bytes) :
  UADPNetworkMessage.include_group_header self = true ->
  UADPNetworkMessage.include_payload_header self = true ->
  UADPNetworkMessage.publisher_id self = PyStr s ->
  utf8_encode s = Ok pub ->
  comprehension (UADPDataSetMessage.encode rt)
    (UADPNetworkMessage.dataset_messages self) = Ok encs ->
  exists full minimal : bytes,
    UADPNetworkMessage.encode rt self = Ok full /\
    UADPNetworkMessage.encode_minimal rt self = Ok minimal /\
    len full
    = len minimal + 9
      + 2 * len (UADPNetworkMessage.dataset_messages self)
      + (if 1 <? len (UADPNetworkMessage.dataset_messages self)
         then 2 * len (UADPNetworkMessage.dataset_messages self) else 0)
      + (len pub - Z.min (len pub) 16).
Proof.
  intros Hg Hp Hpid Hpub Hc.
  pose proof (comprehension_length _ _ _ Hc) as Hl.
  assert (Hk : len encs = len (UADPNetworkMessage.dataset_messages self))
    by (unfold len; now rewrite Hl).
  eexists. eexists. split; [|split].
  - unfold UADPNetworkMessage.encode. cbv zeta.
    unfold UADPNetworkMessage.encode_header. cbv zeta.
    rewrite Hpid. unfold UADPEncoder.encode_string. rewrite Hpub.
    cbn [bind].
    rewrite (group_header_bytes self _ Hg), encode_payload_header_bytes, Hp.
    rewrite (encode_payload_bytes rt self encs _ Hc). cbn [bind].
    reflexivity.
  - unfold UADPNetworkMessage.encode_minimal. cbv zeta.
    rewrite Hpid. cbn [py_str]. rewrite Hpub. cbn [bind].
    rewrite for_each_extend, Hc. cbn [bind]. reflexivity.
  - unfold extend, append.
    repeat (rewrite len_app || rewrite len_cons).
    rewrite !len_pack_int, len_payload_body, len_concat_pack_H,
      (len_slice_to pub 16) by lia.
    rewrite Hk.
    replace (len (map UADPDataSetMessage.dataset_writer_id
                    (UADPNetworkMessage.dataset_messages self)))
      with (len (UADPNetworkMessage.dataset_messages self))
      by (unfold len; now rewrite length_map).
    change (len (@nil byte)) with 0. cbn [calcsize].
    destruct (1 <? len (UADPNetworkMessage.dataset_messages self)); lia.
Qed.

Lemma framing_overhead_witness :
  exists full minimal : bytes,
    UADPNetworkMessage.encode example_runtime example_message = Ok full /\
    UADPNetworkMessage.encode_minimal example_runtime example_message
    = Ok minimal /\
    len full
    = len minimal + 9
      + 2 * len (UADPNetworkMessage.dataset_messages example_message)
      + (if 1 <? len (UADPNetworkMessage.dataset_messages example_message)
         then 2 * len (UADPNetworkMessage.dataset_messages example_message)
         else 0)
      + (len [ x45; x53; x50; x33; x32 ]
         - Z.min (len [ x45; x53; x50; x33; x32 ]) 16).
Proof.
  apply (framing_overhead example_runtime example_message (text "ESP32")
           [ x45; x53; x50; x33; x32 ] [ [ x0b; x00; x05; x00; x2a ] ]);
    reflexivity.
Defined.

(** ** Minimal framing on the way back *)

Lemma minimal_on_wire_full (publisher_id : pyval) :
  minimal_on_wire publisher_id -> publisher_on_wire publisher_id.
Proof.
  destruct publisher_id; cbn [minimal_on_wire publisher_on_wire];
    try contradiction.
  - lia.
  - intros (pub & Hp & Hl). exists pub. split; [exact Hp|lia].
Qed.

(** Minimal framing writes the publisher id as full framing does, when
    the id is a byte or has at most 16 bytes of UTF-8. *)
Lemma minimal_bytes (rt : runtime) (self : UADPNetworkMessage.t)
  (flags : byte) (idbytes : bytes) :
  minimal_on_wire (UADPNetworkMessage.publisher_id self) ->
  UADPNetworkMessage.encode_header self [] = Ok (flags :: idbytes) ->
  UADPNetworkMessage.encode_minimal rt self
  = (encs <- comprehension (UADPDataSetMessage.encode rt)
               (UADPNetworkMessage.dataset_messages self) ;;
     Ok ((x11 :: idbytes)
           ++ byte_of_Z (len (UADPNetworkMessage.dataset_messages self))
           :: List.concat encs)).
Proof.
  intros Hw Hh.
  unfold UADPNetworkMessage.encode_header in Hh. cbv zeta in Hh.
  unfold UADPNetworkMessage.encode_minimal. cbv zeta.
  destruct (UADPNetworkMessage.publisher_id self) as [| b | z | f | s | bs | o];
    cbn [minimal_on_wire] in Hw; try contradiction.
  - cbn [get_int bind] in Hh |- *.
    assert (Hz : (z <=? 255) = true) by (apply Z.leb_le; lia).
    rewrite Hz in Hh |- *. apply Ok_inj in Hh.
    unfold append in Hh. cbn [app] in Hh. injection Hh as _ <-.
    cbn [bind]. rewrite for_each_extend.
    destruct (comprehension _ _) as [encs|e]; cbn [bind]; [|reflexivity].
    unfold append. cbn [app]. rewrite <- ?app_assoc. reflexivity.
  - destruct Hw as (pub & Hpub & Hlen).
    unfold UADPEncoder.encode_string in Hh. rewrite Hpub in Hh.
    cbn [bind] in Hh. apply Ok_inj in Hh.
    unfold append, extend in Hh. cbn [app] in Hh. injection Hh as _ <-.
    cbn [py_str]. rewrite Hpub. cbn [bind].
    assert (Hcut : slice_to pub 16 = pub).
    { rewrite slice_to_firstn by lia. apply firstn_all2. unfold len in Hlen. lia. }
    rewrite Hcut, for_each_extend.
    destruct (comprehension _ _) as [encs|e]; cbn [bind]; [|reflexivity].
    unfold append, extend. cbn [app]. rewrite <- ?app_assoc. reflexivity.
Qed.

(** X18. [decode] accepts a minimally framed message: for a publisher
    id that is a byte or text of at most 16 UTF-8 bytes, it returns that
    publisher id, always the DataSet count 1 and no writer ids; the
    count byte that [encode_minimal] wrote is left at the head of the
    raw payload, before the encoded DataSet messages. *)
Theorem minimal_framing_decoded (rt : runtime) (self : UADPNetworkMessage.t)
  (encs : list bytes) :
  minimal_on_wire (UADPNetworkMessage.publisher_id self) ->
  comprehension (UADPDataSetMessage.encode rt)
    (UADPNetworkMessage.dataset_messages self) = Ok encs ->
  exists data : bytes,
    UADPNetworkMessage.encode_minimal rt self = Ok data /\
    UADPNetworkMessage.decode data
    = Ok (Some (UADPNetworkMessage.set_decoded
                  (UADPNetworkMessage.set_publisher_id
                     (UADPNetworkMessage.init (PyStr []) 0)
                     (UADPNetworkMessage.publisher_id self))
                  (byte_of_Z (len (UADPNetworkMessage.dataset_messages self))
                     :: List.concat encs)
                  [] 1)).
Proof.
  intros Hw Hc.
  destruct (publisher_id_header self (minimal_on_wire_full _ Hw))
    as (flags & idbytes & Hh & _ & Hl & Hread).
  rewrite (minimal_bytes rt self _ _ Hw Hh), Hc. cbn [bind].
  eexists. split; [reflexivity|].
  rewrite decode_phases.
  set (rest := byte_of_Z (len (UADPNetworkMessage.dataset_messages self))
                 :: List.concat encs).
  assert (Hlen : (len ((x11 :: idbytes) ++ rest) <? 2) = false).
  { apply Z.ltb_ge. rewrite len_app.
    change (x11 :: idbytes) with ([ x11 ] ++ idbytes). rewrite len_app.
    pose proof (len_nonneg rest). change (len [ x11 ]) with 1. lia. }
  rewrite Hlen.
  change ((x11 :: idbytes) ++ rest) with (x11 :: idbytes ++ rest).
  rewrite index_head. cbn [bind].
  change (negb (Z.land (Z_of_byte x11) 15 =? 1)) with false.
  change (negb (Z.land (Z_of_byte x11) 16 =? 0)) with true.
  change (negb (Z.land (Z_of_byte x11) 32 =? 0)) with false.
  change (negb (Z.land (Z_of_byte x11) 64 =? 0)) with false.
  cbv beta iota. rewrite Hread. cbn [bind].
  replace (1 + len idbytes) with (len (x11 :: idbytes))
    by (change (x11 :: idbytes) with ([ x11 ] ++ idbytes);
        rewrite len_app; reflexivity).
  change (x11 :: idbytes ++ rest) with ((x11 :: idbytes) ++ rest).
  rewrite slice_from_app. reflexivity.
Qed.

Lemma minimal_framing_decoded_witness :
  exists data : bytes,
    UADPNetworkMessage.encode_minimal example_runtime example_message_2
    = Ok data /\
    UADPNetworkMessage.decode data
    = Ok (Some (UADPNetworkMessage.set_decoded
                  (UADPNetworkMessage.set_publisher_id
                     (UADPNetworkMessage.init (PyStr []) 0)
                     (UADPNetworkMessage.publisher_id example_message_2))
                  (byte_of_Z
                     (len (UADPNetworkMessage.dataset_messages
                             example_message_2))
                     :: List.concat
                          [ [ x0b; x00; x05; x00; x2a ];
                            [ x0b; x00; x05; x00; xc8; x00 ] ])
                  [] 1)).
Proof.
  apply (minimal_framing_decoded example_runtime example_message_2
           [ [ x0b; x00; x05; x00; x2a ]; [ x0b; x00; x05; x00; xc8; x00 ] ]).
  - exists [ x45; x53; x50; x33; x32 ]. split; [reflexivity|].
    vm_compute. discriminate.
  - reflexivity.
Defined.

(** ** From bytes to integers and back *)

Lemma byte_of_Z_add (z m : Z) : byte_of_Z (z + m * 256) = byte_of_Z z.
Proof. unfold byte_of_Z. now rewrite Z_mod_plus_full. Qed.

Lemma le_bytes_le_value (bs : bytes) :
  le_bytes (List.length bs) (le_value bs) = bs.
Proof.
  induction bs as [|b rest IH]; [reflexivity|].
  cbn [List.length le_bytes le_value].
  pose proof (Z_of_byte_range b) as Hb.
  f_equal.
  - rewrite (Z.mul_comm 256), byte_of_Z_add. apply byte_of_Z_of_byte.
  - rewrite (Z.mul_comm 256), Z.div_add by lia.
    rewrite Z.div_small by lia. exact IH.
Qed.

Lemma le_bytes_add (size : nat) (z m : Z) :
  le_bytes size (z + m * 2 ^ (8 * Z.of_nat size)) = le_bytes size z.
Proof.
  revert z m. induction size as [|k IH]; intros z m; [reflexivity|].
  cbn [le_bytes].
  replace (8 * Z.of_nat (S k)) with (8 * Z.of_nat k + 8) by lia.
  rewrite Z.pow_add_r by lia. change (2 ^ 8) with 256.
  rewrite Z.mul_assoc. f_equal.
  - apply byte_of_Z_add.
  - rewrite Z.div_add by lia. apply IH.
Qed.

(** What [unpack_from] returns packs to the bytes it was read from. *)
Lemma pack_unpacked (fmt : int_format) (data : bytes) (offset z : Z) :
  0 <= offset ->
  unpack_from fmt data offset = Ok z ->
  pack_int fmt z = slice data offset (offset + Z.of_nat (calcsize fmt)) /\
  (if signed fmt
   then - 2 ^ (8 * Z.of_nat (calcsize fmt) - 1) <= z
        < 2 ^ (8 * Z.of_nat (calcsize fmt) - 1)
   else 0 <= z < 2 ^ (8 * Z.of_nat (calcsize fmt))).
Proof.
  intros Ho Hu.
  pose proof (unpack_from_inside fmt data offset z Ho Hu) as Hin.
  unfold unpack_from, window in Hu. cbv zeta in Hu.
  assert (E1 : (offset <? 0) = false) by (apply Z.ltb_ge; lia).
  assert (E2 : (len data <? offset + Z.of_nat (calcsize fmt)) = false)
    by (apply Z.ltb_ge; lia).
  rewrite E1 in Hu. cbv beta iota in Hu. rewrite E1, E2 in Hu.
  cbn [orb bind] in Hu. apply Ok_inj in Hu.
  set (raw := firstn (calcsize fmt) (skipn (Z.to_nat offset) data)) in *.
  assert (Hraw : List.length raw = calcsize fmt).
  { unfold raw. rewrite length_firstn, length_skipn. unfold len in Hin. lia. }
  assert (Hslice : slice data offset (offset + Z.of_nat (calcsize fmt)) = raw).
  { unfold slice. cbv zeta. rewrite !slice_bound_inside by lia.
    replace (Z.to_nat (offset + Z.of_nat (calcsize fmt) - offset))
      with (calcsize fmt) by lia.
    reflexivity. }
  pose proof (le_value_range raw) as Hr. unfold len in Hr. rewrite Hraw in Hr.
  assert (Hpos : (0 < calcsize fmt)%nat) by (destruct fmt; cbn; lia).
  assert (Hhalf : 2 ^ (8 * Z.of_nat (calcsize fmt))
                  = 2 * 2 ^ (8 * Z.of_nat (calcsize fmt) - 1)).
  { rewrite <- Z.pow_succ_r by lia. f_equal. lia. }
  rewrite Hslice. unfold pack_int.
  destruct (signed fmt).
  - unfold to_signed in Hu. cbv zeta in Hu.
    destruct (Z.ltb_spec (le_value raw)
                (2 ^ (8 * Z.of_nat (calcsize fmt) - 1))) as [Hlow|Hhigh].
    + subst z. rewrite <- Hraw at 1. split; [apply le_bytes_le_value|lia].
    + subst z. rewrite <- Hhalf. split; [|lia].
      replace (le_value raw - 2 ^ (8 * Z.of_nat (calcsize fmt)))
        with (le_value raw + (-1) * 2 ^ (8 * Z.of_nat (calcsize fmt))) by lia.
      rewrite le_bytes_add. rewrite <- Hraw at 1. apply le_bytes_le_value.
  - subst z. rewrite <- Hraw at 1. split; [apply le_bytes_le_value|lia].
Qed.

Ltac integer_case fmt build :=
  match goal with
  | Ho : 0 <= ?offset, Hd : _ = Ok (?v, ?next) |- _ =>
      match type of Hd with
      | context [unpack_from fmt ?data offset] =>
          destruct (unpack_from fmt data offset) as [z|e] eqn:Eu;
          cbn [bind] in Hd; [|discriminate];
          apply Ok_inj in Hd;
          assert (Ev : v = PyInt z) by congruence;
          assert (Eo : next = offset + Z.of_nat (calcsize fmt))
            by (cbn [calcsize Z.of_nat Pos.of_succ_nat Pos.succ]; congruence);
          destruct (pack_unpacked fmt data offset z Ho Eu) as [Hp Hr];
          cbn [signed] in Hr;
          let p := eval vm_compute in (2 ^ (8 * Z.of_nat (calcsize fmt) - 1)) in
          change (2 ^ (8 * Z.of_nat (calcsize fmt) - 1)) with p in Hr;
          let q := eval vm_compute in (2 ^ (8 * Z.of_nat (calcsize fmt))) in
          change (2 ^ (8 * Z.of_nat (calcsize fmt))) with q in Hr;
          rewrite Ev, Eo; split; [apply build; lia|];
          cbn [get_int bind]; now rewrite <- Hp
      end
  end.

(** X19. Every byte pattern of an integer type is the encoding of the
    value it decodes to: whenever an integer decoder returns a value
    from a buffer, the value is in the range of its type, and encoding
    it gives back exactly the bytes that were read, from the offset to
    the returned offset. With the round trip from values this makes
    encoder and decoder inverse to each other on the integer types. *)
Theorem integer_decode_encode (rt : runtime) (t : Z) (data : bytes)
  (offset : Z) (v : pyval) (next : Z) :
  In t integer_types ->
  0 <= offset ->
  UADPDecoder.decode_value data t offset = Ok (v, next) ->
  representable t v /\
  UADPEncoder.encode_value rt v (Some t) = Ok (slice data offset next).
Proof.
  intros Ht Ho Hd.
  unfold integer_types in Ht. cbn [In] in Ht.
  destruct Ht as [<-|[<-|[<-|[<-|[<-|[<-|[<-|[<-|[]]]]]]]]];
    cbv beta iota delta
      [ UADPDecoder.decode_value UADPDecoder.decoders dict_get Z.eqb Pos.eqb
        BOOLEAN SBYTE BYTE INT16 UINT16 INT32 UINT32 INT64 UINT64 FLOAT DOUBLE
        STRING DATETIME GUID BYTESTRING UADPDecoder.returning
        UADPDecoder.decode_sbyte UADPDecoder.decode_byte
        UADPDecoder.decode_int16 UADPDecoder.decode_uint16
        UADPDecoder.decode_int32 UADPDecoder.decode_uint32
        UADPDecoder.decode_int64 UADPDecoder.decode_uint64 ] in Hd;
    cbv beta iota delta
      [ UADPEncoder.encode_value UADPEncoder.encoders dict_get Z.eqb Pos.eqb
        BOOLEAN SBYTE BYTE INT16 UINT16 INT32 UINT32 INT64 UINT64 FLOAT DOUBLE
        STRING DATETIME GUID BYTESTRING
        UADPEncoder.encode_sbyte UADPEncoder.encode_byte
        UADPEncoder.encode_int16 UADPEncoder.encode_uint16
        UADPEncoder.encode_int32 UADPEncoder.encode_uint32
        UADPEncoder.encode_int64 UADPEncoder.encode_uint64 pack ].
  - integer_case Fmt_b rep_sbyte.
  - integer_case Fmt_B rep_byte.
  - integer_case Fmt_h rep_int16.
  - integer_case Fmt_H rep_uint16.
  - integer_case Fmt_i rep_int32.
  - integer_case Fmt_I rep_uint32.
  - integer_case Fmt_q rep_int64.
  - integer_case Fmt_Q rep_uint64.
Qed.

Lemma integer_decode_encode_witness :
  representable INT16 (PyInt (-2)) /\
  UADPEncoder.encode_value example_runtime (PyInt (-2)) (Some INT16)
  = Ok (slice [ x0a; xfe; xff; x0b ] 1 3).
Proof.
  apply (integer_decode_encode example_runtime INT16 [ x0a; xfe; xff; x0b ] 1
           (PyInt (-2)) 3).
  - right. right. left. reflexivity.
  - lia.
  - reflexivity.
Defined.

(** ** The timestamp of the clock *)

(** X20. A DateTime encoded without a timestamp carries the clock: for a
    clock reading [now], in seconds since 2000-01-01, whose tick count
    fits 64 bits, the encoding has 8 bytes and decodes to
    (now + 946684800 + 11644473600) * 10^7, the 100 ns ticks since
    1601-01-01; and when the clock fails, the encoding is eight zero
    bytes, the tick count 0. *)
Theorem datetime_of_clock (rt : runtime) (now : Z) :
  time_time rt = Ok now ->
  0 <= filetime_of_clock now < 2 ^ 64 ->
  exists bs : bytes,
    UADPEncoder.encode_value rt PyNone (Some DATETIME) = Ok bs /\
    len bs = 8 /\
    UADPDecoder.decode_value bs DATETIME 0
    = Ok (PyInt (filetime_of_clock now), 8) /\
    forall failing : runtime,
      (exists e, time_time failing = Raise e) ->
      UADPEncoder.encode_value failing PyNone (Some DATETIME)
      = Ok [ x00; x00; x00; x00; x00; x00; x00; x00 ].
Proof.
  intros Hclock Hrange.
  assert (Henc : UADPEncoder.encode_value rt PyNone (Some DATETIME)
                 = Ok (pack_int Fmt_Q (filetime_of_clock now))).
  { cbv beta iota delta
      [ UADPEncoder.encode_value UADPEncoder.encoders dict_get Z.eqb Pos.eqb
        BOOLEAN SBYTE BYTE INT16 UINT16 INT32 UINT32 INT64 UINT64 FLOAT DOUBLE
        STRING DATETIME GUID BYTESTRING ].
    unfold UADPEncoder.encode_datetime. rewrite Hclock. reflexivity. }
  exists (pack_int Fmt_Q (filetime_of_clock now)).
  split; [exact Henc|]. split; [apply len_pack_int|]. split.
  - cbv beta iota delta
      [ UADPDecoder.decode_value UADPDecoder.decoders dict_get Z.eqb Pos.eqb
        BOOLEAN SBYTE BYTE INT16 UINT16 INT32 UINT32 INT64 UINT64 FLOAT DOUBLE
        STRING DATETIME GUID BYTESTRING UADPDecoder.returning
        UADPDecoder.decode_datetime ].
    rewrite <- (app_nil_r (pack_int Fmt_Q (filetime_of_clock now))).
    rewrite unpack_pack_unsigned by (try reflexivity; exact Hrange).
    reflexivity.
  - intros failing (e & He).
    cbv beta iota delta
      [ UADPEncoder.encode_value UADPEncoder.encoders dict_get Z.eqb Pos.eqb
        BOOLEAN SBYTE BYTE INT16 UINT16 INT32 UINT32 INT64 UINT64 FLOAT DOUBLE
        STRING DATETIME GUID BYTESTRING ].
    unfold UADPEncoder.encode_datetime. rewrite He. reflexivity.
Qed.

Lemma datetime_of_clock_witness :
  exists bs : bytes,
    UADPEncoder.encode_value (clock_at 0) PyNone (Some DATETIME) = Ok bs /\
    len bs = 8 /\
    UADPDecoder.decode_value bs DATETIME 0
    = Ok (PyInt (filetime_of_clock 0), 8) /\
    forall failing : runtime,
      (exists e, time_time failing = Raise e) ->
      UADPEncoder.encode_value failing PyNone (Some DATETIME)
      = Ok [ x00; x00; x00; x00; x00; x00; x00; x00 ].
Proof.
  apply (datetime_of_clock (clock_at 0) 0).
  - reflexivity.
  - vm_compute. split; [intros H; discriminate H|reflexivity].
Defined.
